(** * a2a-trace: the interception and correlation engine

    A shallow embedding of the Go sources
      - internal/proxy/interceptor.go   (classifier, request and response
                                         parsing, handleProxy)
      - internal/analyzer/analyzer.go   (insight rules, summary)
      - internal/process/manager.go     (buildEnv)
      - package store                   (models, tables, SaveMessage,
                                         SaveAgent, SaveInsight, queries)
    and the properties of the specification that were checked against them.

    Go's [int] and [int64] are modelled as [Z] with the 64-bit wrap-around
    written out where the code does arithmetic; Go strings are byte strings
    ([string], one [ascii] per byte). *)

From Stdlib Require Import ZArith Lia Bool Ascii String List DecimalString.
From Stdlib Require Import Sorting.Permutation.
From stdpp Require Import gmap strings list.

Local Open Scope Z_scope.

(** ** Go's [strings] package, the functions the sources call *)

Module GoStrings.

Fixpoint HasPrefix (s prefix : string) : bool :=
  match prefix, s with
  | EmptyString, _ => true
  | String c p, String d s' => Ascii.eqb c d && HasPrefix s' p
  | String _ _, EmptyString => false
  end.

(** [strings.Contains(s, substr)]: [substr] occurs at some offset of [s]. *)
Fixpoint Contains (s substr : string) : bool :=
  HasPrefix s substr ||
  match s with
  | EmptyString => false
  | String _ s' => Contains s' substr
  end.

(** [strings.HasSuffix(s, suffix)]: some tail of [s] is [suffix]. *)
Fixpoint HasSuffix (s suffix : string) : bool :=
  String.eqb s suffix ||
  match s with
  | EmptyString => false
  | String _ s' => HasSuffix s' suffix
  end.

(** [strings.TrimPrefix]. *)
Fixpoint drop (n : nat) (s : string) : string :=
  match n, s with
  | O, _ => s
  | S n', String _ s' => drop n' s'
  | S _, EmptyString => EmptyString
  end.

Definition TrimPrefix (s prefix : string) : string :=
  if HasPrefix s prefix then drop (String.length prefix) s else s.

Definition TrimSuffix (s suffix : string) : string :=
  if HasSuffix s suffix
  then String.substring 0 (String.length s - String.length suffix) s
  else s.

(** The text of [s] before the first occurrence of the byte [sep], and
    whether [sep] occurs at all. *)
Fixpoint before (sep : ascii) (s : string) : string :=
  match s with
  | EmptyString => EmptyString
  | String c s' => if Ascii.eqb c sep then EmptyString else String c (before sep s')
  end.

Fixpoint occurs (sep : ascii) (s : string) : bool :=
  match s with
  | EmptyString => false
  | String c s' => Ascii.eqb c sep || occurs sep s'
  end.

(** [strings.Split(s, sep)[0]] for a one-byte separator: the first field. *)
Definition SplitFirst (s : string) (sep : ascii) : string := before sep s.

(** [strings.Replace(s, old, "", 1)] for a one-byte [old]: the first
    occurrence is removed. *)
Fixpoint RemoveFirst (old : ascii) (s : string) : string :=
  match s with
  | EmptyString => EmptyString
  | String c s' => if Ascii.eqb c old then s' else String c (RemoveFirst old s')
  end.

End GoStrings.

(** ** net/http: the parts of a request the proxy reads *)

Module http.

(** [url.URL] as the proxy uses it: its rendering, its path and the
    request URI. *)
Record URL := {
  String_ : string;
  Path : string;
  RequestURI : string
}.

Record Request := {
  Method : string;
  Url : URL;
  Host : string;
  Header : gmap string (list string)
}.

(** [Header.Get(key)]: the first value stored under the (canonical) key,
    the empty string when there is none. *)
Definition Header_Get (h : gmap string (list string)) (key : string) : string :=
  match h !! key with
  | Some (v :: _) => v
  | _ => EmptyString
  end.

Record Response := {
  StatusCode : Z;
  RespHeader : gmap string (list string)
}.

End http.

(** ** internal/proxy/interceptor.go: the classifier *)

Definition agent_card_path : string := "/.well-known/agent.json".

Definition IsA2ARequest (r : http.Request) : bool :=
  let contentType := http.Header_Get (http.Header r) "Content-Type" in
  if negb (GoStrings.Contains contentType "application/json") then false
  else if negb (String.eqb (http.Method r) "POST") then
    if String.eqb (http.Method r) "GET"
       && GoStrings.Contains (http.Path (http.Url r)) agent_card_path
    then true
    else false
  else true.

(** The classifier as the specification words it: (a) POST with a JSON
    content type, or (b) GET with a path ending in the agent-card path. *)
Definition IsA2ARequest_spec (r : http.Request) : bool :=
  let contentType := http.Header_Get (http.Header r) "Content-Type" in
  (String.eqb (http.Method r) "POST"
     && GoStrings.Contains contentType "application/json")
  || (String.eqb (http.Method r) "GET"
     && GoStrings.HasSuffix (http.Path (http.Url r)) agent_card_path).


(** ** Go's machine integers and rune conversion *)

(** The value of a 64-bit ([int], [int64]) or 32-bit ([rune]) signed
    integer after an operation whose mathematical result is [z]. *)
Definition wrap64 (z : Z) : Z := (z + 2 ^ 63) mod 2 ^ 64 - 2 ^ 63.
Definition wrap32 (z : Z) : Z := (z + 2 ^ 31) mod 2 ^ 32 - 2 ^ 31.

(** [rune(n)] for an [int] [n]: truncation to 32 bits. *)
Definition rune (n : Z) : Z := wrap32 n.

Definition byte (z : Z) : ascii := ascii_of_N (Z.to_N z).

Definition string_of_bytes (l : list Z) : string :=
  fold_right (fun b s => String (byte b) s) EmptyString l.

(** [utf8.EncodeRune]: invalid code points (negative, surrogates, above
    U+10FFFF) are encoded as U+FFFD. *)
Definition utf8_EncodeRune (r : Z) : list Z :=
  if (r <? 0) || (1114111 <? r) || ((55296 <=? r) && (r <=? 57343))
  then [239; 191; 189]
  else if r <? 128 then [r]
  else if r <? 2048 then
    [Z.lor 192 (Z.shiftr r 6); Z.lor 128 (Z.land r 63)]
  else if r <? 65536 then
    [Z.lor 224 (Z.shiftr r 12);
     Z.lor 128 (Z.land (Z.shiftr r 6) 63);
     Z.lor 128 (Z.land r 63)]
  else
    [Z.lor 240 (Z.shiftr r 18);
     Z.lor 128 (Z.land (Z.shiftr r 12) 63);
     Z.lor 128 (Z.land (Z.shiftr r 6) 63);
     Z.lor 128 (Z.land r 63)].

(** The conversion [string(r)] of a rune [r]. *)
Definition string_of_rune (r : Z) : string := string_of_bytes (utf8_EncodeRune r).

(** [strconv.Itoa], [fmt.Sprintf("%d", n)]: decimal digits. *)
Definition Itoa (n : Z) : string := NilZero.string_of_int (Z.to_int n).

(** [time.Duration.Milliseconds()]: nanoseconds to milliseconds, Go's
    integer division (truncated). *)
Definition Milliseconds (d : Z) : Z := Z.quot d 1000000.

Definition time_Second : Z := 1000000000.

(** ** internal/store/models.go *)

Module Message.
Record t := mk {
  ID : string;
  TraceID : string;
  Timestamp : Z;         (* time.Time, as nanoseconds *)
  Direction : string;    (* "request" or "response" *)
  FromAgent : string;
  ToAgent : string;
  Method : string;
  URL : string;
  Headers : string;
  Body : string;
  DurationMs : Z;
  StatusCode : Z;
  Error : string;
  RequestID : string;    (* Links response to request *)
  ContentType : string;
  Size : Z
}.

(** Go's zero value of the struct. *)
Definition zero : t :=
  mk EmptyString EmptyString 0 EmptyString EmptyString EmptyString EmptyString
     EmptyString EmptyString EmptyString 0 0 EmptyString EmptyString EmptyString 0.

Definition set_ID (v : string) (m : t) : t :=
  mk v (TraceID m) (Timestamp m) (Direction m) (FromAgent m) (ToAgent m)
     (Method m) (URL m) (Headers m) (Body m) (DurationMs m) (StatusCode m)
     (Error m) (RequestID m) (ContentType m) (Size m).
Definition set_ToAgent (v : string) (m : t) : t :=
  mk (ID m) (TraceID m) (Timestamp m) (Direction m) (FromAgent m) v
     (Method m) (URL m) (Headers m) (Body m) (DurationMs m) (StatusCode m)
     (Error m) (RequestID m) (ContentType m) (Size m).
Definition set_Method (v : string) (m : t) : t :=
  mk (ID m) (TraceID m) (Timestamp m) (Direction m) (FromAgent m) (ToAgent m)
     v (URL m) (Headers m) (Body m) (DurationMs m) (StatusCode m)
     (Error m) (RequestID m) (ContentType m) (Size m).
Definition set_Headers (v : string) (m : t) : t :=
  mk (ID m) (TraceID m) (Timestamp m) (Direction m) (FromAgent m) (ToAgent m)
     (Method m) (URL m) v (Body m) (DurationMs m) (StatusCode m)
     (Error m) (RequestID m) (ContentType m) (Size m).
Definition set_Error (v : string) (m : t) : t :=
  mk (ID m) (TraceID m) (Timestamp m) (Direction m) (FromAgent m) (ToAgent m)
     (Method m) (URL m) (Headers m) (Body m) (DurationMs m) (StatusCode m)
     v (RequestID m) (ContentType m) (Size m).
Definition set_RequestID (v : string) (m : t) : t :=
  mk (ID m) (TraceID m) (Timestamp m) (Direction m) (FromAgent m) (ToAgent m)
     (Method m) (URL m) (Headers m) (Body m) (DurationMs m) (StatusCode m)
     (Error m) v (ContentType m) (Size m).
End Message.

Module Agent.
Record t := mk {
  ID : string;
  URL : string;
  Name : string;
  Description : string;
  Version : string;
  Skills : string;       (* JSON array *)
  FirstSeen : Z
}.

Definition set_ID (v : string) (a : t) : t :=
  mk v (URL a) (Name a) (Description a) (Version a) (Skills a) (FirstSeen a).
End Agent.

Module Insight.
Record t := mk {
  ID : string;
  TraceID : string;
  MessageID : string;
  Type_ : string;        (* "error", "warning", "info" *)
  Category : string;
  Title : string;
  Details : string;
  Timestamp : Z
}.

Definition set_ID (v : string) (i : t) : t :=
  mk v (TraceID i) (MessageID i) (Type_ i) (Category i) (Title i) (Details i)
     (Timestamp i).
End Insight.

(** A decoded JSON-RPC [id] ([interface{}]), by what the code reads of it:
    a string; a number ([float64]), carried by its conversion [int(v)];
    any other value, carried by its [json.Marshal] rendering. *)
Inductive json_id :=
| IdNil
| IdString (s : string)
| IdFloat64 (int_v : Z)
| IdOther (marshalled : string).

Module A2ARequest.
Record t := mk { JSONRPC : string; Method : string; ID : json_id }.
End A2ARequest.

Module A2AError.
Record t := mk { Code : Z; Message : string }.
End A2AError.

Module A2AResponse.
Record t := mk { JSONRPC : string; ID : json_id; Error : option A2AError.t }.
End A2AResponse.

Module Skill.
Record t := mk {
  ID : string; Name : string; Description : string;
  Tags : list string; Examples : list string
}.
End Skill.

Module AgentCard.
Record t := mk {
  Name : string; Description : string; URL : string; Version : string;
  Skills : list Skill.t
}.
End AgentCard.

(** A value of a details map ([map[string]interface{}]). *)
Inductive detail := DInt (n : Z) | DStr (s : string).

(** ** The Go standard library functions the sources call and this
    development does not define: [encoding/json], [net/http.StatusText],
    [strconv.Quote]. The embedded code is parametric in them. *)
Class GoLib := {
  (** [json.Unmarshal(body, &v)]: [None] when it returns an error. *)
  json_Unmarshal_A2ARequest : string -> option A2ARequest.t;
  json_Unmarshal_A2AResponse : string -> option A2AResponse.t;
  json_Unmarshal_AgentCard : string -> option AgentCard.t;
  (** into a [map[string]interface{}]: the keys of the decoded map (none
      for the body [null], which decodes without an error). *)
  json_Unmarshal_object : string -> option (gset string);
  json_Marshal_headers : gmap string string -> string;
  json_Marshal_skills : list Skill.t -> string;
  json_MarshalIndent : gmap string detail -> string;
  http_StatusText : Z -> string;
  strconv_Quote : string -> string
}.

(** ** internal/store/store.go: the tables *)

Module Store.
(** The rows of the SQLite tables, in insertion order, and the text under
    which the driver of the connection stores a [time.Time]: the
    TIMESTAMP columns hold that text, zone offset included, and an
    [ORDER BY] on such a column compares it byte by byte. A time is known
    here by its instant; the times of a run all come from [time.Now()],
    whose zone is that of the process. *)
Record t := mk {
  messages : list Message.t;
  agents : list Agent.t;
  insights : list Insight.t;
  time_text : Z -> string
}.

Definition empty (text : Z -> string) : t := mk [] [] [] text.

Definition set_messages (v : list Message.t) (s : t) : t :=
  mk v (agents s) (insights s) (time_text s).
Definition set_agents (v : list Agent.t) (s : t) : t :=
  mk (messages s) v (insights s) (time_text s).
Definition set_insights (v : list Insight.t) (s : t) : t :=
  mk (messages s) (agents s) v (time_text s).
End Store.

(** ** The state of one run of the tool

    [uuid.New()] and [time.Now()] read the outside world: the [n]-th call
    of each returns the [n]-th value of a source fixed for the run. The
    handlers [OnMessage], [OnAgent] and [OnInsight] are recorded by what
    was handed to them. *)
Record Sys := mkSys {
  uuid_source : nat -> string;
  uuid_calls : nat;
  clock : nat -> Z;
  clock_calls : nat;
  db : Store.t;
  published : list Message.t;
  published_agents : list Agent.t;
  published_insights : list Insight.t
}.

(** State passing: a computation reads and updates the run's state. *)
Definition M (A : Type) : Type := Sys -> A * Sys.

Definition ret {A} (a : A) : M A := fun s => (a, s).

Definition bind {A B} (c : M A) (k : A -> M B) : M B :=
  fun s => let (a, s') := c s in k a s'.

Declare Scope go_scope.
Delimit Scope go_scope with go.
Notation "'do' x <- c ; k" := (bind c (fun x => k))
  (at level 10, x pattern, c at level 100, k at level 200) : go_scope.
Notation "'run' c ; k" := (bind c (fun _ => k))
  (at level 10, c at level 100, k at level 200) : go_scope.
Local Open Scope go_scope.

Definition uuid_New : M string := fun s =>
  (uuid_source s (uuid_calls s),
   mkSys (uuid_source s) (S (uuid_calls s)) (clock s) (clock_calls s) (db s)
         (published s) (published_agents s) (published_insights s)).

Definition time_Now : M Z := fun s =>
  (clock s (clock_calls s),
   mkSys (uuid_source s) (uuid_calls s) (clock s) (S (clock_calls s)) (db s)
         (published s) (published_agents s) (published_insights s)).

(** [t.Sub(u)]: the duration [t - u], a 64-bit count of nanoseconds; a
    difference out of range gives the largest or smallest duration. *)
Definition time_Sub (t u : Z) : Z :=
  if t - u <? - 2 ^ 63 then - 2 ^ 63
  else if 2 ^ 63 - 1 <? t - u then 2 ^ 63 - 1
  else t - u.

(** [time.Since(t)] is [time.Now().Sub(t)]. *)
Definition time_Since (t : Z) : M Z :=
  do now <- time_Now; ret (time_Sub now t).

Definition get_db : M Store.t := fun s => (db s, s).

Definition put_db (d : Store.t) : M unit := fun s =>
  (tt, mkSys (uuid_source s) (uuid_calls s) (clock s) (clock_calls s) d
             (published s) (published_agents s) (published_insights s)).

(** [if handler != nil { handler(x) }] for the three handlers. *)
Definition notify_message (set : bool) (msg : Message.t) : M unit := fun s =>
  (tt, mkSys (uuid_source s) (uuid_calls s) (clock s) (clock_calls s) (db s)
             (if set then published s ++ [msg] else published s)
             (published_agents s) (published_insights s)).

Definition notify_agent (set : bool) (a : Agent.t) : M unit := fun s =>
  (tt, mkSys (uuid_source s) (uuid_calls s) (clock s) (clock_calls s) (db s)
             (published s)
             (if set then published_agents s ++ [a] else published_agents s)
             (published_insights s)).

Definition notify_insight (set : bool) (i : Insight.t) : M unit := fun s =>
  (tt, mkSys (uuid_source s) (uuid_calls s) (clock s) (clock_calls s) (db s)
             (published s) (published_agents s)
             (if set then published_insights s ++ [i] else published_insights s)).

(** *** SaveMessage, SaveAgent, SaveInsight

    Each assigns a fresh identifier to a row that has none (through the
    pointer, so the caller sees it) and runs one INSERT. The schema makes
    [id] the primary key of every table and [url] unique in [agents]; an
    INSERT that breaks a key the statement does not handle fails and leaves
    the table as it was. For [agents] the statement handles the URL, and
    SQLite looks at the key of an [ON CONFLICT ... DO UPDATE] before the
    others: a proposed row whose URL is in the table updates the row of
    that URL, whatever its [id]; only a row of a new URL can fail on its
    [id]. The result is the row as the caller now holds
    it and whether the statement succeeded ([err == nil]). *)

Definition has_message_id (id : string) (rows : list Message.t) : bool :=
  existsb (fun r => String.eqb (Message.ID r) id) rows.

Definition SaveMessage (msg : Message.t) : M (Message.t * bool) :=
  do msg <- (if String.eqb (Message.ID msg) EmptyString
             then do id <- uuid_New; ret (Message.set_ID id msg)
             else ret msg);
  do d <- get_db;
  if has_message_id (Message.ID msg) (Store.messages d)
  then ret (msg, false)
  else run put_db (Store.set_messages (Store.messages d ++ [msg]) d);
       ret (msg, true).

Definition has_agent_id (id : string) (rows : list Agent.t) : bool :=
  existsb (fun r => String.eqb (Agent.ID r) id) rows.

Definition has_agent_url (url : string) (rows : list Agent.t) : bool :=
  existsb (fun r => String.eqb (Agent.URL r) url) rows.

(** [ON CONFLICT(url) DO UPDATE SET name = excluded.name, ...]: the row
    that holds the URL takes the four fields of the row proposed. *)
Definition upsert_fields (new old : Agent.t) : Agent.t :=
  Agent.mk (Agent.ID old) (Agent.URL old) (Agent.Name new) (Agent.Description new)
           (Agent.Version new) (Agent.Skills new) (Agent.FirstSeen old).

Definition upsert_agent (new : Agent.t) (rows : list Agent.t) : list Agent.t :=
  map (fun old => if String.eqb (Agent.URL old) (Agent.URL new)
                  then upsert_fields new old else old) rows.

Definition SaveAgent (agent : Agent.t) : M (Agent.t * bool) :=
  do agent <- (if String.eqb (Agent.ID agent) EmptyString
               then do id <- uuid_New; ret (Agent.set_ID id agent)
               else ret agent);
  do d <- get_db;
  if has_agent_url (Agent.URL agent) (Store.agents d)
  then run put_db (Store.set_agents (upsert_agent agent (Store.agents d)) d);
       ret (agent, true)
  else if has_agent_id (Agent.ID agent) (Store.agents d)
  then ret (agent, false)
  else run put_db (Store.set_agents (Store.agents d ++ [agent]) d);
       ret (agent, true).

Definition has_insight_id (id : string) (rows : list Insight.t) : bool :=
  existsb (fun r => String.eqb (Insight.ID r) id) rows.

Definition SaveInsight (insight : Insight.t) : M (Insight.t * bool) :=
  do insight <- (if String.eqb (Insight.ID insight) EmptyString
                 then do id <- uuid_New; ret (Insight.set_ID id insight)
                 else ret insight);
  do d <- get_db;
  if has_insight_id (Insight.ID insight) (Store.insights d)
  then ret (insight, false)
  else run put_db (Store.set_insights (Store.insights d ++ [insight]) d);
       ret (insight, true).

(** [ORDER BY timestamp]: insertion into a list kept in order; rows of
    equal key stay in the order of their insertion. The key of a row is
    the text stored for its time, compared as SQLite compares text, byte
    by byte and then by length. *)
Fixpoint insert_by {A} (le : A -> A -> bool) (x : A) (l : list A) : list A :=
  match l with
  | [] => [x]
  | y :: l' => if le x y then x :: l else y :: insert_by le x l'
  end.

Definition sort_by {A} (le : A -> A -> bool) (l : list A) : list A :=
  fold_right (insert_by le) [] l.

Definition GetMessages (traceID : string) : M (list Message.t) :=
  do d <- get_db;
  ret (sort_by (fun a b => String.leb (Store.time_text d (Message.Timestamp a))
                                      (Store.time_text d (Message.Timestamp b)))
         (List.filter (fun m => String.eqb (Message.TraceID m) traceID) (Store.messages d))).

Definition GetInsights (traceID : string) : M (list Insight.t) :=
  do d <- get_db;
  ret (sort_by (fun a b => String.leb (Store.time_text d (Insight.Timestamp b))
                                      (Store.time_text d (Insight.Timestamp a)))
         (List.filter (fun i => String.eqb (Insight.TraceID i) traceID) (Store.insights d))).

(** ** internal/proxy/interceptor.go *)

Section Interceptor.
Context {lib : GoLib}.

(** [extractAgentFromURL]: the host part of a URL. *)
Definition extractAgentFromURL (urlStr : string) : string :=
  let urlStr := GoStrings.TrimPrefix urlStr "http://" in
  let urlStr := GoStrings.TrimPrefix urlStr "https://" in
  if GoStrings.occurs "/"%char urlStr then GoStrings.before "/"%char urlStr else urlStr.

(** [formatRequestID]: the JSON-RPC id as a string. *)
Definition formatRequestID (id : json_id) : string :=
  match id with
  | IdString v => v
  | IdFloat64 v =>
      GoStrings.TrimSuffix
        (GoStrings.TrimSuffix
           (GoStrings.RemoveFirst "."%char (string_of_rune (rune v))) "0") "."
  | IdOther data => data
  | IdNil => "null"
  end.

(** The first value of every header that has one. *)
Definition first_values (h : gmap string (list string)) : gmap string string :=
  omap (fun values => match values with v :: _ => Some v | [] => None end) h.

Definition ParseRequest (r : http.Request) (body : string) (traceID : string)
  : M Message.t :=
  do now <- time_Now;
  let msg :=
    Message.mk EmptyString traceID now "request" EmptyString EmptyString EmptyString
      (http.String_ (http.Url r)) EmptyString body 0 0 EmptyString EmptyString
      (http.Header_Get (http.Header r) "Content-Type")
      (Z.of_nat (String.length body)) in
  let msg := Message.set_Headers (json_Marshal_headers (first_values (http.Header r))) msg in
  let msg := Message.set_ToAgent (extractAgentFromURL (http.String_ (http.Url r))) msg in
  ret match json_Unmarshal_A2ARequest body with
      | Some a2aReq =>
          let msg := Message.set_Method (A2ARequest.Method a2aReq) msg in
          match A2ARequest.ID a2aReq with
          | IdNil => msg
          | id => Message.set_RequestID (formatRequestID id) msg
          end
      | None => msg
      end.

Definition ParseResponse (resp : http.Response) (body : string)
    (requestMsg : Message.t) (duration : Z) : M Message.t :=
  do now <- time_Now;
  let msg :=
    Message.mk EmptyString (Message.TraceID requestMsg) now "response"
      (Message.ToAgent requestMsg) EmptyString EmptyString
      (Message.URL requestMsg) EmptyString body (Milliseconds duration)
      (http.StatusCode resp) EmptyString (Message.RequestID requestMsg)
      (http.Header_Get (http.RespHeader resp) "Content-Type")
      (Z.of_nat (String.length body)) in
  let msg := Message.set_Headers (json_Marshal_headers (first_values (http.RespHeader resp))) msg in
  (* Parse JSON-RPC response for errors *)
  let msg :=
    match json_Unmarshal_A2AResponse body with
    | Some a2aResp =>
        match A2AResponse.Error a2aResp with
        | Some e => Message.set_Error (A2AError.Message e) msg
        | None => msg
        end
    | None => msg
    end in
  (* Check HTTP error *)
  let msg :=
    if 400 <=? http.StatusCode resp
    then Message.set_Error (http_StatusText (http.StatusCode resp)) msg
    else msg in
  ret msg.

(** The JSON-RPC error message of a body, empty when the body does not
    decode or carries no error. *)
Definition jsonrpc_error_text (body : string) : string :=
  match json_Unmarshal_A2AResponse body with
  | Some a2aResp =>
      match A2AResponse.Error a2aResp with
      | Some e => A2AError.Message e
      | None => EmptyString
      end
  | None => EmptyString
  end.

Definition ParseAgentCard (body : string) (url : string) : M (option Agent.t) :=
  match json_Unmarshal_AgentCard body with
  | None => ret None
  | Some card =>
      let skillsJSON := json_Marshal_skills (AgentCard.Skills card) in
      do now <- time_Now;
      ret (Some (Agent.mk EmptyString url (AgentCard.Name card)
                   (AgentCard.Description card) (AgentCard.Version card)
                   skillsJSON now))
  end.

End Interceptor.

(** ** internal/proxy/proxy.go *)

Module url.
(** [url.Error], the type of every error [http.Client.Do] returns. *)
Record Error := { Op : string; URL : string; Err : string }.
End url.

Module Proxy.
(** The fields of [Proxy] that [handleProxy] reads; the store is the
    run's [db], a handler is given by whether it is set. *)
Record t := { traceID : string; onMessage : bool; onAgent : bool }.
End Proxy.

(** What the network does in one traversal of the proxy. *)
Inductive Upstream :=
| DoError (err : url.Error)
    (* p.client.Do returned an error: DNS, connect, timeout *)
| DoResponse (resp : http.Response) (respBody : option string).
    (* a response; io.ReadAll of its body ([None] when it fails) *)

(** One inbound request as [handleProxy] meets it. *)
Record Inbound := {
  request : http.Request;
  reqBody : option string;        (* ReadBody(r.Body); None when it fails *)
  newRequestErr : option string;  (* the error of http.NewRequest, if any *)
  upstream : Upstream
}.

(** What the caller of the proxy gets. *)
Inductive Reply :=
| Tunnel                          (* CONNECT: handed to handleConnect *)
| Written (status : Z) (header : gmap string (list string)) (body : string).

Definition newline : string := String (ascii_of_nat 10) EmptyString.

(** [http.Error(w, error, code)]. *)
Definition http_Error (error : string) (code : Z) : Reply :=
  Written code
    (list_to_map [("Content-Type", ["text/plain; charset=utf-8"]);
                  ("X-Content-Type-Options", ["nosniff"])])
    (error +:+ newline).

Section ProxyHandler.
Context {lib : GoLib}.

(** The [Error()] method of [url.Error]: the operation, the quoted URL
    and the cause, as [Op + space + Quote(URL) + colon + space + Err]. *)
Definition url_Error_Error (e : url.Error) : string :=
  url.Op e +:+ " " +:+ strconv_Quote (url.URL e) +:+ ": " +:+ url.Err e.

Definition capture_request (p : Proxy.t) (r : http.Request) (reqBody : string)
  : M (option Message.t) :=
  if IsA2ARequest r || (0 <? String.length reqBody)%nat then
    do reqMsg <- ParseRequest r reqBody (Proxy.traceID p);
    do saved <- SaveMessage reqMsg;
    let reqMsg := fst saved in
    run notify_message (Proxy.onMessage p) reqMsg;
    ret (Some reqMsg)
  else ret None.

Definition capture_failure (p : Proxy.t) (targetURL : string) (startTime : Z)
    (err : url.Error) (reqMsg : option Message.t) : M unit :=
  match reqMsg with
  | Some reqMsg =>
      do now <- time_Now;
      do since <- time_Since startTime;
      let errMsg :=
        Message.mk EmptyString (Proxy.traceID p) now "response" EmptyString
          EmptyString EmptyString targetURL EmptyString EmptyString
          (Milliseconds since) 0 (url_Error_Error err) (Message.ID reqMsg)
          EmptyString 0 in
      do saved <- SaveMessage errMsg;
      let errMsg := fst saved in
      notify_message (Proxy.onMessage p) errMsg
  | None => ret tt
  end.

Definition capture_response (p : Proxy.t) (r : http.Request) (targetURL : string)
    (resp : http.Response) (respBody : string) (duration : Z)
    (reqMsg : option Message.t) : M unit :=
  match reqMsg with
  | Some reqMsg =>
      do respMsg <- ParseResponse resp respBody reqMsg duration;
      do saved <- SaveMessage respMsg;
      let respMsg := fst saved in
      run notify_message (Proxy.onMessage p) respMsg;
      (* Check if this is an agent card response *)
      if GoStrings.Contains (http.Path (http.Url r)) agent_card_path then
        do agent <- ParseAgentCard respBody targetURL;
        match agent with
        | Some agent =>
            do saved <- SaveAgent agent;
            let agent := fst saved in
            notify_agent (Proxy.onAgent p) agent
        | None => ret tt
        end
      else ret tt
  | None => ret tt
  end.

Definition target_url (r : http.Request) : string :=
  let targetURL := http.String_ (http.Url r) in
  if negb (GoStrings.HasPrefix targetURL "http")
  then "http://" +:+ http.Host r +:+ http.RequestURI (http.Url r)
  else targetURL.

Definition handleProxy (p : Proxy.t) (x : Inbound) : M Reply :=
  let r := request x in
  if String.eqb (http.Method r) "CONNECT" then ret Tunnel
  else
    let targetURL := target_url r in
    match reqBody x with
    | None => ret (http_Error "Failed to read request body" 500)
    | Some reqBody =>
        do reqMsg <- capture_request p r reqBody;
        do startTime <- time_Now;
        match newRequestErr x with
        | Some err => ret (http_Error ("Failed to create request: " +:+ err) 500)
        | None =>
            match upstream x with
            | DoError err =>
                run capture_failure p targetURL startTime err reqMsg;
                ret (http_Error ("Proxy error: " +:+ url_Error_Error err) 502)
            | DoResponse resp respBody =>
                do duration <- time_Since startTime;
                match respBody with
                | None => ret (http_Error "Failed to read response" 500)
                | Some respBody =>
                    run capture_response p r targetURL resp respBody duration reqMsg;
                    ret (Written (http.StatusCode resp) (http.RespHeader resp) respBody)
                end
            end
        end
    end.

(** The proxy serves the inbound requests one after the other. *)
Fixpoint serve (p : Proxy.t) (xs : list Inbound) : M (list Reply) :=
  match xs with
  | [] => ret []
  | x :: xs' =>
      do reply <- handleProxy p x;
      do replies <- serve p xs';
      ret (reply :: replies)
  end.

End ProxyHandler.

(** ** internal/analyzer/analyzer.go *)

Module Analyzer.
Record Config := {
  cfg_TraceID : string;
  cfg_SlowThreshold : Z;   (* time.Duration, nanoseconds *)
  cfg_OnInsight : bool
}.

Record t := mk {
  traceID : string;
  slowThreshold : Z;
  onInsight : bool;
  requestTimes : gmap string Z;
  methodCounts : gmap string Z;
  agentErrors : gmap string Z
}.
End Analyzer.

(** [m[k]] on a Go map of counters: zero for a key that is absent. *)
Definition count_of (m : gmap string Z) (k : string) : Z := default 0 (m !! k).

(** [m[k]++]. *)
Definition increment (m : gmap string Z) (k : string) : gmap string Z :=
  <[k := wrap64 (count_of m k + 1)]> m.

Definition New (cfg : Analyzer.Config) : Analyzer.t :=
  let threshold := Analyzer.cfg_SlowThreshold cfg in
  let threshold := if threshold =? 0 then time_Second else threshold in
  Analyzer.mk (Analyzer.cfg_TraceID cfg) threshold (Analyzer.cfg_OnInsight cfg) ∅ ∅ ∅.

Section AnalyzerRules.
Context {lib : GoLib}.

Definition formatDetails (data : gmap string detail) : string := json_MarshalIndent data.

Definition formatSlowResponseDetails (msg : Message.t) : string :=
  formatDetails (list_to_map
    [("duration_ms", DInt (Message.DurationMs msg));
     ("url", DStr (Message.URL msg));
     ("method", DStr (Message.Method msg));
     ("suggestion",
      DStr "Consider adding timeout handling or investigating agent performance")]).

Definition formatErrorTitle (msg : Message.t) : string :=
  if 400 <=? Message.StatusCode msg
  then "HTTP Error " +:+ string_of_rune (rune (Message.StatusCode msg))
  else "A2A Error Response".

Definition formatErrorDetails (msg : Message.t) : string :=
  let details : gmap string detail := list_to_map
    [("status_code", DInt (Message.StatusCode msg));
     ("error", DStr (Message.Error msg));
     ("url", DStr (Message.URL msg));
     ("method", DStr (Message.Method msg))] in
  let details :=
    if String.eqb (Message.Body msg) EmptyString then details
    else match json_Unmarshal_A2AResponse (Message.Body msg) with
         | Some resp =>
             match A2AResponse.Error resp with
             | Some e =>
                 <["error_message" := DStr (A2AError.Message e)]>
                   (<["error_code" := DInt (A2AError.Code e)]> details)
             | None => details
             end
         | None => details
         end in
  formatDetails details.

Definition formatRetryLoopDetails (method : string) (count : Z) : string :=
  formatDetails (list_to_map
    [("method", DStr method);
     ("call_count", DInt count);
     ("suggestion", DStr "Check for proper error handling and backoff logic")]).

Definition checkSlowResponse (a : Analyzer.t) (msg : Message.t) : M (option Insight.t) :=
  if Message.DurationMs msg <=? Milliseconds (Analyzer.slowThreshold a) then ret None
  else
    do id <- uuid_New;
    do now <- time_Now;
    ret (Some (Insight.mk id (Analyzer.traceID a) (Message.ID msg) "warning"
                 "slow_response" "Slow Response Detected"
                 (formatSlowResponseDetails msg) now)).

Definition checkError (a : Analyzer.t) (msg : Message.t)
  : M (Analyzer.t * option Insight.t) :=
  if String.eqb (Message.Error msg) EmptyString && (Message.StatusCode msg <? 400)
  then ret (a, None)
  else
    (* Track errors per agent *)
    let a := Analyzer.mk (Analyzer.traceID a) (Analyzer.slowThreshold a)
               (Analyzer.onInsight a) (Analyzer.requestTimes a)
               (Analyzer.methodCounts a)
               (increment (Analyzer.agentErrors a) (Message.FromAgent msg)) in
    let insightType :=
      if (400 <=? Message.StatusCode msg) && (Message.StatusCode msg <? 500)
      then "warning" else "error" in
    do id <- uuid_New;
    do now <- time_Now;
    ret (a, Some (Insight.mk id (Analyzer.traceID a) (Message.ID msg) insightType
                    "error" (formatErrorTitle msg) (formatErrorDetails msg) now)).

(** [strings.Join(elems, sep)]. *)
Fixpoint Join (elems : list string) (sep : string) : string :=
  match elems with
  | [] => EmptyString
  | [e] => e
  | e :: rest => e +:+ sep +:+ Join rest sep
  end.

Definition protocol_violations (msg : Message.t) : list string :=
  if String.eqb (Message.Body msg) EmptyString then []
  else match json_Unmarshal_object (Message.Body msg) with
       | Some resp =>
           (if bool_decide ("jsonrpc" ∈ resp) then []
            else ["Missing 'jsonrpc' field"])
           ++ (if bool_decide ("id" ∈ resp) then []
               else if (200 <=? Message.StatusCode msg) && (Message.StatusCode msg <? 300)
               then if bool_decide ("result" ∈ resp)
                    then ["Missing 'id' field in response"] else []
               else [])
       | None => []
       end.

Definition checkProtocolViolation (a : Analyzer.t) (msg : Message.t)
  : M (option Insight.t) :=
  let violations := protocol_violations msg in
  match violations with
  | [] => ret None
  | _ =>
      do id <- uuid_New;
      do now <- time_Now;
      ret (Some (Insight.mk id (Analyzer.traceID a) (Message.ID msg) "warning"
                   "protocol_violation" "A2A Protocol Violation"
                   (Join violations "; ") now))
  end.

Definition checkRetryLoop (a : Analyzer.t) (msg : Message.t) : M (option Insight.t) :=
  if String.eqb (Message.Method msg) EmptyString then ret None
  else
    let count := count_of (Analyzer.methodCounts a) (Message.Method msg) in
    if (0 <? count) && (Z.rem count 5 =? 0) then
      do id <- uuid_New;
      do now <- time_Now;
      ret (Some (Insight.mk id (Analyzer.traceID a) (Message.ID msg) "warning"
                   "retry_loop" "Potential Retry Loop Detected"
                   (formatRetryLoopDetails (Message.Method msg) count) now))
    else ret None.

(** [insights = append(insights, insight)] when [insight != nil]. *)
Definition append_some (insights : list Insight.t) (i : option Insight.t) : list Insight.t :=
  match i with
  | Some i => insights ++ [i]
  | None => insights
  end.

(** The closing loop of [AnalyzeMessage]: every insight is saved, and
    broadcast when the save succeeded. *)
Fixpoint save_and_broadcast (onInsight : bool) (insights : list Insight.t)
  : M (list Insight.t) :=
  match insights with
  | [] => ret []
  | insight :: rest =>
      do saved <- SaveInsight insight;
      run (if snd saved then notify_insight onInsight (fst saved) else ret tt);
      do rest <- save_and_broadcast onInsight rest;
      ret (fst saved :: rest)
  end.

Definition note_request (a : Analyzer.t) (msg : Message.t) : Analyzer.t :=
  if String.eqb (Message.Direction msg) "request"
  then Analyzer.mk (Analyzer.traceID a) (Analyzer.slowThreshold a) (Analyzer.onInsight a)
         (<[Message.ID msg := Message.Timestamp msg]> (Analyzer.requestTimes a))
         (increment (Analyzer.methodCounts a) (Message.Method msg))
         (Analyzer.agentErrors a)
  else a.

Definition response_checks (a : Analyzer.t) (msg : Message.t)
  : M (Analyzer.t * list Insight.t) :=
  if String.eqb (Message.Direction msg) "response" then
    do slow <- checkSlowResponse a msg;
    do err <- checkError a msg;
    let a := fst err in
    do violation <- checkProtocolViolation a msg;
    ret (a, append_some (append_some (append_some [] slow) (snd err)) violation)
  else ret (a, []).

Definition AnalyzeMessage (a : Analyzer.t) (msg : Message.t)
  : M (Analyzer.t * list Insight.t) :=
  let a := note_request a msg in
  do checked <- response_checks a msg;
  let a := fst checked in
  do retry <- checkRetryLoop a msg;
  let insights := append_some (snd checked) retry in
  do insights <- save_and_broadcast (Analyzer.onInsight a) insights;
  ret (a, insights).

(** The analyzer consumes the messages of the trace one after the other;
    the result lists the insights of each message. *)
Fixpoint AnalyzeAll (a : Analyzer.t) (msgs : list Message.t)
  : M (Analyzer.t * list (list Insight.t)) :=
  match msgs with
  | [] => ret (a, [])
  | msg :: rest =>
      do r <- AnalyzeMessage a msg;
      do rs <- AnalyzeAll (fst r) rest;
      ret (fst rs, snd r :: snd rs)
  end.

End AnalyzerRules.

(** *** GetSummary *)

Record Summary := {
  total_messages : Z;
  total_insights : Z;
  error_count : Z;
  success_count : Z;
  avg_duration_ms : Z;
  method_counts : gmap string Z;
  agent_error_counts : gmap string Z
}.

(** The three accumulators of the loop over the messages. *)
Record Stats := mkStats { totalDuration : Z; errorCount : Z; successCount : Z }.

Definition summary_step (acc : Stats) (msg : Message.t) : Stats :=
  if String.eqb (Message.Direction msg) "response" then
    let total := wrap64 (totalDuration acc + Message.DurationMs msg) in
    if negb (String.eqb (Message.Error msg) EmptyString) || (400 <=? Message.StatusCode msg)
    then mkStats total (wrap64 (errorCount acc + 1)) (successCount acc)
    else mkStats total (errorCount acc) (wrap64 (successCount acc + 1))
  else acc.

Definition GetSummary (a : Analyzer.t) : M Summary :=
  do insights <- GetInsights (Analyzer.traceID a);
  do messages <- GetMessages (Analyzer.traceID a);
  let stats := fold_left summary_step messages (mkStats 0 0 0) in
  let responseCount := wrap64 (successCount stats + errorCount stats) in
  let avgDuration :=
    if 0 <? responseCount then Z.quot (totalDuration stats) responseCount else 0 in
  ret {| total_messages := Z.of_nat (length messages);
         total_insights := Z.of_nat (length insights);
         error_count := errorCount stats;
         success_count := successCount stats;
         avg_duration_ms := avgDuration;
         method_counts := Analyzer.methodCounts a;
         agent_error_counts := Analyzer.agentErrors a |}.

(** ** internal/process/manager.go: buildEnv *)

Definition proxyVars (proxyPort : Z) : gmap string string :=
  let proxyURL := "http://127.0.0.1:" +:+ Itoa proxyPort in
  list_to_map
    [("HTTP_PROXY", proxyURL);
     ("http_proxy", proxyURL);
     ("HTTPS_PROXY", proxyURL);
     ("https_proxy", proxyURL);
     ("NO_PROXY", EmptyString);
     ("no_proxy", EmptyString);
     ("A2A_PROXY", proxyURL);
     ("A2A_TRACE", "1");
     ("A2A_TRACE_UI", "http://127.0.0.1:" +:+ Itoa proxyPort +:+ "/ui")].

(** The names of the variables of [proxyVars]. *)
Definition proxy_names : list string :=
  ["HTTP_PROXY"; "http_proxy"; "HTTPS_PROXY"; "https_proxy"; "NO_PROXY";
   "no_proxy"; "A2A_PROXY"; "A2A_TRACE"; "A2A_TRACE_UI"].

(** [fmt.Sprintf("%s=%s", key, value)]. *)
Definition env_entry (kv : string * string) : string := fst kv +:+ "=" +:+ snd kv.

(** The name of an environment entry: [strings.Split(e, "=")[0]]. *)
Definition env_key (e : string) : string := GoStrings.SplitFirst e "="%char.

(** [environ] is [os.Environ()]; [range] is the sequence in which the loop
    over the map [proxyVars] meets its entries (Go fixes no order). *)
Definition buildEnv (environ : list string) (proxyPort : Z)
    (range : list (string * string)) : list string :=
  let filteredEnv :=
    List.filter (fun e => match proxyVars proxyPort !! env_key e with
                          | Some _ => false
                          | None => true
                          end) environ in
  filteredEnv ++ map env_entry range.

(** ** Sample inputs

    Concrete requests, bodies and a concrete run on which the definitions
    above can be evaluated. *)

Definition mkRequest (m path ct : string) : http.Request :=
  {| http.Method := m;
     http.Url := {| http.String_ := "http://agent.local" +:+ path;
                    http.Path := path; http.RequestURI := path |};
     http.Host := "agent.local";
     http.Header := if String.eqb ct EmptyString then ∅
                    else {[ "Content-Type" := [ct] ]} |}.

(** A text for a time: the one [time.Time.String] gives for a time in
    UTC that carries no monotonic clock reading,
    [2006-01-02 15:04:05.999999999 +0000 UTC], where the instant is a
    count of nanoseconds since 1970. *)
Definition pad (width : nat) (n : Z) : string :=
  let digits := Itoa n in
  string_of_list_ascii (repeat "0"%char (width - String.length digits)) +:+ digits.

Fixpoint trim_zeros (s : string) : string :=
  match s with
  | EmptyString => EmptyString
  | String c rest =>
      let rest := trim_zeros rest in
      if String.eqb rest EmptyString && Ascii.eqb c "0" then EmptyString
      else String c rest
  end.

(** The year, month and day of a count of days since 1970-01-01. *)
Definition civil_from_days (days : Z) : Z * Z * Z :=
  let z := days + 719468 in
  let era := z / 146097 in
  let doe := z - era * 146097 in
  let yoe := (doe - doe / 1460 + doe / 36524 - doe / 146096) / 365 in
  let doy := doe - (365 * yoe + yoe / 4 - yoe / 100) in
  let mp := (5 * doy + 2) / 153 in
  let d := doy - (153 * mp + 2) / 5 + 1 in
  let m := if mp <? 10 then mp + 3 else mp - 9 in
  let y := yoe + era * 400 + (if m <=? 2 then 1 else 0) in
  (y, m, d).

Definition utc_text (t : Z) : string :=
  let seconds := t / 1000000000 in
  let nanos := t mod 1000000000 in
  let '(y, m, d) := civil_from_days (seconds / 86400) in
  let clock := seconds mod 86400 in
  let fraction := trim_zeros (pad 9 nanos) in
  pad 4 y +:+ "-" +:+ pad 2 m +:+ "-" +:+ pad 2 d +:+ " "
    +:+ pad 2 (clock / 3600) +:+ ":" +:+ pad 2 (clock mod 3600 / 60) +:+ ":"
    +:+ pad 2 (clock mod 60)
    +:+ (if String.eqb fraction EmptyString then EmptyString else "." +:+ fraction)
    +:+ " +0000 UTC".

Definition dq : string := String (ascii_of_nat 34) EmptyString.
Definition quoted (s : string) : string := dq +:+ s +:+ dq.

(** A JSON-RPC call: jsonrpc 2.0, method tasks/create, id req-1. *)
Definition sample_call : string :=
  "{" +:+ quoted "jsonrpc" +:+ ":" +:+ quoted "2.0" +:+ ","
      +:+ quoted "method" +:+ ":" +:+ quoted "tasks/create" +:+ ","
      +:+ quoted "id" +:+ ":" +:+ quoted "req-1" +:+ "}".

(** Its answer with a result. *)
Definition sample_result : string :=
  "{" +:+ quoted "jsonrpc" +:+ ":" +:+ quoted "2.0" +:+ ","
      +:+ quoted "id" +:+ ":" +:+ quoted "req-1" +:+ ","
      +:+ quoted "result" +:+ ":{}}".

(** Its answer with a JSON-RPC error: code -32603, message boom. *)
Definition sample_failure : string :=
  "{" +:+ quoted "jsonrpc" +:+ ":" +:+ quoted "2.0" +:+ ","
      +:+ quoted "id" +:+ ":" +:+ quoted "req-1" +:+ ","
      +:+ quoted "error" +:+ ":{" +:+ quoted "code" +:+ ":-32603,"
      +:+ quoted "message" +:+ ":" +:+ quoted "boom" +:+ "}}".

(** [http.StatusText] on the codes of the examples, empty elsewhere as the
    library is for a code it does not know. *)
Definition sample_StatusText (code : Z) : string :=
  if code =? 200 then "OK"
  else if code =? 400 then "Bad Request"
  else if code =? 404 then "Not Found"
  else if code =? 500 then "Internal Server Error"
  else if code =? 502 then "Bad Gateway"
  else if code =? 503 then "Service Unavailable"
  else EmptyString.

Definition render_pair (kv : string * string) : string :=
  quoted (fst kv) +:+ ":" +:+ quoted (snd kv).

Definition render_detail (d : detail) : string :=
  match d with
  | DInt n => Itoa n
  | DStr s => quoted s
  end.

(** The library on the sample bodies: the three JSON texts above decode
    to their fields, any other text of the examples is not JSON. Objects
    are rendered with their keys in order; no text of the examples needs
    escaping, and a skill has an id and a name only. *)
Definition sample_lib : GoLib := {|
  json_Unmarshal_A2ARequest body :=
    if String.eqb body sample_call
    then Some (A2ARequest.mk "2.0" "tasks/create" (IdString "req-1"))
    else if String.eqb body sample_result || String.eqb body sample_failure
    then Some (A2ARequest.mk "2.0" EmptyString (IdString "req-1"))
    else None;
  json_Unmarshal_A2AResponse body :=
    if String.eqb body sample_failure
    then Some (A2AResponse.mk "2.0" (IdString "req-1")
                 (Some (A2AError.mk (-32603) "boom")))
    else if String.eqb body sample_result || String.eqb body sample_call
    then Some (A2AResponse.mk "2.0" (IdString "req-1") None)
    else None;
  json_Unmarshal_AgentCard body :=
    if String.eqb body sample_call || String.eqb body sample_result
       || String.eqb body sample_failure
    then Some (AgentCard.mk EmptyString EmptyString EmptyString EmptyString [])
    else None;
  json_Unmarshal_object body :=
    if String.eqb body sample_call then Some {[ "jsonrpc"; "method"; "id" ]}
    else if String.eqb body sample_result then Some {[ "jsonrpc"; "id"; "result" ]}
    else if String.eqb body sample_failure then Some {[ "jsonrpc"; "id"; "error" ]}
    else None;
  json_Marshal_headers h :=
    "{" +:+ Join (map render_pair (map_to_list h)) "," +:+ "}";
  json_Marshal_skills skills :=
    match skills with
    | [] => "null"
    | _ => "[" +:+ Join
             (map (fun sk => "{" +:+ render_pair ("id", Skill.ID sk) +:+ ","
                                 +:+ render_pair ("name", Skill.Name sk) +:+ "}")
                  skills) "," +:+ "]"
    end;
  json_MarshalIndent data :=
    "{" +:+ Join
      (map (fun kv => quoted (fst kv) +:+ ": " +:+ render_detail (snd kv))
           (map_to_list data)) "," +:+ "}";
  http_StatusText := sample_StatusText;
  strconv_Quote := quoted
|}.

(** A run that starts with empty tables: identifiers uuid-0, uuid-1, ...
    and a clock that advances by 7 ms between two readings. *)
Definition sample_sys : Sys :=
  mkSys (fun n => "uuid-" +:+ Itoa (Z.of_nat n)) 0
        (fun n => 1700000000000000000 + 7000000 * Z.of_nat n) 0
        (Store.empty utc_text) [] [] [].

Definition sample_proxy : Proxy.t :=
  {| Proxy.traceID := "trace-1"; Proxy.onMessage := true; Proxy.onAgent := true |}.

(** An agent-card GET with a longer path and a JSON content type. *)
Definition card_subpath_get : http.Request :=
  mkRequest "GET" "/.well-known/agent.json/v2" "application/json".

(** A plain agent-card GET: no body, no Content-Type header. *)
Definition card_plain_get : http.Request :=
  mkRequest "GET" "/.well-known/agent.json" EmptyString.

Definition json_post : http.Request := mkRequest "POST" "/" "application/json".
Definition json_get : http.Request :=
  mkRequest "GET" "/.well-known/agent.json" "application/json".
Definition json_put : http.Request := mkRequest "PUT" "/" "application/json".


(** A response message for an upstream answer of the given status. *)
Definition response_with_status (status : Z) : Message.t :=
  Message.mk "uuid-1" "trace-1" 0 "response" "agent.local" EmptyString EmptyString
    "http://agent.local/" "{}" EmptyString 12 status (sample_StatusText status)
    EmptyString "text/plain" 0.

Definition upstream_500 : http.Response :=
  {| http.StatusCode := 500;
     http.RespHeader := {[ "Content-Type" := ["application/json"] ]} |}.

Definition upstream_200 : http.Response :=
  {| http.StatusCode := 200;
     http.RespHeader := {[ "Content-Type" := ["application/json"] ]} |}.

(** The request message of [sample_call], as saved. *)
Definition sample_request_msg : Message.t :=
  Message.mk "uuid-0" "trace-1" 0 "request" EmptyString "agent.local" "tasks/create"
    "http://agent.local/" "{}" sample_call 0 0 EmptyString "req-1"
    "application/json" (Z.of_nat (String.length sample_call)).

(** A parent environment with proxy variables of its own. *)
Definition sample_environ : list string :=
  ["PATH=/usr/bin:/bin";
   "HTTP_PROXY=http://corp.example:3128";
   "no_proxy=localhost,127.0.0.1";
   "HOME=/home/dev";
   "A2A_TRACE"].

(** An agents table with two rows, and the card of the first agent seen
    again with a new name and version. *)
Definition sample_agents : list Agent.t :=
  [Agent.mk "uuid-7" "http://agent.local/.well-known/agent.json" "Bob" "greeter"
     "1.0" "null" 1700000000000000000;
   Agent.mk "uuid-9" "http://other.local/.well-known/agent.json" "Eve" EmptyString
     "0.3" "null" 1700000000500000000].

Definition sample_sys_agents : Sys :=
  mkSys (fun n => "uuid-" +:+ Itoa (Z.of_nat (n + 20))) 0
        (fun n => 1700000001000000000 + 7000000 * Z.of_nat n) 0
        (Store.mk [] sample_agents [] utc_text) [] [] [].

Definition sample_agent_again : Agent.t :=
  Agent.mk EmptyString "http://agent.local/.well-known/agent.json" "Bobby"
    "greets twice" "2.0" "null" 1700000001000000000.

(** The first agent as the table holds it, under a new name. *)
Definition sample_agent_stored : Agent.t :=
  Agent.mk "uuid-7" "http://agent.local/.well-known/agent.json" "Robert"
    "greeter" "1.0" "null" 1700000000000000000.

(** ** The words of the specification about the summary *)

Definition is_response (m : Message.t) : bool := String.eqb (Message.Direction m) "response".

Definition in_trace (traceID : string) (m : Message.t) : bool :=
  String.eqb (Message.TraceID m) traceID.

(** The response Messages of a trace, as stored. *)
Definition trace_responses (traceID : string) (d : Store.t) : list Message.t :=
  List.filter is_response (List.filter (in_trace traceID) (Store.messages d)).

Definition sumZ (l : list Z) : Z := fold_right Z.add 0 l.

(** The durations and the number of the responses of a list of messages,
    counted along the list. *)
Fixpoint response_total (l : list Message.t) : Z :=
  match l with
  | [] => 0
  | m :: l' => (if is_response m then Message.DurationMs m else 0) + response_total l'
  end.

Fixpoint response_count (l : list Message.t) : Z :=
  match l with
  | [] => 0
  | m :: l' => (if is_response m then 1 else 0) + response_count l'
  end.

(** A store with one request and two responses of trace-1 (40 ms and
    55 ms), and a response of another trace. *)
Definition sample_store : Store.t :=
  Store.mk
    [Message.mk "m1" "trace-1" 100 "request" EmptyString "agent.local" "tasks/create"
       "http://agent.local/" "{}" sample_call 0 0 EmptyString "req-1"
       "application/json" 52;
     Message.mk "m2" "trace-1" 140 "response" "agent.local" EmptyString EmptyString
       "http://agent.local/" "{}" sample_result 40 200 EmptyString "req-1"
       "application/json" 45;
     Message.mk "m3" "trace-0" 150 "response" "agent.local" EmptyString EmptyString
       "http://agent.local/" "{}" sample_result 900 200 EmptyString "req-1"
       "application/json" 45;
     Message.mk "m4" "trace-1" 120 "response" "agent.local" EmptyString EmptyString
       "http://agent.local/" "{}" sample_failure 55 500 "Internal Server Error"
       "req-1" "application/json" 70]
    [] [] utc_text.

Definition sample_sys_store : Sys :=
  mkSys (fun n => "uuid-" +:+ Itoa (Z.of_nat n)) 0
        (fun n => 1700000000000000000 + 7000000 * Z.of_nat n) 0
        sample_store [] [] [].

Definition sample_analyzer : Analyzer.t :=
  New {| Analyzer.cfg_TraceID := "trace-1";
         Analyzer.cfg_SlowThreshold := 0;
         Analyzer.cfg_OnInsight := true |}.

(** ** The words of the specification about insights *)

Definition is_category (c : string) (i : Insight.t) : bool :=
  String.eqb (Insight.Category i) c.

(** Two insights that differ at most by their identifier. *)
Definition same_but_ID (i j : Insight.t) : Prop :=
  Insight.TraceID i = Insight.TraceID j
  /\ Insight.MessageID i = Insight.MessageID j
  /\ Insight.Type_ i = Insight.Type_ j
  /\ Insight.Category i = Insight.Category j
  /\ Insight.Title i = Insight.Title j
  /\ Insight.Details i = Insight.Details j
  /\ Insight.Timestamp i = Insight.Timestamp j.

Definition option_list {A} (o : option A) : list A :=
  match o with
  | Some x => [x]
  | None => []
  end.

Definition carries (m : string) (msg : Message.t) : bool :=
  String.eqb (Message.Method msg) m.

(** The number of Messages of a list that carry the method [m]. *)
Definition occurrences (m : string) (msgs : list Message.t) : Z :=
  Z.of_nat (length (List.filter (carries m) msgs)).

(** Messages as the proxy makes them: a Message that carries a method is a
    request (ParseResponse and the synthetic response set none). *)
Definition method_on_request (msg : Message.t) : Prop :=
  Message.Method msg <> EmptyString -> Message.Direction msg = "request".

(** A response that took exactly one second, and one that took longer. *)
Definition response_of_duration (ms : Z) : Message.t :=
  Message.mk "uuid-1" "trace-1" 1700000001000000000 "response" "agent.local"
    EmptyString EmptyString "http://agent.local/" "{}" sample_result ms 200
    EmptyString "req-1" "application/json" 45.

Definition default_config : Analyzer.Config :=
  {| Analyzer.cfg_TraceID := "trace-1";
     Analyzer.cfg_SlowThreshold := 0;
     Analyzer.cfg_OnInsight := true |}.

(** What the retry-loop rule owes for a Message when the count of its
    method stands at [c]: one warning that names the method and the
    count when the method is not empty and [c] is a multiple of 5, and
    nothing otherwise. *)
Definition retry_outcome {lib : GoLib} (msg : Message.t) (c : Z)
    (insights : list Insight.t) : Prop :=
  let retry := List.filter (is_category "retry_loop") insights in
  if negb (String.eqb (Message.Method msg) EmptyString) && (Z.rem c 5 =? 0)
  then exists i, retry = [i]
         /\ Insight.Category i = "retry_loop"
         /\ Insight.Type_ i = "warning"
         /\ Insight.MessageID i = Message.ID msg
         /\ Insight.Details i =
            formatDetails (list_to_map
              [("method", DStr (Message.Method msg));
               ("call_count", DInt c);
               ("suggestion", DStr "Check for proper error handling and backoff logic")])
  else retry = [].

(** A request that carries the method [m]. *)
Definition call_of (m : string) : Message.t :=
  Message.mk "uuid-0" "trace-1" 1700000000000000000 "request" EmptyString
    "agent.local" m "http://agent.local/" "{}" sample_call 0 0 EmptyString "req-1"
    "application/json" 52.

Definition five_calls : list Message.t :=
  [call_of "tasks/create"; call_of "tasks/get"; call_of "tasks/create";
   call_of "tasks/create"; response_of_duration 40; call_of "tasks/create";
   call_of "tasks/create"].

(** ** The state after the effects of one traversal *)

(** The state once [n] identifiers and [k] clock readings were taken, the
    messages [saved] were inserted and [sent] were handed to OnMessage. *)
Definition advance (n k : nat) (saved sent : list Message.t) (s : Sys) : Sys :=
  mkSys (uuid_source s) (n + uuid_calls s) (clock s) (k + clock_calls s)
        (Store.set_messages (Store.messages (db s) ++ saved) (db s))
        (published s ++ sent) (published_agents s) (published_insights s).

(** The correlation identifier [ParseRequest] gives a request with the
    body [body]: the formatted JSON-RPC id, when there is one. *)
Definition request_correlation {lib : GoLib} (body : string) : string :=
  match json_Unmarshal_A2ARequest body with
  | Some a2aReq =>
      match A2ARequest.ID a2aReq with
      | IdNil => EmptyString
      | id => formatRequestID id
      end
  | None => EmptyString
  end.

(** The sample call through the proxy, with an upstream that cannot be
    reached and with one that answers. *)
Definition refused : url.Error :=
  {| url.Op := "Post"; url.URL := "http://agent.local/";
     url.Err := "dial tcp 10.0.0.7:80: connect: connection refused" |}.

Definition call_refused : Inbound :=
  {| request := json_post; reqBody := Some sample_call; newRequestErr := None;
     upstream := DoError refused |}.

Definition call_answered : Inbound :=
  {| request := json_post; reqBody := Some sample_call; newRequestErr := None;
     upstream := DoResponse upstream_200 (Some sample_result) |}.

(** A computation that hands to OnMessage only Messages of the shape
    [method_on_request], and whose result satisfies [P]. *)
Definition sends_with {A} (P : A -> Prop) (c : M A) : Prop :=
  forall s, exists sent,
    published (snd (c s)) = published s ++ sent
    /\ Forall method_on_request sent
    /\ P (fst (c s)).

(** * The rest of the code

    The functions of the same files that the properties above do not
    reach, modelled on the definitions above. *)

(** ** package store: traces, and the queries on agents *)

Module Trace.
Record t := mk {
  ID : string;
  StartedAt : Z;
  Command : string;
  Status : string      (* "running", "completed", "error" *)
}.
End Trace.

Definition has_trace_id (id : string) (rows : list Trace.t) : bool :=
  existsb (fun r => String.eqb (Trace.ID r) id) rows.

(** [CreateTrace(command)] on the rows of the traces table, where [id] is
    what [uuid.New()] gave and [now] what [time.Now()] gave: the trace and
    the table after the INSERT, no trace when the INSERT fails on the
    primary key. *)
Definition CreateTrace (id : string) (now : Z) (command : string)
    (rows : list Trace.t) : option Trace.t * list Trace.t :=
  let trace := Trace.mk id now command "running" in
  if has_trace_id id rows then (None, rows)
  else (Some trace, rows ++ [trace]).

(** [UPDATE traces SET status = ? WHERE id = ?]. *)
Definition UpdateTraceStatus (traceID status : string) (rows : list Trace.t)
  : list Trace.t :=
  map (fun r => if String.eqb (Trace.ID r) traceID
                then Trace.mk (Trace.ID r) (Trace.StartedAt r) (Trace.Command r) status
                else r) rows.

(** [GetTrace(traceID)]: the row of that id, [nil] when there is none
    ([sql.ErrNoRows]). *)
Definition GetTrace (traceID : string) (rows : list Trace.t) : option Trace.t :=
  List.find (fun r => String.eqb (Trace.ID r) traceID) rows.

(** [GetAgents]: [ORDER BY first_seen DESC], on the text stored. *)
Definition GetAgents : M (list Agent.t) :=
  do d <- get_db;
  ret (sort_by (fun a b => String.leb (Store.time_text d (Agent.FirstSeen b))
                                      (Store.time_text d (Agent.FirstSeen a)))
         (Store.agents d)).

(** The rows of [l] are stored under texts that compare as their times
    do. The texts of [utc_text] do on the sample rows; texts written
    with different zone offsets need not. *)
Definition text_follows_time {A} (text : Z -> string) (time : A -> Z) (l : list A)
  : Prop :=
  forall a b, In a l -> In b l ->
    String.leb (text (time a)) (text (time b)) = (time a <=? time b).

(** A list in the order of a comparison: every element stands before
    the elements it compares below. *)
Fixpoint ordered {A} (le : A -> A -> bool) (l : list A) : Prop :=
  match l with
  | [] => True
  | x :: l' => Forall (fun y => le x y = true) l' /\ ordered le l'
  end.

(** A response without identifier and an agent not yet known, for the
    round trips. *)
Definition sample_reply_msg : Message.t :=
  Message.mk EmptyString "trace-1" 130 "response" "agent.local" EmptyString
    EmptyString "http://agent.local/" "{}" sample_result 30 200 EmptyString
    "req-1" "application/json" 45.

Definition sample_new_agent : Agent.t :=
  Agent.mk EmptyString "http://third.local/.well-known/agent.json" "Zed"
    EmptyString "0.1" "null" 1700000002000000000.

(** [f] holds of the [count] integers from [from] on. *)
Fixpoint all_from (f : Z -> bool) (from : Z) (count : nat) : bool :=
  match count with
  | O => true
  | S c => f from && all_from f (from + 1) c
  end.

(** ** The proxy: what the caller gets, what a traversal adds *)

(** The reply of [handleProxy] read off the inbound request and the
    network alone. *)
Definition caller_reply {lib : GoLib} (x : Inbound) : Reply :=
  if String.eqb (http.Method (request x)) "CONNECT" then Tunnel
  else match reqBody x, newRequestErr x, upstream x with
       | None, _, _ => http_Error "Failed to read request body" 500
       | Some _, Some err, _ => http_Error ("Failed to create request: " +:+ err) 500
       | Some _, None, DoError err =>
           http_Error ("Proxy error: " +:+ url_Error_Error err) 502
       | Some _, None, DoResponse _ None => http_Error "Failed to read response" 500
       | Some _, None, DoResponse resp (Some respBody) =>
           Written (http.StatusCode resp) (http.RespHeader resp) respBody
       end.

(** A computation that adds at most [n] rows after those of the messages
    table and keeps the identifiers of the table distinct. *)
Definition grows_by {A} (n : nat) (c : M A) : Prop :=
  forall s, exists rows,
    Store.messages (db (snd (c s))) = Store.messages (db s) ++ rows
    /\ (length rows <= n)%nat
    /\ (NoDup (map Message.ID (Store.messages (db s))) ->
        NoDup (map Message.ID (Store.messages (db (snd (c s)))))).

(** A clock that never goes back. *)
Definition monotone (clock : nat -> Z) : Prop :=
  forall i j, (i <= j)%nat -> clock i <= clock j.

(** An agent-card GET that is captured (it has a JSON content type) and
    one that is not, both answered by upstream with the sample result,
    which the sample library also decodes as a card without fields; and
    the sample call when the outgoing request cannot be built. *)
Definition card_answered : Inbound :=
  {| request := json_get; reqBody := Some EmptyString; newRequestErr := None;
     upstream := DoResponse upstream_200 (Some sample_result) |}.

Definition plain_card_answered : Inbound :=
  {| request := card_plain_get; reqBody := Some EmptyString; newRequestErr := None;
     upstream := DoResponse upstream_200 (Some sample_result) |}.

Definition call_unbuildable : Inbound :=
  {| request := json_post; reqBody := Some sample_call;
     newRequestErr := Some "net/http: invalid method";
     upstream := DoError refused |}.

(** The table of two agents, and a source of identifiers whose third is
    the identifier of the first row. *)
Definition sample_sys_taken : Sys :=
  mkSys (fun n => "uuid-" +:+ Itoa (Z.of_nat (n + 5))) 0
        (fun n => 1700000001000000000 + 7000000 * Z.of_nat n) 0
        (Store.mk [] sample_agents [] utc_text) [] [] [].

(** The agent-card block that ends [handleProxy]'s capture of a
    response. *)
Definition discover_agent {lib : GoLib} (p : Proxy.t) (r : http.Request)
    (targetURL respBody : string) : M unit :=
  if GoStrings.Contains (http.Path (http.Url r)) agent_card_path then
    do agent <- ParseAgentCard respBody targetURL;
    match agent with
    | Some agent =>
        do saved <- SaveAgent agent;
        let agent := fst saved in
        notify_agent (Proxy.onAgent p) agent
    | None => ret tt
    end
  else ret tt.

(** A computation that leaves the agents table and what was handed to
    OnAgent as they were. *)
Definition keeps_agents {A} (c : M A) : Prop :=
  forall s,
    Store.agents (db (snd (c s))) = Store.agents (db s)
    /\ published_agents (snd (c s)) = published_agents s.

(** The Agent [ParseAgentCard] makes of a decoded card, with the
    identifier [SaveAgent] gives it. *)
Definition agent_of_card {lib : GoLib} (id url : string) (card : AgentCard.t)
    (now : Z) : Agent.t :=
  Agent.mk id url (AgentCard.Name card) (AgentCard.Description card)
    (AgentCard.Version card) (json_Marshal_skills (AgentCard.Skills card)) now.

(** ** The analyzer: words for its rules *)

(** A response that failed, as [GetSummary] counts it: an error text or
    a status of 400 or more. [checkError] tests the negation. *)
Definition failed (msg : Message.t) : bool :=
  negb (String.eqb (Message.Error msg) EmptyString) || (400 <=? Message.StatusCode msg).

(** The severity [checkError] gives its insight. *)
Definition error_severity (msg : Message.t) : string :=
  if (400 <=? Message.StatusCode msg) && (Message.StatusCode msg <? 500)
  then "warning" else "error".

(** The four categories, in the order [AnalyzeMessage] appends them. *)
Definition categories : list string :=
  ["slow_response"; "error"; "protocol_violation"; "retry_loop"].

(** A failed response of the agent [agent]; a request for the method [m]. *)
Definition error_from (agent : string) (msg : Message.t) : bool :=
  is_response msg && failed msg && String.eqb (Message.FromAgent msg) agent.

Definition request_for (m : string) (msg : Message.t) : bool :=
  String.eqb (Message.Direction msg) "request" && carries m msg.

(** Two states with the same tables and the same Messages and Agents
    handed to the handlers. *)
Definition same_tables (s s' : Sys) : Prop :=
  Store.messages (db s') = Store.messages (db s)
  /\ Store.agents (db s') = Store.agents (db s)
  /\ published s' = published s
  /\ published_agents s' = published_agents s.

(** A response body that [checkProtocolViolation] finds nothing to say
    about: empty, or one that [json.Unmarshal] refuses to decode into a
    [map[string]interface{}], or one that it decodes to a map with a
    jsonrpc key and, unless it has an id, not a 2xx answer with a
    result. The body [null] is not among the refused ones:
    [json.Unmarshal] returns no error for it and leaves the map nil, so
    it counts as a map without keys. *)
Definition compliant {lib : GoLib} (msg : Message.t) : Prop :=
  Message.Body msg = EmptyString
  \/ match json_Unmarshal_object (Message.Body msg) with
     | None => True
     | Some keys =>
         "jsonrpc" ∈ keys
         /\ ("id" ∈ keys
             \/ ~ (200 <= Message.StatusCode msg < 300)
             \/ "result" ∉ keys)
     end.

(** An insight about the Message [msg], of the trace of the analyzer. *)
Definition refers_to (a : Analyzer.t) (msg : Message.t) (i : Insight.t) : Prop :=
  Insight.MessageID i = Message.ID msg /\ Insight.TraceID i = Analyzer.traceID a.

(** A body with a result and no id, and a 200 response that carries it. *)
Definition sample_anonymous : string :=
  "{" +:+ quoted "jsonrpc" +:+ ":" +:+ quoted "2.0" +:+ ","
      +:+ quoted "result" +:+ ":{}}".

Definition anonymous_result : Message.t :=
  Message.mk "uuid-1" "trace-1" 1700000001000000000 "response" "agent.local"
    EmptyString EmptyString "http://agent.local/" "{}" sample_anonymous 40 200
    EmptyString "req-1" "application/json" 30.

(** A store with three insights of trace-1, saved out of the order of
    their times. *)
Definition sample_sys_insights : Sys :=
  mkSys (fun n => "uuid-" +:+ Itoa (Z.of_nat n)) 0
        (fun n => 1700000000000000000 + 7000000 * Z.of_nat n) 0
        (Store.mk [] []
           [Insight.mk "i1" "trace-1" "m2" "warning" "slow_response" "Slow Response"
              "{}" 1700000000250000000;
            Insight.mk "i2" "trace-1" "m4" "error" "error" "HTTP 500 Error"
              "{}" 1700000002000000000;
            Insight.mk "i3" "trace-1" "m2" "warning" "protocol_violation"
              "A2A Protocol Violation" "Missing 'jsonrpc' field" 1700000000900000000]
           utc_text) [] [] [].

(** A 200 response whose body is [null]. *)
Definition null_answer : Message.t :=
  Message.mk "uuid-1" "trace-1" 1700000001000000000 "response" "agent.local"
    EmptyString EmptyString "http://agent.local/" "{}" "null" 40 200
    EmptyString "req-1" "application/json" 4.

(** The sample library, which also decodes [sample_anonymous] as an
    object, and [null] and the object without members as a map without
    keys. *)
Definition sample_lib_objects : GoLib := {|
  json_Unmarshal_A2ARequest := @json_Unmarshal_A2ARequest sample_lib;
  json_Unmarshal_A2AResponse := @json_Unmarshal_A2AResponse sample_lib;
  json_Unmarshal_AgentCard := @json_Unmarshal_AgentCard sample_lib;
  json_Unmarshal_object body :=
    if String.eqb body sample_anonymous then Some {[ "jsonrpc"; "result" ]}
    else if String.eqb body "null" || String.eqb body "{}" then Some ∅
    else @json_Unmarshal_object sample_lib body;
  json_Marshal_headers := @json_Marshal_headers sample_lib;
  json_Marshal_skills := @json_Marshal_skills sample_lib;
  json_MarshalIndent := @json_MarshalIndent sample_lib;
  http_StatusText := @http_StatusText sample_lib;
  strconv_Quote := @strconv_Quote sample_lib
|}.

(** Two states that differ at most by the identifiers and clock readings
    taken. *)
Definition untouched (s s' : Sys) : Prop :=
  db s' = db s
  /\ published s' = published s
  /\ published_agents s' = published_agents s
  /\ published_insights s' = published_insights s.

(** ** internal/cli: the command after the dashes

    [ParseArgs] builds a [cobra.Command] whose [RunE] is a closure over
    [os.Args], binds five flags to the fields of the Config, hands the
    arguments before the first [--] to [SetArgs] and calls [Execute].
    cobra is not part of the repository: [Execute] is a parameter of the
    model, known by its outcome. *)

Module cli.

Record Config := {
  Port : Z;
  UIPort : Z;
  DBPath : string;
  Verbose : bool;
  NoUI : bool;
  Command : list string
}.

(** The values cobra leaves in the five flag variables. *)
Record Flags := {
  port : Z;
  uiPort : Z;
  db : string;
  verbose : bool;
  noUI : bool
}.

(** What [rootCmd.Execute()] does with the command: it returns an error
    of its own without calling [RunE] (a flag it does not know, a value
    it cannot read); or it returns nil without calling [RunE] (it
    answered [--help], [-h] or [--version] itself); or it sets the flags,
    calls [RunE] and returns what [RunE] returns. *)
Inductive Outcome :=
| Refused (err : string)
| Answered (flags : Flags)
| Ran (flags : Flags).

(** The first loop of [RunE]: the index of the first [--] of [os.Args],
    -1 when there is none. *)
Fixpoint dashIndex_from (i : Z) (args : list string) : Z :=
  match args with
  | [] => -1
  | arg :: rest => if String.eqb arg "--" then i else dashIndex_from (i + 1) rest
  end.

(** [RunE]: the error, or [cfg.Command = os.Args[dashIndex+1:]]. *)
Definition RunE (osArgs : list string) : option (list string) :=
  let dashIndex := dashIndex_from 0 osArgs in
  if (dashIndex =? -1) || (dashIndex =? Z.of_nat (length osArgs) - 1) then None
  else Some (drop (Z.to_nat (dashIndex + 1)) osArgs).

(** The loop that collects the arguments given to the flag parser: those
    before the first [--]. *)
Fixpoint before_dash (args : list string) : list string :=
  match args with
  | [] => []
  | arg :: rest => if String.eqb arg "--" then [] else arg :: before_dash rest
  end.

(** The loop runs over [os.Args[1:]], which panics on an empty [os.Args]. *)
Definition argsToparse (osArgs : list string) : option (list string) :=
  match osArgs with
  | [] => None
  | _ :: rest => Some (before_dash rest)
  end.

(** The error of [RunE]. *)
Definition no_command : string :=
  "no command specified after '--'" +:+ newline +:+ newline
  +:+ "Usage: a2a-trace [flags] -- <command> [args...]".

Section ParseArgs.

(** [Execute] after [SetArgs(args)], in a process whose arguments are
    [osArgs]: cobra has the slice it was given (nil when the loop
    appended nothing) and the arguments of the process at hand. *)
Variable Execute : list string -> list string -> Outcome.

(** [ParseArgs]: [None] for the panic of [os.Args[1:]], and otherwise
    the error or the Config returned. The Config starts empty; cobra
    writes the flags, [RunE] the command, and a UI port left at 0
    becomes the proxy port. *)
Definition ParseArgs (osArgs : list string) : option (string + Config) :=
  match argsToparse osArgs with
  | None => None
  | Some args =>
      let finish flags command :=
        inr {| Port := port flags;
               UIPort := if uiPort flags =? 0 then port flags else uiPort flags;
               DBPath := db flags;
               Verbose := verbose flags;
               NoUI := noUI flags;
               Command := command |} in
      Some match Execute args osArgs with
           | Refused err => inl err
           | Answered flags => finish flags []
           | Ran flags =>
               match RunE osArgs with
               | None => inl no_command
               | Some command => finish flags command
               end
           end
  end.

End ParseArgs.

(** A stand-in for cobra with the defaults of the five flags: it answers
    [--help], [-h] and [--version] itself, refuses any other argument,
    and runs the command when it is given none. *)
Definition sample_Execute (args osArgs : list string) : Outcome :=
  let defaults := {| port := 8080; uiPort := 0; db := EmptyString;
                     verbose := false; noUI := false |} in
  match args with
  | [] => Ran defaults
  | arg :: _ =>
      if String.eqb arg "--help" || String.eqb arg "-h" || String.eqb arg "--version"
      then Answered defaults
      else Refused ("unknown flag: " +:+ arg)
  end.

End cli.

(** ** internal/process: the Manager *)

Module process.

(** [exec.Cmd], by its [Args]: the command name followed by its
    arguments. *)
Record Cmd := { Args : list string }.

Record Manager := { cmd : Cmd; proxyPort : Z; started : bool }.

(** [New]: an error for an empty command, and otherwise a Manager for
    [exec.CommandContext(ctx, Command[0], Command[1:]...)]. *)
Definition New (command : list string) (port : Z) : string + Manager :=
  match command with
  | [] => inl "no command specified"
  | [name] => inr {| cmd := {| Args := [name] |}; proxyPort := port; started := false |}
  | name :: args =>
      inr {| cmd := {| Args := name :: args |}; proxyPort := port; started := false |}
  end.

Definition CommandString (m : Manager) : string := Join (Args (cmd m)) " ".

End process.

(** ** internal/proxy/interceptor.go: ClassifyMethod *)

Definition methodDescriptions : gmap string string :=
  list_to_map
    [("tasks/create", "Create Task");
     ("tasks/get", "Get Task Status");
     ("tasks/cancel", "Cancel Task");
     ("tasks/send", "Send Message");
     ("tasks/sendSubscribe", "Send & Subscribe");
     ("tasks/resubscribe", "Resubscribe to Task")].

Definition ClassifyMethod (method : string) : string :=
  match methodDescriptions !! method with
  | Some desc => desc
  | None => method
  end.

(** ** internal/websocket: the Hub

    A client is known by its address; the hub holds a set of addresses,
    and each client that was created has its [send] channel, of
    capacity 256. *)

Module Hub.
Record Chan := mkChan { queue : list string; closed : bool }.
Definition capacity : nat := 256.
Record t := mk { clients : gset nat; chans : gmap nat Chan }.
End Hub.

Definition NewHub : Hub.t := Hub.mk ∅ ∅.

(** What the loop of [Run] and the writer of a client do to the hub and
    the channels: a connection (HandleWebSocket makes the client and its
    channel, [Run] registers it), the unregistration of a client, a
    broadcast, and the writer of a client taking a message off its
    channel. *)
Inductive Event :=
| Connect
| Unregister (c : nat)
| Broadcast (message : string)
| Drain (c : nat).

(** [close(ch)]: a run-time panic ([None]) on a closed channel. *)
Definition close (ch : Hub.Chan) : option Hub.Chan :=
  if Hub.closed ch then None else Some (Hub.mkChan (Hub.queue ch) true).

(** [select { case ch <- m: ... default: ... }]: the send goes through
    when the buffer has room, and panics on a closed channel. *)
Definition try_send (ch : Hub.Chan) (m : string) : option (Hub.Chan * bool) :=
  if Hub.closed ch then None
  else if (length (Hub.queue ch) <? Hub.capacity)%nat
  then Some (Hub.mkChan (Hub.queue ch ++ [m]) false, true)
  else Some (ch, false).

(** The body of the loop over the clients of a broadcast. *)
Definition broadcast_to (m : string) (h : Hub.t) (c : nat) : option Hub.t :=
  match Hub.chans h !! c with
  | None => None
  | Some ch =>
      match try_send ch m with
      | None => None
      | Some (ch', true) => Some (Hub.mk (Hub.clients h) (<[c := ch']> (Hub.chans h)))
      | Some (_, false) =>
          match close ch with
          | None => None
          | Some ch' =>
              Some (Hub.mk (Hub.clients h ∖ {[c]}) (<[c := ch']> (Hub.chans h)))
          end
      end
  end.

(** The loop over the clients, met in the order [range]. *)
Fixpoint broadcast_loop (m : string) (range : list nat) (h : Hub.t) : option Hub.t :=
  match range with
  | [] => Some h
  | c :: rest =>
      match broadcast_to m h c with
      | Some h' => broadcast_loop m rest h'
      | None => None
      end
  end.

Definition connect (h : Hub.t) : Hub.t :=
  let c := fresh (dom (Hub.chans h)) in
  Hub.mk ({[c]} ∪ Hub.clients h) (<[c := Hub.mkChan [] false]> (Hub.chans h)).

Definition unregister (h : Hub.t) (c : nat) : option Hub.t :=
  if bool_decide (c ∈ Hub.clients h) then
    match Hub.chans h !! c with
    | None => None
    | Some ch =>
        match close ch with
        | None => None
        | Some ch' => Some (Hub.mk (Hub.clients h ∖ {[c]}) (<[c := ch']> (Hub.chans h)))
        end
    end
  else Some h.

Definition drain (h : Hub.t) (c : nat) : Hub.t :=
  match Hub.chans h !! c with
  | Some ch =>
      Hub.mk (Hub.clients h)
        (<[c := Hub.mkChan (tail (Hub.queue ch)) (Hub.closed ch)]> (Hub.chans h))
  | None => h
  end.

(** One event; the broadcast meets the clients in an order Go does not
    fix. [None] is a run-time panic. *)
Inductive step (h : Hub.t) : Event -> option Hub.t -> Prop :=
| step_connect : step h Connect (Some (connect h))
| step_unregister c : step h (Unregister c) (unregister h c)
| step_broadcast m range :
    range ≡ₚ elements (Hub.clients h) ->
    step h (Broadcast m) (broadcast_loop m range h)
| step_drain c : step h (Drain c) (Some (drain h c)).

Inductive runs : Hub.t -> list Event -> option Hub.t -> Prop :=
| runs_nil h : runs h [] (Some h)
| runs_step h e h' es r : step h e (Some h') -> runs h' es r -> runs h (e :: es) r
| runs_panic h e es : step h e None -> runs h (e :: es) None.

(** Every registered client has an open channel, and no channel holds
    more than its capacity. *)
Definition hub_ok (h : Hub.t) : Prop :=
  (forall c, c ∈ Hub.clients h ->
     exists ch, Hub.chans h !! c = Some ch /\ Hub.closed ch = false)
  /\ (forall c ch, Hub.chans h !! c = Some ch ->
        (length (Hub.queue ch) <= Hub.capacity)%nat).

(** The sample call, answered by upstream with a 500 and the sample
    JSON-RPC error. *)
Definition call_answered_500 : Inbound :=
  {| request := json_post; reqBody := Some sample_call; newRequestErr := None;
     upstream := DoResponse upstream_500 (Some sample_failure) |}.
(** * Properties *)

(** ** The classifier *)

Lemma IsA2ARequest_true (r : http.Request) :
  IsA2ARequest r = true <->
  GoStrings.Contains (http.Header_Get (http.Header r) "Content-Type") "application/json" = true
  /\ (http.Method r = "POST"
      \/ (http.Method r = "GET"
          /\ GoStrings.Contains (http.Path (http.Url r)) agent_card_path = true)).
Proof.
  unfold IsA2ARequest.
  destruct (GoStrings.Contains (http.Header_Get _ _) _); simpl.
  2: { split; [discriminate | intros [H _]; discriminate]. }
  destruct (String.eqb_spec (http.Method r) "POST") as [HP | HP]; simpl.
  { split; auto. }
  destruct (String.eqb_spec (http.Method r) "GET") as [HG | HG]; simpl.
  - destruct (GoStrings.Contains (http.Path _) _).
    + split; auto.
    + split; [discriminate |].
      intros [_ [H | [_ H]]]; [contradiction | discriminate].
  - split; [discriminate |].
    intros [_ [H | [H _]]]; contradiction.
Qed.

(** The plain agent-card GET is not classified A2A: the content-type test
    comes first. *)
Lemma IsA2ARequest_card_plain_get : IsA2ARequest card_plain_get = false.
Proof. vm_compute. reflexivity. Qed.

(** C2, as stated, fails: a GET whose path goes on after the agent-card
    path (so does not end in it) and whose Content-Type is JSON is judged
    A2A, although it is neither a POST nor a GET with a path ending in
    /.well-known/agent.json. *)
Lemma C2_counterexample :
  IsA2ARequest card_subpath_get = true
  /\ IsA2ARequest_spec card_subpath_get = false
  /\ http.Method card_subpath_get = "GET"
  /\ GoStrings.HasSuffix (http.Path (http.Url card_subpath_get)) agent_card_path
     = false.
Proof.
  repeat split; vm_compute; reflexivity.
Qed.

(** C2, amended: a POST is A2A exactly when its Content-Type contains
    application/json; a GET whose Content-Type contains application/json
    is A2A exactly when its path contains /.well-known/agent.json; a
    request with any other method is never A2A. *)
Theorem C2_classifier (r : http.Request) :
  (http.Method r = "POST" ->
     (IsA2ARequest r = true <->
      GoStrings.Contains (http.Header_Get (http.Header r) "Content-Type")
        "application/json" = true))
  /\ (http.Method r = "GET" ->
      GoStrings.Contains (http.Header_Get (http.Header r) "Content-Type")
        "application/json" = true ->
      (IsA2ARequest r = true <->
       GoStrings.Contains (http.Path (http.Url r)) agent_card_path = true))
  /\ (http.Method r <> "POST" -> http.Method r <> "GET" -> IsA2ARequest r = false).
Proof.
  split; [| split].
  - intros HP. split.
    + intros H. apply IsA2ARequest_true in H. tauto.
    + intros H. apply IsA2ARequest_true. auto.
  - intros HG HJ. split.
    + intros H. apply IsA2ARequest_true in H.
      destruct H as [_ [HP | [_ HC]]]; [congruence | exact HC].
    + intros HC. apply IsA2ARequest_true. auto.
  - intros HP HG. destruct (IsA2ARequest r) eqn:E; [| reflexivity].
    apply IsA2ARequest_true in E. destruct E as [_ [E | [E _]]]; contradiction.
Qed.

(** C2 at a JSON POST, a JSON agent-card GET and a JSON PUT. *)
Lemma C2_classifier_witness :
  IsA2ARequest json_post = true
  /\ IsA2ARequest json_get = true
  /\ IsA2ARequest json_put = false.
Proof.
  split; [| split].
  - destruct (C2_classifier json_post) as [H _].
    apply H; vm_compute; reflexivity.
  - destruct (C2_classifier json_get) as [_ [H _]].
    apply H; vm_compute; reflexivity.
  - destruct (C2_classifier json_put) as [_ [_ H]].
    apply H; vm_compute; discriminate.
Defined.

(** ** ParseResponse: the error text *)

Section ResponseError.
Context {lib : GoLib}.

Lemma ParseResponse_Error resp body requestMsg duration s :
  Message.Error (fst (ParseResponse resp body requestMsg duration s)) =
  if 400 <=? http.StatusCode resp then http_StatusText (http.StatusCode resp)
  else jsonrpc_error_text body.
Proof.
  unfold ParseResponse, jsonrpc_error_text, bind, time_Now, ret. simpl.
  destruct (400 <=? http.StatusCode resp); simpl; [reflexivity |].
  destruct (json_Unmarshal_A2AResponse body) as [r |]; simpl; [| reflexivity].
  destruct (A2AResponse.Error r); reflexivity.
Qed.

(** C3, amended: when the HTTP status is 400 or more, the error text of
    the response Message is the HTTP status text, also when the body
    carries a JSON-RPC error; below 400 it is the JSON-RPC error message
    of the body when the body decodes with a non-null error, and empty
    otherwise. *)
Theorem C3_response_error resp body requestMsg duration s :
  let msg := fst (ParseResponse resp body requestMsg duration s) in
  (400 <= http.StatusCode resp ->
     Message.Error msg = http_StatusText (http.StatusCode resp))
  /\ (http.StatusCode resp < 400 ->
      forall a2aResp e,
        json_Unmarshal_A2AResponse body = Some a2aResp ->
        A2AResponse.Error a2aResp = Some e ->
        Message.Error msg = A2AError.Message e)
  /\ (http.StatusCode resp < 400 ->
      (json_Unmarshal_A2AResponse body = None
       \/ exists a2aResp, json_Unmarshal_A2AResponse body = Some a2aResp
                          /\ A2AResponse.Error a2aResp = None) ->
      Message.Error msg = EmptyString).
Proof.
  cbv zeta. rewrite ParseResponse_Error. split; [| split].
  - intros H. apply Z.leb_le in H. rewrite H. reflexivity.
  - intros H r e Hr He. apply Z.leb_gt in H. rewrite H.
    unfold jsonrpc_error_text. rewrite Hr, He. reflexivity.
  - intros H Hno. apply Z.leb_gt in H. rewrite H.
    unfold jsonrpc_error_text.
    destruct Hno as [Hn | (r & Hr & He)].
    + rewrite Hn. reflexivity.
    + rewrite Hr, He. reflexivity.
Qed.

End ResponseError.

(** C3, as stated, fails: an upstream answer with status 500 whose body
    carries the JSON-RPC error message boom is given the error text of the
    status, Internal Server Error, not the JSON-RPC message. *)
Lemma C3_counterexample :
  @json_Unmarshal_A2AResponse sample_lib sample_failure
    = Some (A2AResponse.mk "2.0" (IdString "req-1")
              (Some (A2AError.mk (-32603) "boom")))
  /\ 400 <= http.StatusCode upstream_500
  /\ Message.Error
       (fst (@ParseResponse sample_lib upstream_500 sample_failure
               sample_request_msg 7000000 sample_sys))
     = "Internal Server Error"
  /\ Message.Error
       (fst (@ParseResponse sample_lib upstream_500 sample_failure
               sample_request_msg 7000000 sample_sys))
     <> "boom".
Proof.
  split; [vm_compute; reflexivity |].
  split; [vm_compute; discriminate |].
  split; [vm_compute; reflexivity |].
  vm_compute. discriminate.
Qed.

(** C3 at the sample error body with status 500 and 200, and at the
    sample result with status 200. *)
Lemma C3_response_error_witness :
  Message.Error
    (fst (@ParseResponse sample_lib upstream_500 sample_failure
            sample_request_msg 7000000 sample_sys))
    = "Internal Server Error"
  /\ Message.Error
       (fst (@ParseResponse sample_lib upstream_200 sample_failure
               sample_request_msg 7000000 sample_sys))
     = "boom"
  /\ Message.Error
       (fst (@ParseResponse sample_lib upstream_200 sample_result
               sample_request_msg 7000000 sample_sys))
     = EmptyString.
Proof.
  split; [| split].
  - apply (@C3_response_error sample_lib upstream_500 sample_failure
             sample_request_msg 7000000 sample_sys).
    vm_compute. discriminate.
  - refine (proj1 (proj2 (@C3_response_error sample_lib upstream_200 sample_failure
             sample_request_msg 7000000 sample_sys)) _
             (A2AResponse.mk "2.0" (IdString "req-1")
                (Some (A2AError.mk (-32603) "boom")))
             (A2AError.mk (-32603) "boom") _ _).
    + vm_compute. reflexivity.
    + vm_compute. reflexivity.
    + reflexivity.
  - apply (proj2 (proj2 (@C3_response_error sample_lib upstream_200 sample_result
             sample_request_msg 7000000 sample_sys))).
    + vm_compute. reflexivity.
    + right. eexists. split; vm_compute; reflexivity.
Defined.

(** ** The title of an error insight *)

Lemma formatErrorTitle_404 :
  formatErrorTitle (response_with_status 404)
    = "HTTP Error " +:+ string_of_bytes [198; 148].
Proof. vm_compute. reflexivity. Qed.

(** C9: the error insight of a response with status 404 has the title
    HTTP Error followed by the two bytes that encode the code point 404
    (U+0194), not the title HTTP Error 404. *)
Theorem C9_error_title_404 {lib : GoLib} (a : Analyzer.t) (s : Sys) :
  exists i,
    snd (fst (checkError a (response_with_status 404) s)) = Some i
    /\ Insight.Category i = "error"
    /\ Insight.Title i = "HTTP Error " +:+ string_of_bytes [198; 148]
    /\ Insight.Title i <> "HTTP Error 404".
Proof.
  unfold checkError, bind, uuid_New, time_Now, ret. simpl.
  eexists. split; [reflexivity |]. simpl.
  split; [reflexivity |].
  rewrite formatErrorTitle_404.
  split; [reflexivity | vm_compute; discriminate].
Qed.

(** No status from 400 to 599 gets a title with its decimal digits. *)
Lemma error_title_never_decimal :
  forallb (fun code =>
             negb (String.eqb (formatErrorTitle (response_with_status code))
                     ("HTTP Error " +:+ Itoa code)))
          (map Z.of_nat (seq 400 200)) = true.
Proof. vm_compute. reflexivity. Qed.

(** ** buildEnv *)

Lemma before_entry (k v : string) :
  GoStrings.occurs "="%char k = false ->
  GoStrings.before "="%char (k +:+ "=" +:+ v) = k.
Proof.
  induction k as [| c k IH]; simpl; intros H.
  - reflexivity.
  - apply orb_false_iff in H. destruct H as [Hc Hk].
    rewrite Hc. f_equal. apply IH. exact Hk.
Qed.

Lemma proxyVars_names (port : Z) (k v : string) :
  proxyVars port !! k = Some v -> GoStrings.occurs "="%char k = false.
Proof.
  unfold proxyVars. intros H.
  apply elem_of_list_to_map_2 in H.
  repeat (apply elem_of_cons in H; destruct H as [H | H];
          [inversion H; subst; reflexivity |]).
  apply elem_of_nil in H. contradiction.
Qed.

Lemma env_key_entry (port : Z) (k v : string) :
  proxyVars port !! k = Some v -> env_key (env_entry (k, v)) = k.
Proof.
  intros H. unfold env_key, env_entry, GoStrings.SplitFirst. simpl.
  apply before_entry. eapply proxyVars_names. exact H.
Qed.

Lemma range_lookup (port : Z) (range : list (string * string)) (k v : string) :
  range ≡ₚ map_to_list (proxyVars port) ->
  In (k, v) range <-> proxyVars port !! k = Some v.
Proof.
  intros HP. rewrite <- list_elem_of_In, HP. apply elem_of_map_to_list.
Qed.

Lemma buildEnv_injected (environ : list string) (port : Z)
    (range : list (string * string)) (k v : string) :
  range ≡ₚ map_to_list (proxyVars port) ->
  proxyVars port !! k = Some v ->
  In (k +:+ "=" +:+ v) (buildEnv environ port range).
Proof.
  intros HP Hk. unfold buildEnv. apply in_or_app. right.
  change (k +:+ "=" +:+ v) with (env_entry (k, v)).
  apply in_map. apply (range_lookup port); assumption.
Qed.

Lemma buildEnv_proxy_keys (environ : list string) (port : Z)
    (range : list (string * string)) (e v : string) :
  range ≡ₚ map_to_list (proxyVars port) ->
  In e (buildEnv environ port range) ->
  proxyVars port !! env_key e = Some v ->
  e = env_key e +:+ "=" +:+ v /\ In (env_key e, v) range.
Proof.
  intros HP He Hv. unfold buildEnv in He.
  apply in_app_or in He. destruct He as [He | He].
  - apply filter_In in He. destruct He as [_ He].
    rewrite Hv in He. discriminate.
  - apply in_map_iff in He. destruct He as ([k v'] & <- & Hin).
    pose proof (proj1 (range_lookup port range k v' HP) Hin) as Hk.
    rewrite (env_key_entry port k v' Hk) in *.
    assert (v' = v) by congruence. subst v'.
    split; [reflexivity | exact Hin].
Qed.

Lemma proxyVars_defined (port : Z) (k : string) :
  In k proxy_names <-> exists v, proxyVars port !! k = Some v.
Proof.
  split.
  - intros H. unfold proxy_names in H. simpl in H.
    repeat (destruct H as [<- | H]; [eexists; reflexivity |]).
    contradiction.
  - intros [v H]. unfold proxyVars in H.
    apply elem_of_list_to_map_2 in H.
    repeat (apply elem_of_cons in H; destruct H as [H | H];
            [inversion H; subst; simpl; tauto |]).
    apply elem_of_nil in H. contradiction.
Qed.

(** C8: for every parent environment and proxy port, the child
    environment holds HTTP_PROXY, http_proxy, HTTPS_PROXY and https_proxy
    set to http://127.0.0.1:port, NO_PROXY and no_proxy set to the empty
    string, A2A_PROXY, A2A_TRACE=1 and A2A_TRACE_UI; it is the inherited
    entries whose name is none of these variables, followed by the
    injected ones, so every entry of it named like one of them is the
    injected entry and no inherited one survives. *)
Theorem C8_child_environment (environ : list string) (port : Z)
    (range : list (string * string)) :
  range ≡ₚ map_to_list (proxyVars port) ->
  let env := buildEnv environ port range in
  let proxyURL := "http://127.0.0.1:" +:+ Itoa port in
  In ("HTTP_PROXY=" +:+ proxyURL) env
  /\ In ("http_proxy=" +:+ proxyURL) env
  /\ In ("HTTPS_PROXY=" +:+ proxyURL) env
  /\ In ("https_proxy=" +:+ proxyURL) env
  /\ In "NO_PROXY=" env
  /\ In "no_proxy=" env
  /\ In ("A2A_PROXY=" +:+ proxyURL) env
  /\ In "A2A_TRACE=1" env
  /\ In ("A2A_TRACE_UI=" +:+ proxyURL +:+ "/ui") env
  /\ (exists inherited,
        env = inherited ++ map env_entry range
        /\ forall e, In e inherited <-> In e environ /\ ~ In (env_key e) proxy_names)
  /\ (forall e, In e env -> In (env_key e) proxy_names ->
        exists v, proxyVars port !! env_key e = Some v
                  /\ e = env_key e +:+ "=" +:+ v).
Proof.
  intros HP env proxyURL.
  split; [exact (buildEnv_injected environ port range "HTTP_PROXY" proxyURL HP eq_refl) |].
  split; [exact (buildEnv_injected environ port range "http_proxy" proxyURL HP eq_refl) |].
  split; [exact (buildEnv_injected environ port range "HTTPS_PROXY" proxyURL HP eq_refl) |].
  split; [exact (buildEnv_injected environ port range "https_proxy" proxyURL HP eq_refl) |].
  split; [exact (buildEnv_injected environ port range "NO_PROXY" EmptyString HP eq_refl) |].
  split; [exact (buildEnv_injected environ port range "no_proxy" EmptyString HP eq_refl) |].
  split; [exact (buildEnv_injected environ port range "A2A_PROXY" proxyURL HP eq_refl) |].
  split; [exact (buildEnv_injected environ port range "A2A_TRACE" "1" HP eq_refl) |].
  split; [exact (buildEnv_injected environ port range "A2A_TRACE_UI"
                   (proxyURL +:+ "/ui") HP eq_refl) |].
  split.
  - eexists. split; [reflexivity |].
    intros e. rewrite filter_In. rewrite (proxyVars_defined port).
    destruct (proxyVars port !! env_key e) as [v |].
    + split; [intros [_ H]; discriminate |].
      intros [_ H]. exfalso. apply H. exists v. reflexivity.
    + split; [intros [H _] | intros [H _]]; (split; [exact H |]).
      * intros [v Hv]. discriminate.
      * reflexivity.
  - intros e He Hname.
    apply (proxyVars_defined port) in Hname. destruct Hname as [v Hv].
    destruct (buildEnv_proxy_keys environ port range e v HP He Hv) as [Heq _].
    exists v. split; [exact Hv | exact Heq].
Qed.

(** C8 at a parent environment that has a proxy of its own, port 8080. *)
Lemma C8_child_environment_witness :
  let env := buildEnv sample_environ 8080 (map_to_list (proxyVars 8080)) in
  In "HTTP_PROXY=http://127.0.0.1:8080" env
  /\ In "NO_PROXY=" env
  /\ In "A2A_TRACE=1" env
  /\ ~ In "HTTP_PROXY=http://corp.example:3128" env.
Proof.
  pose proof (C8_child_environment sample_environ 8080
                (map_to_list (proxyVars 8080)) (Permutation_refl _)) as H.
  cbv zeta in H |- *.
  destruct H as (H1 & _ & _ & _ & H5 & _ & _ & H8 & _ & _ & Hkeys).
  split; [exact H1 |]. split; [exact H5 |]. split; [exact H8 |].
  intros Hin. destruct (Hkeys _ Hin) as (v & Hv & Heq).
  - vm_compute. tauto.
  - vm_compute in Hv. inversion Hv; subst v. vm_compute in Heq. discriminate.
Defined.

(** ** SaveAgent *)

(** A string is none of the strings of an explicit list. *)
Ltac not_among :=
  let H := fresh in
  intros H; try apply list_elem_of_In in H; simpl in H;
  repeat (destruct H as [H | H]; [discriminate H |]);
  exact H.

Lemma has_agent_id_false (id : string) (rows : list Agent.t) :
  ~ In id (map Agent.ID rows) -> has_agent_id id rows = false.
Proof.
  unfold has_agent_id. induction rows as [| r rows IH]; simpl; intros H.
  - reflexivity.
  - apply orb_false_iff. split.
    + apply String.eqb_neq. intros E. apply H. left. exact E.
    + apply IH. intros Hin. apply H. right. exact Hin.
Qed.

Lemma has_agent_url_true (url : string) (rows : list Agent.t) :
  In url (map Agent.URL rows) -> has_agent_url url rows = true.
Proof.
  unfold has_agent_url. intros H. apply existsb_exists.
  apply in_map_iff in H. destruct H as (r & Hr & Hin).
  exists r. split; [exact Hin | apply String.eqb_eq; exact Hr].
Qed.

Lemma upsert_agent_columns (new : Agent.t) (rows : list Agent.t) :
  map Agent.ID (upsert_agent new rows) = map Agent.ID rows
  /\ map Agent.URL (upsert_agent new rows) = map Agent.URL rows
  /\ map Agent.FirstSeen (upsert_agent new rows) = map Agent.FirstSeen rows.
Proof.
  unfold upsert_agent. induction rows as [| r rows (IH1 & IH2 & IH3)]; simpl.
  - auto.
  - rewrite IH1, IH2, IH3.
    destruct (String.eqb (Agent.URL r) (Agent.URL new)); simpl; auto.
Qed.

Lemma upsert_agent_row (new row : Agent.t) (rows : list Agent.t) :
  In row (upsert_agent new rows) ->
  Agent.URL row = Agent.URL new ->
  Agent.Name row = Agent.Name new
  /\ Agent.Description row = Agent.Description new
  /\ Agent.Version row = Agent.Version new
  /\ Agent.Skills row = Agent.Skills new.
Proof.
  unfold upsert_agent. intros Hin Hurl.
  apply in_map_iff in Hin. destruct Hin as (old & Hrow & _).
  destruct (String.eqb_spec (Agent.URL old) (Agent.URL new)) as [E | E].
  - subst row. simpl. auto.
  - subst row. contradiction.
Qed.

Lemma upsert_agent_other (new row : Agent.t) (rows : list Agent.t) :
  In row rows -> Agent.URL row <> Agent.URL new -> In row (upsert_agent new rows).
Proof.
  unfold upsert_agent. intros Hin Hurl. apply in_map_iff.
  exists row. split; [| exact Hin].
  apply String.eqb_neq in Hurl. rewrite Hurl. reflexivity.
Qed.

(** C10: saving an Agent whose URL is already in the table, whatever its
    identifier (none, a new one, or one the table holds), succeeds,
    leaves the id and the first-seen time of every row as they were,
    gives the row of that URL the name, description, version and skills
    of the Agent saved, and adds no row: the URLs of the table, still
    without repetition, are the same. The other rows and the other
    tables are untouched. *)
Theorem C10_SaveAgent_upsert (agent : Agent.t) (s : Sys) :
  let rows := Store.agents (db s) in
  NoDup (map Agent.URL rows) ->
  In (Agent.URL agent) (map Agent.URL rows) ->
  let result := SaveAgent agent s in
  let rows' := Store.agents (db (snd result)) in
  snd (fst result) = true
  /\ map Agent.ID rows' = map Agent.ID rows
  /\ map Agent.FirstSeen rows' = map Agent.FirstSeen rows
  /\ map Agent.URL rows' = map Agent.URL rows
  /\ length rows' = length rows
  /\ NoDup (map Agent.URL rows')
  /\ (forall row, In row rows' -> Agent.URL row = Agent.URL agent ->
        Agent.Name row = Agent.Name agent
        /\ Agent.Description row = Agent.Description agent
        /\ Agent.Version row = Agent.Version agent
        /\ Agent.Skills row = Agent.Skills agent)
  /\ (forall row, In row rows -> Agent.URL row <> Agent.URL agent -> In row rows')
  /\ Store.messages (db (snd result)) = Store.messages (db s)
  /\ Store.insights (db (snd result)) = Store.insights (db s).
Proof.
  intros rows Hnodup Hurl result rows'.
  set (id := if String.eqb (Agent.ID agent) EmptyString
             then uuid_source s (uuid_calls s) else Agent.ID agent).
  set (agent' := Agent.set_ID id agent).
  assert (Hres : result = ((agent', true),
            mkSys (uuid_source s)
                  (if String.eqb (Agent.ID agent) EmptyString
                   then S (uuid_calls s) else uuid_calls s)
                  (clock s) (clock_calls s)
                  (Store.set_agents (upsert_agent agent' rows) (db s))
                  (published s) (published_agents s) (published_insights s))).
  { subst result agent' id. unfold SaveAgent, bind.
    destruct (String.eqb_spec (Agent.ID agent) EmptyString) as [E | E].
    - unfold uuid_New, get_db, put_db, ret. simpl.
      fold rows. rewrite (has_agent_url_true _ _ Hurl). reflexivity.
    - unfold get_db, put_db, ret. simpl.
      fold rows. rewrite (has_agent_url_true _ _ Hurl).
      destruct agent; reflexivity. }
  subst rows'. rewrite Hres. simpl.
  destruct (upsert_agent_columns agent' rows) as (H1 & H2 & H3).
  split; [reflexivity |].
  split; [exact H1 |]. split; [exact H3 |]. split; [exact H2 |].
  split. { rewrite <- (length_map Agent.URL), H2, length_map. reflexivity. }
  split. { rewrite H2. exact Hnodup. }
  split. { intros row Hin Hr. apply (upsert_agent_row agent' row rows Hin Hr). }
  split. { intros row Hin Hr. apply upsert_agent_other; assumption. }
  split; reflexivity.
Qed.

(** C10 at a table of two agents, the first one saved again: as a card
    seen again, without identifier, and as the stored Agent itself, with
    the identifier the table holds. *)
Lemma C10_SaveAgent_upsert_witness :
  map Agent.ID (Store.agents (db (snd (SaveAgent sample_agent_again sample_sys_agents))))
    = ["uuid-7"; "uuid-9"]
  /\ map Agent.Name (Store.agents (db (snd (SaveAgent sample_agent_again sample_sys_agents))))
    = ["Bobby"; "Eve"]
  /\ snd (fst (SaveAgent sample_agent_stored sample_sys_agents)) = true
  /\ map Agent.Name (Store.agents (db (snd (SaveAgent sample_agent_stored sample_sys_agents))))
    = ["Robert"; "Eve"].
Proof.
  assert (Hnd : NoDup (map Agent.URL sample_agents)).
  { vm_compute.
    constructor; [not_among |].
    constructor; [not_among | constructor]. }
  destruct (C10_SaveAgent_upsert sample_agent_again sample_sys_agents Hnd)
    as (_ & H & _).
  { vm_compute. tauto. }
  destruct (C10_SaveAgent_upsert sample_agent_stored sample_sys_agents Hnd)
    as (Hok & _).
  { vm_compute. tauto. }
  split; [exact H |]. split; [vm_compute; reflexivity |].
  split; [exact Hok | vm_compute; reflexivity].
Defined.

(** ** 64-bit arithmetic *)

Lemma wrap64_mod (z : Z) : wrap64 z mod 2 ^ 64 = z mod 2 ^ 64.
Proof.
  unfold wrap64. rewrite Zminus_mod_idemp_l. f_equal. lia.
Qed.

Lemma wrap64_congr (x y : Z) : x mod 2 ^ 64 = y mod 2 ^ 64 -> wrap64 x = wrap64 y.
Proof.
  intros H. unfold wrap64.
  rewrite <- (Zplus_mod_idemp_l x), <- (Zplus_mod_idemp_l y), H. reflexivity.
Qed.

Lemma wrap64_small (z : Z) : - 2 ^ 63 <= z < 2 ^ 63 -> wrap64 z = z.
Proof.
  intros H. unfold wrap64. rewrite Z.mod_small; lia.
Qed.

Lemma wrap64_add_l (x y : Z) : wrap64 (wrap64 x + y) = wrap64 (x + y).
Proof.
  apply wrap64_congr.
  rewrite <- Zplus_mod_idemp_l, wrap64_mod, Zplus_mod_idemp_l. reflexivity.
Qed.

Lemma wrap64_add_r (x y : Z) : wrap64 (x + wrap64 y) = wrap64 (x + y).
Proof.
  rewrite (Z.add_comm x), wrap64_add_l, Z.add_comm. reflexivity.
Qed.

(** ** GetSummary *)

Lemma insert_by_perm {A} (le : A -> A -> bool) (x : A) (l : list A) :
  Permutation (insert_by le x l) (x :: l).
Proof.
  induction l as [| y l IH]; simpl.
  - reflexivity.
  - destruct (le x y).
    + reflexivity.
    + rewrite IH. apply perm_swap.
Qed.

Lemma sort_by_perm {A} (le : A -> A -> bool) (l : list A) :
  Permutation (sort_by le l) l.
Proof.
  unfold sort_by. induction l as [| x l IH]; simpl.
  - reflexivity.
  - rewrite insert_by_perm. constructor. exact IH.
Qed.

Lemma response_total_perm (l l' : list Message.t) :
  Permutation l l' -> response_total l = response_total l'.
Proof.
  induction 1; simpl; lia.
Qed.

Lemma response_count_perm (l l' : list Message.t) :
  Permutation l l' -> response_count l = response_count l'.
Proof.
  induction 1; simpl; lia.
Qed.

Lemma response_total_filter (l : list Message.t) :
  response_total l = sumZ (map Message.DurationMs (List.filter is_response l)).
Proof.
  induction l as [| m l IH]; simpl; [reflexivity |].
  destruct (is_response m); simpl; lia.
Qed.

Lemma response_count_filter (l : list Message.t) :
  response_count l = Z.of_nat (length (List.filter is_response l)).
Proof.
  induction l as [| m l IH]; simpl; [reflexivity |].
  destruct (is_response m); simpl length; lia.
Qed.

(** The loop of [GetSummary]: the total is the wrapped sum of the
    durations of the responses, and the two counters add up to the
    wrapped number of responses. *)
Lemma summary_loop (l : list Message.t) (acc : Stats) :
  let stats := fold_left summary_step l acc in
  wrap64 (totalDuration stats) = wrap64 (totalDuration acc + response_total l)
  /\ wrap64 (successCount stats + errorCount stats)
     = wrap64 (successCount acc + errorCount acc + response_count l).
Proof.
  cbv zeta. revert acc.
  induction l as [| m l IH]; intros acc;
    cbn [fold_left response_total response_count].
  - split; f_equal; lia.
  - destruct (IH (summary_step acc m)) as [IH1 IH2].
    rewrite IH1, IH2. clear IH IH1 IH2.
    unfold summary_step, is_response.
    destruct (String.eqb (Message.Direction m) "response").
    + destruct (negb _ || _); cbn [totalDuration errorCount successCount]; split.
      * rewrite wrap64_add_l. f_equal. lia.
      * rewrite (Z.add_comm (successCount acc) (wrap64 _)), <- Z.add_assoc,
          wrap64_add_l. f_equal. lia.
      * rewrite wrap64_add_l. f_equal. lia.
      * rewrite <- !Z.add_assoc, wrap64_add_l. f_equal. lia.
    + split; f_equal; lia.
Qed.

Lemma summary_loop_in_range (l : list Message.t) (acc : Stats) :
  wrap64 (totalDuration acc) = totalDuration acc ->
  wrap64 (totalDuration (fold_left summary_step l acc))
    = totalDuration (fold_left summary_step l acc).
Proof.
  revert acc. induction l as [| m l IH]; intros acc H; simpl.
  - exact H.
  - apply IH. unfold summary_step.
    destruct (String.eqb (Message.Direction m) "response"); [| exact H].
    destruct (negb _ || _); cbn [totalDuration];
      rewrite <- (Z.add_0_r (wrap64 (totalDuration acc + _))) at 1;
      rewrite wrap64_add_l; f_equal; lia.
Qed.

(** C7: the avg_duration_ms of the summary is the sum of the durations of
    the response Messages of the trace divided (Go's integer division) by
    their number, and 0 when the trace has no response; the request
    Messages enter neither the sum nor the count. *)
Theorem C7_average_duration (a : Analyzer.t) (s : Sys) :
  let responses := trace_responses (Analyzer.traceID a) (db s) in
  let total := sumZ (map Message.DurationMs responses) in
  - 2 ^ 63 <= total < 2 ^ 63 ->
  Z.of_nat (length responses) < 2 ^ 63 ->
  avg_duration_ms (fst (GetSummary a s)) =
  match responses with
  | [] => 0
  | _ :: _ => Z.quot total (Z.of_nat (length responses))
  end.
Proof.
  intros responses total Htotal Hcount.
  unfold GetSummary, GetInsights, GetMessages, bind, get_db, ret.
  cbn [fst avg_duration_ms].
  set (msgs := List.filter _ (Store.messages (db s))).
  set (sorted := sort_by _ msgs).
  assert (Hperm : Permutation sorted msgs) by apply sort_by_perm.
  destruct (summary_loop sorted (mkStats 0 0 0)) as [H1 H2].
  cbn [totalDuration errorCount successCount] in H1, H2.
  rewrite (summary_loop_in_range sorted (mkStats 0 0 0) eq_refl) in H1.
  rewrite (response_total_perm _ _ Hperm), response_total_filter in H1.
  rewrite (response_count_perm _ _ Hperm), response_count_filter in H2.
  change (List.filter is_response msgs) with responses in H1, H2.
  change (sumZ (map Message.DurationMs responses)) with total in H1.
  change (2 ^ 63) with 9223372036854775808 in Htotal, Hcount.
  rewrite H1, H2, !wrap64_small
    by (change (2 ^ 63) with 9223372036854775808; lia).
  destruct responses as [| m rest]; [reflexivity |].
  destruct (0 <? _) eqn:E; [f_equal; lia |].
  apply Z.ltb_ge in E. simpl length in E. lia.
Qed.

(** C7 at a store with a request and responses of 40 ms and 55 ms. *)
Lemma C7_average_duration_witness :
  avg_duration_ms (fst (GetSummary sample_analyzer sample_sys_store)) = 47.
Proof.
  rewrite (C7_average_duration sample_analyzer sample_sys_store).
  - vm_compute. reflexivity.
  - vm_compute. split; [discriminate | reflexivity].
  - vm_compute. reflexivity.
Defined.

(** ** The analyzer: what one message yields *)

Section AnalyzerFacts.
Context {lib : GoLib}.

Lemma same_but_ID_refl (i : Insight.t) : same_but_ID i i.
Proof. unfold same_but_ID. tauto. Qed.

Lemma SaveInsight_same (i : Insight.t) (s : Sys) :
  same_but_ID i (fst (fst (SaveInsight i s))).
Proof.
  unfold SaveInsight, bind.
  destruct (String.eqb (Insight.ID i) EmptyString).
  - unfold uuid_New, get_db, put_db, ret. cbn [fst snd db].
    destruct (has_insight_id _ _); cbn [fst]; unfold same_but_ID; simpl; tauto.
  - unfold get_db, put_db, ret. cbn [fst snd db].
    destruct (has_insight_id _ _); cbn [fst]; apply same_but_ID_refl.
Qed.

Lemma save_and_broadcast_same (on : bool) (l : list Insight.t) (s : Sys) :
  Forall2 same_but_ID l (fst (save_and_broadcast on l s)).
Proof.
  revert s. induction l as [| i l IH]; intros s; simpl.
  - constructor.
  - unfold bind.
    pose proof (SaveInsight_same i s) as Hi.
    destruct (SaveInsight i s) as [saved s1]. cbn [fst] in Hi.
    destruct (if snd saved then _ else _) as [u s2].
    specialize (IH s2).
    destruct (save_and_broadcast on l s2) as [rest s3]. cbn [fst] in IH |- *.
    unfold ret. cbn [fst]. constructor; assumption.
Qed.

Lemma filter_category_same (c : string) (l l' : list Insight.t) :
  Forall2 same_but_ID l l' ->
  Forall2 same_but_ID (List.filter (is_category c) l) (List.filter (is_category c) l').
Proof.
  induction 1 as [| i j l l' Hij Hl IH]; simpl.
  - constructor.
  - assert (is_category c i = is_category c j) as ->.
    { unfold is_category. destruct Hij as (_ & _ & _ & -> & _). reflexivity. }
    destruct (is_category c j); [constructor |]; assumption.
Qed.

Lemma filter_append_some (c : string) (l : list Insight.t) (o : option Insight.t) :
  List.filter (is_category c) (append_some l o)
  = List.filter (is_category c) l ++ List.filter (is_category c) (option_list o).
Proof.
  destruct o; simpl.
  - apply List.filter_app.
  - rewrite app_nil_r. reflexivity.
Qed.

(** *** The four rules, one by one *)

Lemma checkSlowResponse_result a msg s :
  fst (checkSlowResponse a msg s) =
  if Message.DurationMs msg <=? Milliseconds (Analyzer.slowThreshold a) then None
  else Some (Insight.mk (uuid_source s (uuid_calls s)) (Analyzer.traceID a)
               (Message.ID msg) "warning" "slow_response" "Slow Response Detected"
               (formatSlowResponseDetails msg) (clock s (clock_calls s))).
Proof.
  unfold checkSlowResponse.
  destruct (Message.DurationMs msg <=? _); reflexivity.
Qed.

Lemma checkError_result a msg s :
  Analyzer.methodCounts (fst (fst (checkError a msg s))) = Analyzer.methodCounts a
  /\ Analyzer.traceID (fst (fst (checkError a msg s))) = Analyzer.traceID a
  /\ Analyzer.onInsight (fst (fst (checkError a msg s))) = Analyzer.onInsight a
  /\ forall i, snd (fst (checkError a msg s)) = Some i -> Insight.Category i = "error".
Proof.
  unfold checkError.
  destruct (_ && _).
  - cbn. repeat split. discriminate.
  - cbn. repeat split. intros i [= <-]. reflexivity.
Qed.

Lemma checkProtocolViolation_result a msg s i :
  fst (checkProtocolViolation a msg s) = Some i ->
  Insight.Category i = "protocol_violation".
Proof.
  unfold checkProtocolViolation.
  destruct (protocol_violations msg); cbn.
  - discriminate.
  - intros [= <-]. reflexivity.
Qed.

Lemma checkRetryLoop_result a msg s :
  fst (checkRetryLoop a msg s) =
  let count := count_of (Analyzer.methodCounts a) (Message.Method msg) in
  if negb (String.eqb (Message.Method msg) EmptyString)
     && (0 <? count) && (Z.rem count 5 =? 0)
  then Some (Insight.mk (uuid_source s (uuid_calls s)) (Analyzer.traceID a)
               (Message.ID msg) "warning" "retry_loop"
               "Potential Retry Loop Detected"
               (formatRetryLoopDetails (Message.Method msg) count)
               (clock s (clock_calls s)))
  else None.
Proof.
  unfold checkRetryLoop. cbv zeta.
  destruct (String.eqb (Message.Method msg) EmptyString); [reflexivity |].
  cbn [negb andb].
  destruct ((0 <? _) && _); reflexivity.
Qed.

(** *** AnalyzeMessage: the insights returned are, up to identifiers, the
    results of the rules in their order; only the request branch touches
    the method counters. *)
Lemma AnalyzeMessage_result a msg s :
  exists slow err viol retry s1 s2 s3,
    (if String.eqb (Message.Direction msg) "response"
     then slow = fst (checkSlowResponse (note_request a msg) msg s)
          /\ err = snd (fst (checkError (note_request a msg) msg s1))
          /\ viol = fst (checkProtocolViolation
                           (fst (fst (checkError (note_request a msg) msg s1))) msg s2)
     else slow = None /\ err = None /\ viol = None)
    /\ retry = fst (checkRetryLoop (fst (fst (AnalyzeMessage a msg s))) msg s3)
    /\ Analyzer.methodCounts (fst (fst (AnalyzeMessage a msg s)))
       = Analyzer.methodCounts (note_request a msg)
    /\ Analyzer.traceID (fst (fst (AnalyzeMessage a msg s))) = Analyzer.traceID a
    /\ Forall2 same_but_ID
         (append_some (append_some (append_some (append_some [] slow) err) viol) retry)
         (snd (fst (AnalyzeMessage a msg s))).
Proof.
  unfold AnalyzeMessage, response_checks, bind.
  assert (Htrace : Analyzer.traceID (note_request a msg) = Analyzer.traceID a).
  { unfold note_request. destruct (String.eqb _ _); reflexivity. }
  destruct (String.eqb (Message.Direction msg) "response").
  - destruct (checkSlowResponse (note_request a msg) msg s) as [slow s1] eqn:E1.
    pose proof (checkError_result (note_request a msg) msg s1) as (Hm & Ht & _ & _).
    destruct (checkError (note_request a msg) msg s1) as [[a' err] s2] eqn:E2.
    cbn [fst snd] in Hm, Ht |- *.
    destruct (checkProtocolViolation a' msg s2) as [viol s3] eqn:E3.
    unfold ret. cbn [fst snd].
    destruct (checkRetryLoop a' msg s3) as [retry s4] eqn:E4.
    pose proof (save_and_broadcast_same (Analyzer.onInsight a')
                  (append_some (append_some (append_some (append_some [] slow) err) viol)
                     retry) s4) as Hsave.
    destruct (save_and_broadcast _ _ s4) as [saved s5]. cbn [fst snd] in Hsave |- *.
    exists slow, err, viol, retry, s1, s2, s3.
    rewrite ?E1, ?E2. cbn [fst snd]. rewrite ?E3, ?E4. cbn [fst snd].
    repeat split; try assumption; congruence.
  - unfold ret. cbn [fst snd].
    destruct (checkRetryLoop (note_request a msg) msg s) as [retry s4] eqn:E4.
    pose proof (save_and_broadcast_same (Analyzer.onInsight (note_request a msg))
                  (append_some [] retry) s4) as Hsave.
    destruct (save_and_broadcast _ _ s4) as [saved s5]. cbn [fst snd] in Hsave |- *.
    exists None, None, None, retry, s, s, s.
    rewrite ?E4. cbn [fst snd append_some].
    repeat split; assumption.
Qed.

End AnalyzerFacts.

(** ** The slow-response rule *)

Section SlowResponse.
Context {lib : GoLib}.

Lemma Forall2_nil_l {A B} (R : A -> B -> Prop) (l : list B) :
  Forall2 R [] l -> l = [].
Proof. inversion 1. reflexivity. Qed.

Lemma Forall2_one_l {A B} (R : A -> B -> Prop) (x : A) (l : list B) :
  Forall2 R [x] l -> exists y, l = [y] /\ R x y.
Proof.
  inversion 1 as [| ? y ? l' Hxy Hl]; subst.
  inversion Hl; subst. exists y. split; [reflexivity | exact Hxy].
Qed.

Lemma filter_other_category (c : string) (o : option Insight.t) (c' : string) :
  (forall i, o = Some i -> Insight.Category i = c') ->
  c' <> c ->
  List.filter (is_category c) (option_list o) = [].
Proof.
  intros H Hne. destruct o as [i |]; simpl; [| reflexivity].
  unfold is_category. rewrite (H i eq_refl).
  apply String.eqb_neq in Hne. rewrite Hne. reflexivity.
Qed.

Lemma retry_category a msg s i :
  fst (checkRetryLoop a msg s) = Some i -> Insight.Category i = "retry_loop".
Proof.
  rewrite checkRetryLoop_result. cbv zeta.
  destruct (_ && _); [| discriminate].
  intros [= <-]. reflexivity.
Qed.

Lemma slow_category a msg s i :
  fst (checkSlowResponse a msg s) = Some i -> Insight.Category i = "slow_response".
Proof.
  rewrite checkSlowResponse_result.
  destruct (_ <=? _); [discriminate |].
  intros [= <-]. reflexivity.
Qed.

(** The slow-response insights of a response are the result of
    [checkSlowResponse], up to the identifier. *)
Lemma slow_insights a msg s :
  Message.Direction msg = "response" ->
  Forall2 same_but_ID
    (option_list (fst (checkSlowResponse a msg s)))
    (List.filter (is_category "slow_response") (snd (fst (AnalyzeMessage a msg s)))).
Proof.
  intros Hdir.
  destruct (AnalyzeMessage_result a msg s)
    as (slow & err & viol & retry & s1 & s2 & s3 & Hchecks & Hretry & _ & _ & Hall).
  rewrite Hdir in Hchecks. simpl in Hchecks.
  destruct Hchecks as (Hslow & Herr & Hviol).
  assert (Hreq : note_request a msg = a).
  { unfold note_request. rewrite Hdir. reflexivity. }
  rewrite Hreq in *.
  apply (filter_category_same "slow_response") in Hall.
  rewrite !filter_append_some in Hall. simpl List.filter at 1 in Hall.
  rewrite (filter_other_category _ err "error") in Hall;
    [| intros i Hi; subst err; eapply checkError_result; exact Hi | discriminate].
  rewrite (filter_other_category _ viol "protocol_violation") in Hall;
    [| intros i Hi; subst viol; eapply checkProtocolViolation_result; exact Hi
     | discriminate].
  rewrite (filter_other_category _ retry "retry_loop") in Hall;
    [| intros i Hi; subst retry; eapply retry_category; exact Hi | discriminate].
  rewrite !app_nil_r in Hall. simpl app in Hall.
  subst slow.
  destruct (fst (checkSlowResponse a msg s)) as [i |] eqn:E; simpl in Hall |- *.
  - unfold is_category in Hall. rewrite (slow_category _ _ _ _ E) in Hall.
    simpl in Hall. exact Hall.
  - exact Hall.
Qed.

(** C6, amended: with the default threshold of 1,000 ms, a response
    Message whose duration is greater than 1,000 ms yields exactly one
    insight of category slow_response, of severity warning, tied to the
    Message, with details duration_ms, url, method and suggestion; a
    response Message whose duration is 1,000 ms or less yields none. *)
Theorem C6_slow_response (cfg : Analyzer.Config) (msg : Message.t) (s : Sys) :
  Analyzer.cfg_SlowThreshold cfg = 0 ->
  Message.Direction msg = "response" ->
  let slow := List.filter (is_category "slow_response")
                (snd (fst (AnalyzeMessage (New cfg) msg s))) in
  (1000 < Message.DurationMs msg ->
     exists i, slow = [i]
       /\ Insight.Category i = "slow_response"
       /\ Insight.Type_ i = "warning"
       /\ Insight.MessageID i = Message.ID msg
       /\ Insight.Details i =
          formatDetails (list_to_map
            [("duration_ms", DInt (Message.DurationMs msg));
             ("url", DStr (Message.URL msg));
             ("method", DStr (Message.Method msg));
             ("suggestion",
              DStr "Consider adding timeout handling or investigating agent performance")]))
  /\ (Message.DurationMs msg <= 1000 -> slow = []).
Proof.
  intros Hcfg Hdir slow.
  pose proof (slow_insights (New cfg) msg s Hdir) as H.
  fold slow in H. rewrite checkSlowResponse_result in H.
  assert (Hthr : Milliseconds (Analyzer.slowThreshold (New cfg)) = 1000).
  { unfold New. rewrite Hcfg. reflexivity. }
  rewrite Hthr in H.
  split; intros Hd.
  - apply Z.leb_gt in Hd. rewrite Hd in H. simpl in H.
    apply Forall2_one_l in H. destruct H as (i & Hi & Hsame).
    destruct Hsame as (_ & Hm & Ht & Hc & _ & Hdet & _).
    exists i. split; [exact Hi |].
    split; [symmetry; exact Hc |]. split; [symmetry; exact Ht |].
    split; [symmetry; exact Hm | symmetry; exact Hdet].
  - apply Z.leb_le in Hd. rewrite Hd in H. simpl in H.
    apply Forall2_nil_l in H. exact H.
Qed.

End SlowResponse.

(** C6, as stated, fails: a response whose duration is 1,000 ms, so not
    below the threshold, yields no slow_response insight. *)
Lemma C6_counterexample :
  1000 <= Message.DurationMs (response_of_duration 1000)
  /\ List.filter (is_category "slow_response")
       (snd (fst (@AnalyzeMessage sample_lib (New default_config)
                    (response_of_duration 1000) sample_sys))) = [].
Proof.
  split; [vm_compute; discriminate | vm_compute; reflexivity].
Qed.

(** C6 at responses of 1,500 ms and of 40 ms. *)
Lemma C6_slow_response_witness :
  (exists i,
     List.filter (is_category "slow_response")
       (snd (fst (@AnalyzeMessage sample_lib (New default_config)
                    (response_of_duration 1500) sample_sys))) = [i]
     /\ Insight.Type_ i = "warning")
  /\ List.filter (is_category "slow_response")
       (snd (fst (@AnalyzeMessage sample_lib (New default_config)
                    (response_of_duration 40) sample_sys))) = [].
Proof.
  split.
  - destruct (proj1 (@C6_slow_response sample_lib default_config
                       (response_of_duration 1500) sample_sys eq_refl eq_refl))
      as (i & Hi & _ & Ht & _).
    + reflexivity.
    + exists i. split; [exact Hi | exact Ht].
  - apply (proj2 (@C6_slow_response sample_lib default_config
                    (response_of_duration 40) sample_sys eq_refl eq_refl)).
    vm_compute. discriminate.
Defined.

(** ** The retry-loop rule *)

Section RetryLoop.
Context {lib : GoLib}.

Lemma count_of_increment (m : gmap string Z) (k k' : string) :
  count_of (increment m k) k' =
  if String.eqb k k' then wrap64 (count_of m k + 1) else count_of m k'.
Proof.
  unfold increment, count_of at 1.
  destruct (String.eqb_spec k k') as [-> | Hne].
  - rewrite lookup_insert_eq. reflexivity.
  - rewrite lookup_insert_ne by exact Hne. reflexivity.
Qed.

Lemma note_request_count a msg m :
  count_of (Analyzer.methodCounts (note_request a msg)) m =
  if String.eqb (Message.Direction msg) "request" && carries m msg
  then wrap64 (count_of (Analyzer.methodCounts a) m + 1)
  else count_of (Analyzer.methodCounts a) m.
Proof.
  unfold note_request, carries.
  destruct (String.eqb (Message.Direction msg) "request"); simpl; [| reflexivity].
  rewrite count_of_increment.
  destruct (String.eqb_spec (Message.Method msg) m) as [-> | Hne]; reflexivity.
Qed.

(** One message: the retry-loop insights are decided by the count of the
    method once the request branch has run. *)
Lemma AnalyzeMessage_retry a msg s :
  let c := count_of (Analyzer.methodCounts (note_request a msg)) (Message.Method msg) in
  (Message.Method msg <> EmptyString -> 0 < c) ->
  retry_outcome msg c (snd (fst (AnalyzeMessage a msg s))).
Proof.
  intros c Hc.
  destruct (AnalyzeMessage_result a msg s)
    as (slow & err & viol & retry & s1 & s2 & s3 & Hchecks & Hretry & Hm & Ht & Hall).
  apply (filter_category_same "retry_loop") in Hall.
  rewrite !filter_append_some in Hall. simpl List.filter at 1 in Hall.
  assert (Hslow : List.filter (is_category "retry_loop") (option_list slow) = []).
  { destruct (String.eqb (Message.Direction msg) "response").
    - destruct Hchecks as (-> & _).
      apply (filter_other_category _ _ "slow_response"); [| discriminate].
      intros i. apply slow_category.
    - destruct Hchecks as (-> & _). reflexivity. }
  assert (Herr : List.filter (is_category "retry_loop") (option_list err) = []).
  { destruct (String.eqb (Message.Direction msg) "response").
    - destruct Hchecks as (_ & -> & _).
      apply (filter_other_category _ _ "error"); [| discriminate].
      intros i. apply checkError_result.
    - destruct Hchecks as (_ & -> & _). reflexivity. }
  assert (Hviol : List.filter (is_category "retry_loop") (option_list viol) = []).
  { destruct (String.eqb (Message.Direction msg) "response").
    - destruct Hchecks as (_ & _ & ->).
      apply (filter_other_category _ _ "protocol_violation"); [| discriminate].
      intros i. apply checkProtocolViolation_result.
    - destruct Hchecks as (_ & _ & ->). reflexivity. }
  rewrite Hslow, Herr, Hviol in Hall. simpl app in Hall.
  rewrite checkRetryLoop_result in Hretry. cbv zeta in Hretry.
  rewrite Hm, Ht in Hretry. fold c in Hretry.
  unfold retry_outcome. cbv zeta.
  destruct (String.eqb_spec (Message.Method msg) EmptyString) as [Hempty | Hmeth];
    cbn [negb andb] in Hretry |- *.
  { subst retry. simpl in Hall. apply Forall2_nil_l in Hall. exact Hall. }
  apply Hc, Z.ltb_lt in Hmeth. rewrite Hmeth in Hretry. cbn [andb] in Hretry.
  destruct (Z.rem c 5 =? 0); subst retry; simpl in Hall.
  - apply Forall2_one_l in Hall. destruct Hall as (i & Hi & Hsame).
    destruct Hsame as (_ & Hmsg & Hty & Hcat & _ & Hdet & _).
    exists i. split; [exact Hi |].
    split; [symmetry; exact Hcat |]. split; [symmetry; exact Hty |].
    split; [symmetry; exact Hmsg | symmetry; exact Hdet].
  - apply Forall2_nil_l in Hall. exact Hall.
Qed.

Lemma retry_outcome_no_method msg c c' insights :
  Message.Method msg = EmptyString ->
  retry_outcome msg c insights -> retry_outcome msg c' insights.
Proof.
  unfold retry_outcome. intros ->. simpl. auto.
Qed.

Lemma occurrences_cons m msg msgs :
  occurrences m (msg :: msgs) = (if carries m msg then 1 else 0) + occurrences m msgs.
Proof.
  unfold occurrences. simpl. destruct (carries m msg); simpl length; lia.
Qed.

Lemma occurrences_nonneg m msgs : 0 <= occurrences m msgs.
Proof. unfold occurrences. lia. Qed.

(** The counts after one message, for a method that is not empty. *)
Lemma AnalyzeMessage_count a msg s m base :
  method_on_request msg ->
  (forall m', 0 <= count_of (Analyzer.methodCounts a) m' <= base) ->
  base + 1 < 2 ^ 63 ->
  (forall m', 0 <= count_of (Analyzer.methodCounts (fst (fst (AnalyzeMessage a msg s)))) m'
              <= base + 1)
  /\ (m <> EmptyString ->
      count_of (Analyzer.methodCounts (fst (fst (AnalyzeMessage a msg s)))) m
      = count_of (Analyzer.methodCounts a) m + (if carries m msg then 1 else 0)).
Proof.
  intros Hshape Hbase Hlt.
  change (2 ^ 63) with 9223372036854775808 in Hlt.
  destruct (AnalyzeMessage_result a msg s)
    as (_ & _ & _ & _ & _ & _ & _ & _ & _ & Hm & _).
  rewrite Hm. split.
  - intros m'. rewrite note_request_count.
    pose proof (Hbase m') as Hb.
    destruct (_ && _); [rewrite wrap64_small |];
      change (2 ^ 63) with 9223372036854775808; lia.
  - intros Hne. rewrite note_request_count.
    pose proof (Hbase m) as Hb.
    destruct (carries m msg) eqn:Hcar.
    + unfold carries in Hcar. apply String.eqb_eq in Hcar.
      rewrite Hshape by congruence. simpl.
      apply wrap64_small. change (2 ^ 63) with 9223372036854775808. lia.
    + rewrite andb_false_r. lia.
Qed.

Lemma AnalyzeAll_retry msgs : forall a s k msg base,
  Forall method_on_request msgs ->
  (forall m, 0 <= count_of (Analyzer.methodCounts a) m <= base) ->
  base + Z.of_nat (length msgs) < 2 ^ 63 ->
  msgs !! k = Some msg ->
  exists insights,
    snd (fst (AnalyzeAll a msgs s)) !! k = Some insights
    /\ retry_outcome msg
         (count_of (Analyzer.methodCounts a) (Message.Method msg)
          + occurrences (Message.Method msg) (take (S k) msgs))
         insights.
Proof.
  induction msgs as [| msg0 rest IH]; intros a s k msg base Hshape Hbase Hlt Hk.
  - discriminate.
  - inversion Hshape as [| ? ? Hshape0 Hrest]; subst.
    simpl length in Hlt.
    pose proof (AnalyzeMessage_count a msg0 s (Message.Method msg) base Hshape0 Hbase)
      as Hcount.
    pose proof (AnalyzeMessage_retry a msg0 s) as Hstep.
    cbn [AnalyzeAll]. unfold bind.
    destruct (AnalyzeMessage a msg0 s) as [[a1 out] s1]. cbn [fst snd] in *.
    destruct Hcount as [Hbase1 Hcount1]; [lia |].
    destruct k as [| k].
    + injection Hk as ->.
      destruct (AnalyzeAll a1 rest s1) as [[a2 outs] s2]. unfold ret. cbn [fst snd].
      exists out. split; [reflexivity |].
      cbn [take]. rewrite occurrences_cons.
      unfold occurrences at 1. cbn [List.filter length].
      destruct (String.eqb_spec (Message.Method msg) EmptyString) as [Hempty | Hmeth].
      * eapply retry_outcome_no_method; [exact Hempty |].
        apply Hstep. intros Hmeth. contradiction.
      * assert (Hcar : carries (Message.Method msg) msg = true)
          by (unfold carries; apply String.eqb_refl).
        rewrite Hcar. rewrite Z.add_0_r.
        pose proof (Hbase (Message.Method msg)) as Hb.
        rewrite note_request_count in Hstep.
        rewrite (Hshape0 Hmeth), Hcar in Hstep. simpl in Hstep.
        rewrite wrap64_small in Hstep
          by (change (2 ^ 63) with 9223372036854775808 in *; lia).
        apply Hstep. intros _. lia.
    + cbn [lookup list_lookup] in Hk.
      destruct (IH a1 s1 k msg (base + 1) Hrest Hbase1) as (insights & Hk' & Hout);
        [lia | exact Hk |].
      destruct (AnalyzeAll a1 rest s1) as [[a2 outs] s2]. unfold ret.
      cbn [fst snd] in *.
      exists insights. split; [exact Hk' |].
      cbn [take]. rewrite occurrences_cons.
      destruct (String.eqb_spec (Message.Method msg) EmptyString) as [Hempty | Hmeth].
      * eapply retry_outcome_no_method; [exact Hempty | exact Hout].
      * rewrite (Hcount1 Hmeth) in Hout.
        rewrite Z.add_assoc. exact Hout.
Qed.

(** C5: within one trace, when the analyzer processes a Message carrying
    a non-empty method m that is the n-th Message of the trace carrying m,
    it emits a retry_loop warning if n is a multiple of 5, whose details
    are the map of the method m, the call count n and the suggestion,
    and no retry_loop insight otherwise; for a Message with an empty
    method it emits none. The Messages are those the proxy makes: one
    that carries a method is a request. *)
Theorem C5_retry_loop (cfg : Analyzer.Config) (msgs : list Message.t) (s : Sys)
    (k : nat) (msg : Message.t) :
  Forall method_on_request msgs ->
  Z.of_nat (length msgs) < 2 ^ 63 ->
  msgs !! k = Some msg ->
  let n := occurrences (Message.Method msg) (take (S k) msgs) in
  exists insights,
    snd (fst (AnalyzeAll (New cfg) msgs s)) !! k = Some insights
    /\ 1 <= n
    /\ (Message.Method msg <> EmptyString -> Z.rem n 5 = 0 ->
        exists i,
          List.filter (is_category "retry_loop") insights = [i]
          /\ Insight.Category i = "retry_loop"
          /\ Insight.Type_ i = "warning"
          /\ Insight.MessageID i = Message.ID msg
          /\ Insight.Details i =
             formatDetails (list_to_map
               [("method", DStr (Message.Method msg));
                ("call_count", DInt n);
                ("suggestion",
                 DStr "Check for proper error handling and backoff logic")]))
    /\ (Message.Method msg = EmptyString \/ Z.rem n 5 <> 0 ->
        List.filter (is_category "retry_loop") insights = []).
Proof.
  intros Hshape Hlen Hk n.
  destruct (AnalyzeAll_retry msgs (New cfg) s k msg 0 Hshape) as (insights & Hi & Hout).
  - intros m. unfold New, count_of. simpl. rewrite lookup_empty. simpl. lia.
  - lia.
  - exact Hk.
  - exists insights. split; [exact Hi |].
    assert (Hzero : count_of (Analyzer.methodCounts (New cfg)) (Message.Method msg) = 0).
    { unfold New, count_of. simpl. rewrite lookup_empty. reflexivity. }
    rewrite Hzero, Z.add_0_l in Hout. fold n in Hout.
    split.
    { subst n. rewrite (take_S_r msgs k msg Hk).
      unfold occurrences. rewrite List.filter_app, length_app. simpl.
      unfold carries at 2. rewrite String.eqb_refl. simpl. lia. }
    unfold retry_outcome in Hout. cbv zeta in Hout.
    split.
    + intros Hmeth Hrem.
      apply String.eqb_neq in Hmeth. rewrite Hmeth in Hout.
      apply Z.eqb_eq in Hrem. rewrite Hrem in Hout. exact Hout.
    + intros [Hempty | Hrem].
      * rewrite Hempty in Hout. exact Hout.
      * apply Z.eqb_neq in Hrem. rewrite Hrem, andb_false_r in Hout. exact Hout.
Qed.

End RetryLoop.

(** C5 at a trace whose seventh Message is the fifth call of
    tasks/create. *)
Lemma C5_retry_loop_witness :
  exists insights i,
    snd (fst (@AnalyzeAll sample_lib (New default_config) five_calls sample_sys))
      !! 6%nat = Some insights
    /\ List.filter (is_category "retry_loop") insights = [i]
    /\ Insight.Details i =
       @formatDetails sample_lib (list_to_map
         [("method", DStr "tasks/create");
          ("call_count", DInt 5);
          ("suggestion", DStr "Check for proper error handling and backoff logic")]).
Proof.
  assert (Hshape : Forall method_on_request five_calls).
  { unfold five_calls, method_on_request.
    repeat (constructor; [simpl; intros H; first [reflexivity | contradiction] |]).
    constructor. }
  assert (Hlen : Z.of_nat (length five_calls) < 2 ^ 63) by (vm_compute; reflexivity).
  destruct (@C5_retry_loop sample_lib default_config five_calls sample_sys 6
              (call_of "tasks/create") Hshape Hlen eq_refl)
    as (insights & Hi & _ & Hyes & _).
  destruct Hyes as (i & Hf & _ & _ & _ & Hd).
  - vm_compute. discriminate.
  - vm_compute. reflexivity.
  - exists insights, i. split; [exact Hi |]. split; [exact Hf | exact Hd].
Defined.

(** ** The proxy *)

Section ProxyFacts.
Context {lib : GoLib}.

Lemma set_ID_same (msg : Message.t) : Message.set_ID (Message.ID msg) msg = msg.
Proof. destruct msg; reflexivity. Qed.

(** A message without identifier gets the next one and a row, when the
    identifier is new to the table. *)
Lemma SaveMessage_new (msg : Message.t) (s : Sys) :
  Message.ID msg = EmptyString ->
  has_message_id (uuid_source s (uuid_calls s)) (Store.messages (db s)) = false ->
  SaveMessage msg s
  = ((Message.set_ID (uuid_source s (uuid_calls s)) msg, true),
     advance 1 0 [Message.set_ID (uuid_source s (uuid_calls s)) msg] [] s).
Proof.
  intros Hid Hnew. unfold SaveMessage, bind. rewrite Hid. simpl String.eqb.
  unfold uuid_New, get_db, put_db, ret. cbn -[has_message_id].
  rewrite Hnew. unfold advance. rewrite app_nil_r. reflexivity.
Qed.

Lemma ParseRequest_run (r : http.Request) (body traceID : string) (s : Sys) :
  snd (ParseRequest r body traceID s) = advance 0 1 [] [] s
  /\ Message.ID (fst (ParseRequest r body traceID s)) = EmptyString
  /\ Message.Direction (fst (ParseRequest r body traceID s)) = "request"
  /\ Message.TraceID (fst (ParseRequest r body traceID s)) = traceID
  /\ Message.RequestID (fst (ParseRequest r body traceID s)) = request_correlation body.
Proof.
  unfold ParseRequest, request_correlation, bind, time_Now, ret, advance.
  cbn [fst snd]. rewrite !app_nil_r.
  split. { destruct s as [? ? ? ? [? ? ?] ? ? ?]. reflexivity. }
  destruct (json_Unmarshal_A2ARequest body) as [q |]; [| repeat split].
  destruct (A2ARequest.ID q); repeat split.
Qed.

Lemma has_message_id_app (id : string) (rows rows' : list Message.t) :
  has_message_id id (rows ++ rows') = has_message_id id rows || has_message_id id rows'.
Proof. unfold has_message_id. apply existsb_app. Qed.

Lemma advance_advance n k saved sent n' k' saved' sent' s :
  advance n k saved sent (advance n' k' saved' sent' s)
  = advance (n + n') (k + k') (saved' ++ saved) (sent' ++ sent) s.
Proof.
  unfold advance. cbn. rewrite !app_assoc, !Nat.add_assoc. reflexivity.
Qed.

Lemma time_Now_run (s : Sys) :
  time_Now s = (clock s (clock_calls s), advance 0 1 [] [] s).
Proof.
  unfold time_Now, advance. rewrite !app_nil_r.
  destruct s as [? ? ? ? [? ? ?] ? ? ?]. reflexivity.
Qed.

Lemma time_Since_run (t : Z) (s : Sys) :
  time_Since t s = (time_Sub (clock s (clock_calls s)) t, advance 0 1 [] [] s).
Proof.
  unfold time_Since, bind. rewrite time_Now_run. reflexivity.
Qed.

Lemma notify_message_run (set : bool) (msg : Message.t) (s : Sys) :
  notify_message set msg s = (tt, advance 0 0 [] (if set then [msg] else []) s).
Proof.
  unfold notify_message, advance. rewrite !app_nil_r.
  destruct s as [? ? ? ? [? ? ?] ? ? ?]. destruct set; cbn; rewrite ?app_nil_r; reflexivity.
Qed.

(** The request branch of [handleProxy], for a request that is captured. *)
Lemma capture_request_run (p : Proxy.t) (r : http.Request) (body : string) (s : Sys) :
  IsA2ARequest r || (0 <? String.length body)%nat = true ->
  has_message_id (uuid_source s (uuid_calls s)) (Store.messages (db s)) = false ->
  let reqMsg := Message.set_ID (uuid_source s (uuid_calls s))
                  (fst (ParseRequest r body (Proxy.traceID p) s)) in
  capture_request p r body s
  = (Some reqMsg,
     advance 1 1 [reqMsg] (if Proxy.onMessage p then [reqMsg] else []) s).
Proof.
  intros Hcap Hnew reqMsg. unfold capture_request. rewrite Hcap. unfold bind.
  destruct (ParseRequest_run r body (Proxy.traceID p) s) as (Hs & Hid & _).
  subst reqMsg.
  destruct (ParseRequest r body (Proxy.traceID p) s) as [m s1].
  cbn [fst snd] in *. subst s1.
  rewrite (SaveMessage_new m _ Hid)
    by (cbn; rewrite app_nil_r; exact Hnew).
  cbn [fst snd uuid_source uuid_calls advance Nat.add].
  rewrite notify_message_run. unfold ret.
  rewrite !advance_advance. cbn [Nat.add app]. reflexivity.
Qed.

(** The failure branch, for a request that was captured. *)
Lemma capture_failure_run (p : Proxy.t) (targetURL : string) (startTime : Z)
    (err : url.Error) (reqMsg : Message.t) (s : Sys) :
  has_message_id (uuid_source s (uuid_calls s)) (Store.messages (db s)) = false ->
  let errMsg :=
    Message.mk (uuid_source s (uuid_calls s)) (Proxy.traceID p)
      (clock s (clock_calls s)) "response" EmptyString EmptyString EmptyString
      targetURL EmptyString EmptyString
      (Milliseconds (time_Sub (clock s (S (clock_calls s))) startTime)) 0
      (url_Error_Error err) (Message.ID reqMsg) EmptyString 0 in
  capture_failure p targetURL startTime err (Some reqMsg) s
  = (tt, advance 1 2 [errMsg] (if Proxy.onMessage p then [errMsg] else []) s).
Proof.
  intros Hnew errMsg. unfold capture_failure, bind.
  rewrite time_Now_run, time_Since_run.
  cbn [fst snd clock clock_calls advance Nat.add].
  rewrite SaveMessage_new;
    [| reflexivity | cbn; rewrite !app_nil_r; exact Hnew].
  cbn [fst snd uuid_source uuid_calls advance Nat.add Message.set_ID
       Message.TraceID Message.Timestamp Message.Direction Message.FromAgent
       Message.ToAgent Message.Method Message.URL Message.Headers Message.Body
       Message.DurationMs Message.StatusCode Message.Error Message.RequestID
       Message.ContentType Message.Size].
  fold errMsg.
  rewrite notify_message_run, !advance_advance. cbn [Nat.add app]. reflexivity.
Qed.

Lemma url_Error_Error_nonempty (err : url.Error) : url_Error_Error err <> EmptyString.
Proof.
  unfold url_Error_Error. destruct (url.Op err); discriminate.
Qed.

End ProxyFacts.

Section Traversal.
Context {lib : GoLib}.

(** One traversal whose upstream call fails, for a captured request: the
    reply is a 502 and two messages were saved and sent, the request and
    the synthetic response. *)
Lemma handleProxy_failure (p : Proxy.t) (x : Inbound) (s : Sys)
    (body : string) (err : url.Error) :
  http.Method (request x) <> "CONNECT" ->
  reqBody x = Some body ->
  IsA2ARequest (request x) || (0 <? String.length body)%nat = true ->
  newRequestErr x = None ->
  upstream x = DoError err ->
  let id0 := uuid_source s (uuid_calls s) in
  let id1 := uuid_source s (S (uuid_calls s)) in
  has_message_id id0 (Store.messages (db s)) = false ->
  has_message_id id1 (Store.messages (db s)) = false ->
  id0 <> id1 ->
  let reqMsg :=
    Message.set_ID id0 (fst (ParseRequest (request x) body (Proxy.traceID p) s)) in
  let errMsg :=
    Message.mk id1 (Proxy.traceID p) (clock s (2 + clock_calls s)) "response"
      EmptyString EmptyString EmptyString (target_url (request x)) EmptyString
      EmptyString
      (Milliseconds (time_Sub (clock s (3 + clock_calls s)) (clock s (1 + clock_calls s))))
      0 (url_Error_Error err) id0 EmptyString 0 in
  handleProxy p x s
  = (http_Error ("Proxy error: " +:+ url_Error_Error err) 502,
     advance 2 4 [reqMsg; errMsg]
       (if Proxy.onMessage p then [reqMsg; errMsg] else []) s).
Proof.
  intros Hmethod Hbody Hcap Hnew Hup id0 id1 Hid0 Hid1 Hne reqMsg errMsg.
  unfold handleProxy. apply String.eqb_neq in Hmethod. rewrite Hmethod, Hbody.
  unfold bind. rewrite (capture_request_run p _ body s Hcap Hid0).
  fold id0. fold reqMsg.
  rewrite time_Now_run, Hnew, Hup.
  cbn [clock clock_calls advance Nat.add].
  rewrite capture_failure_run.
  - cbn [clock clock_calls uuid_source uuid_calls advance Nat.add].
    unfold ret. rewrite !advance_advance. cbn [Nat.add app].
    replace (Message.ID reqMsg) with id0 by (subst reqMsg; reflexivity).
    fold id1. fold errMsg.
    destruct (Proxy.onMessage p); reflexivity.
  - cbn [uuid_source uuid_calls advance db Store.messages Store.set_messages Nat.add].
    fold id1. rewrite !has_message_id_app, Hid1. cbn.
    destruct (String.eqb_spec id0 id1); [contradiction | reflexivity].
Qed.

(** A traversal whose upstream answers relays the status, the headers and
    the body of the answer, whatever was captured. *)
Lemma handleProxy_relays (p : Proxy.t) (x : Inbound) (s : Sys)
    (body respBody : string) (resp : http.Response) :
  http.Method (request x) <> "CONNECT" ->
  reqBody x = Some body ->
  newRequestErr x = None ->
  upstream x = DoResponse resp (Some respBody) ->
  fst (handleProxy p x s)
  = Written (http.StatusCode resp) (http.RespHeader resp) respBody.
Proof.
  intros Hmethod Hbody Hnew Hup.
  unfold handleProxy. apply String.eqb_neq in Hmethod. rewrite Hmethod, Hbody.
  unfold bind.
  destruct (capture_request p (request x) body s) as [reqMsg s1].
  destruct (time_Now s1) as [startTime s2]. rewrite Hnew, Hup.
  destruct (time_Since startTime s2) as [duration s3].
  destruct (capture_response _ _ _ _ _ _ _ s3) as [u s4].
  reflexivity.
Qed.

(** C4: when the upstream call fails for a request that was captured,
    the proxy saves and sends, after the request Message, a response
    Message whose status is zero, whose error text is the non-empty text
    of the transport error, whose duration is the time from the clock
    reading taken just before the upstream call to the one taken when it
    failed, and whose correlation id is the identifier of the request
    Message; the caller gets a 502; and the proxy goes on serving: a
    following request that upstream answers is relayed. *)
Theorem C4_transport_failure (p : Proxy.t) (x : Inbound) (s : Sys)
    (body : string) (err : url.Error) :
  http.Method (request x) <> "CONNECT" ->
  reqBody x = Some body ->
  IsA2ARequest (request x) || (0 <? String.length body)%nat = true ->
  newRequestErr x = None ->
  upstream x = DoError err ->
  Proxy.onMessage p = true ->
  has_message_id (uuid_source s (uuid_calls s)) (Store.messages (db s)) = false ->
  has_message_id (uuid_source s (S (uuid_calls s))) (Store.messages (db s)) = false ->
  uuid_source s (uuid_calls s) <> uuid_source s (S (uuid_calls s)) ->
  let result := handleProxy p x s in
  exists reqMsg errMsg,
    (exists header text, fst result = Written 502 header text)
    /\ Store.messages (db (snd result)) = Store.messages (db s) ++ [reqMsg; errMsg]
    /\ published (snd result) = published s ++ [reqMsg; errMsg]
    /\ Message.Direction reqMsg = "request"
    /\ Message.Direction errMsg = "response"
    /\ Message.TraceID errMsg = Proxy.traceID p
    /\ Message.StatusCode errMsg = 0
    /\ Message.Error errMsg = url_Error_Error err
    /\ Message.Error errMsg <> EmptyString
    /\ Message.DurationMs errMsg
       = Milliseconds (time_Sub (clock s (3 + clock_calls s)) (clock s (1 + clock_calls s)))
    /\ Message.RequestID errMsg = Message.ID reqMsg
    /\ (forall x' body' resp respBody,
          http.Method (request x') <> "CONNECT" ->
          reqBody x' = Some body' ->
          newRequestErr x' = None ->
          upstream x' = DoResponse resp (Some respBody) ->
          fst (serve p [x; x'] s)
          = [fst result; Written (http.StatusCode resp) (http.RespHeader resp) respBody]).
Proof.
  intros Hmethod Hbody Hcap Hnew Hup Hon Hid0 Hid1 Hne result.
  pose proof (handleProxy_failure p x s body err Hmethod Hbody Hcap Hnew Hup
                Hid0 Hid1 Hne) as Hrun.
  cbv zeta in Hrun. rewrite Hon in Hrun.
  subst result. rewrite Hrun. cbn [fst snd].
  eexists. eexists.
  split. { unfold http_Error. eexists. eexists. reflexivity. }
  split. { reflexivity. }
  split. { reflexivity. }
  split. { apply (ParseRequest_run (request x) body (Proxy.traceID p) s). }
  split. { reflexivity. }
  split. { reflexivity. }
  split. { reflexivity. }
  split. { reflexivity. }
  split. { apply url_Error_Error_nonempty. }
  split. { reflexivity. }
  split. { reflexivity. }
  intros x' body' resp respBody Hm' Hb' Hn' Hu'.
  cbn [serve]. unfold bind. rewrite Hrun.
  match goal with
  | |- context [handleProxy p x' ?st] =>
      pose proof (handleProxy_relays p x' st body' respBody resp Hm' Hb' Hn' Hu')
        as Hrelay
  end.
  destruct (handleProxy p x' _) as [reply s'].
  cbn [fst] in Hrelay. subst reply. reflexivity.
Qed.

End Traversal.

(** C4 at the sample call with an upstream that refuses the connection. *)
Lemma C4_transport_failure_witness :
  exists reqMsg errMsg,
    Store.messages (db (snd (@handleProxy sample_lib sample_proxy call_refused sample_sys)))
      = [reqMsg; errMsg]
    /\ Message.StatusCode errMsg = 0
    /\ Message.Error errMsg <> EmptyString
    /\ Message.DurationMs errMsg = 14
    /\ Message.RequestID errMsg = Message.ID reqMsg.
Proof.
  destruct (@C4_transport_failure sample_lib sample_proxy call_refused sample_sys
              sample_call refused)
    as (reqMsg & errMsg & _ & Hdb & _ & _ & _ & _ & Hst & _ & Herr & Hdur & Hid & _).
  - vm_compute. discriminate.
  - reflexivity.
  - vm_compute. reflexivity.
  - reflexivity.
  - reflexivity.
  - reflexivity.
  - vm_compute. reflexivity.
  - vm_compute. reflexivity.
  - vm_compute. discriminate.
  - exists reqMsg, errMsg.
    split; [exact Hdb |]. split; [exact Hst |]. split; [exact Herr |].
    split; [rewrite Hdur; vm_compute; reflexivity | exact Hid].
Defined.

(** ** Correlation *)

Section Correlation.
Context {lib : GoLib}.

(** Every step of a traversal leaves the rows of the messages table in
    place and may add rows after them. *)
Lemma SaveMessage_messages (msg : Message.t) (s : Sys) :
  exists rows,
    Store.messages (db (snd (SaveMessage msg s))) = Store.messages (db s) ++ rows.
Proof.
  unfold SaveMessage, bind.
  destruct (String.eqb (Message.ID msg) EmptyString);
    unfold uuid_New, get_db, put_db, ret; cbn [fst snd db];
    destruct (has_message_id _ _); cbn [fst snd db Store.messages Store.set_messages];
    eauto using app_nil_r.
Qed.

Lemma SaveAgent_messages (agent : Agent.t) (s : Sys) :
  Store.messages (db (snd (SaveAgent agent s))) = Store.messages (db s).
Proof.
  unfold SaveAgent, bind.
  destruct (String.eqb (Agent.ID agent) EmptyString);
    unfold uuid_New, get_db, put_db, ret; cbn [fst snd db];
    destruct (has_agent_id _ _); cbn [fst snd db]; try reflexivity;
    destruct (has_agent_url _ _); reflexivity.
Qed.

Lemma capture_response_messages p r targetURL resp respBody duration reqMsg s :
  exists rows,
    Store.messages
      (db (snd (capture_response p r targetURL resp respBody duration reqMsg s)))
    = Store.messages (db s) ++ rows.
Proof.
  unfold capture_response.
  destruct reqMsg as [reqMsg |]; [| exists []; rewrite app_nil_r; reflexivity].
  unfold bind.
  destruct (ParseResponse resp respBody reqMsg duration s) as [respMsg s1] eqn:E1.
  assert (H1 : db s1 = db s).
  { unfold ParseResponse, bind, time_Now, ret in E1. injection E1 as _ <-. reflexivity. }
  destruct (SaveMessage_messages respMsg s1) as [rows Hrows].
  destruct (SaveMessage respMsg s1) as [saved s2]. cbn [snd] in Hrows.
  rewrite H1 in Hrows.
  unfold notify_message at 1. cbn [fst snd].
  match goal with
  | |- context [(if _ then _ else _) ?st] =>
      set (s3 := st); assert (H3 : db s3 = db s2) by reflexivity
  end.
  rewrite <- H3 in Hrows. clearbody s3.
  exists rows. rewrite <- Hrows.
  destruct (GoStrings.Contains _ _); [| reflexivity].
  unfold ParseAgentCard.
  destruct (json_Unmarshal_AgentCard respBody) as [card |]; [| reflexivity].
  unfold bind, time_Now, ret.
  match goal with
  | |- context [SaveAgent ?a ?st] =>
      pose proof (SaveAgent_messages a st) as Hagent;
      destruct (SaveAgent a st) as [saved' s4]
  end.
  cbn [snd db] in Hagent. unfold notify_agent. cbn [snd db]. exact Hagent.
Qed.

Lemma capture_failure_messages p targetURL startTime err reqMsg s :
  exists rows,
    Store.messages (db (snd (capture_failure p targetURL startTime err reqMsg s)))
    = Store.messages (db s) ++ rows.
Proof.
  unfold capture_failure.
  destruct reqMsg as [reqMsg |]; [| exists []; rewrite app_nil_r; reflexivity].
  unfold bind, time_Since, bind, time_Now, ret.
  match goal with
  | |- context [SaveMessage ?m ?st] =>
      destruct (SaveMessage_messages m st) as [rows Hrows];
      destruct (SaveMessage m st) as [saved s2]
  end.
  cbn [snd db] in Hrows. exists rows. unfold notify_message. exact Hrows.
Qed.

(** A captured request is the first row a traversal adds. *)
Lemma handleProxy_request_first (p : Proxy.t) (x : Inbound) (s : Sys) (body : string) :
  http.Method (request x) <> "CONNECT" ->
  reqBody x = Some body ->
  IsA2ARequest (request x) || (0 <? String.length body)%nat = true ->
  has_message_id (uuid_source s (uuid_calls s)) (Store.messages (db s)) = false ->
  exists rest,
    Store.messages (db (snd (handleProxy p x s)))
    = Store.messages (db s)
      ++ Message.set_ID (uuid_source s (uuid_calls s))
           (fst (ParseRequest (request x) body (Proxy.traceID p) s)) :: rest.
Proof.
  intros Hmethod Hbody Hcap Hid0.
  unfold handleProxy. apply String.eqb_neq in Hmethod. rewrite Hmethod, Hbody.
  unfold bind. rewrite (capture_request_run p _ body s Hcap Hid0).
  rewrite time_Now_run.
  set (reqMsg := Message.set_ID _ _).
  destruct (newRequestErr x).
  { exists []. unfold ret. cbn [snd]. rewrite ?advance_advance.
    cbn [advance db Store.messages Store.set_messages app]. reflexivity. }
  destruct (upstream x) as [err | resp [respBody |]].
  - match goal with
    | |- context [capture_failure ?a ?b ?c ?d ?e ?st] =>
        destruct (capture_failure_messages a b c d e st) as [rows Hrows];
        destruct (capture_failure a b c d e st) as [u s2]
    end.
    unfold ret. cbn [snd] in Hrows |- *. rewrite Hrows, ?advance_advance.
    cbn [advance db Store.messages Store.set_messages app]. rewrite <- !app_assoc.
    exists rows. reflexivity.
  - rewrite time_Since_run.
    match goal with
    | |- context [capture_response ?a ?b ?c ?d ?e ?f ?g ?st] =>
        destruct (capture_response_messages a b c d e f g st) as [rows Hrows];
        destruct (capture_response a b c d e f g st) as [u s2]
    end.
    unfold ret. cbn [snd] in Hrows |- *. rewrite Hrows, ?advance_advance.
    cbn [advance db Store.messages Store.set_messages app]. rewrite <- !app_assoc.
    exists rows. reflexivity.
  - rewrite time_Since_run. exists []. unfold ret. cbn [snd]. rewrite ?advance_advance.
    cbn [advance db Store.messages Store.set_messages app]. reflexivity.
Qed.

(** On the successful path the response takes the correlation identifier
    of the request Message, not its identifier. *)
Lemma ParseResponse_RequestID resp body requestMsg duration s :
  Message.RequestID (fst (ParseResponse resp body requestMsg duration s))
  = Message.RequestID requestMsg.
Proof.
  unfold ParseResponse, bind, time_Now, ret. cbn [fst].
  destruct (400 <=? http.StatusCode resp);
    destruct (json_Unmarshal_A2AResponse body) as [a2aResp |]; try reflexivity;
    destruct (A2AResponse.Error a2aResp); reflexivity.
Qed.

(** C1, amended: the response Message the proxy saves when the upstream
    call of a captured request fails carries, as correlation identifier,
    the identifier of the request Message it answers; the correlation
    identifier of a captured request Message is the JSON-RPC id of its
    body as formatRequestID renders it, and empty when the body has none. *)
Theorem C1_correlation (p : Proxy.t) (x : Inbound) (s : Sys) (body : string) :
  http.Method (request x) <> "CONNECT" ->
  reqBody x = Some body ->
  IsA2ARequest (request x) || (0 <? String.length body)%nat = true ->
  has_message_id (uuid_source s (uuid_calls s)) (Store.messages (db s)) = false ->
  exists reqMsg rest,
    Store.messages (db (snd (handleProxy p x s)))
      = Store.messages (db s) ++ reqMsg :: rest
    /\ Message.Direction reqMsg = "request"
    /\ Message.ID reqMsg = uuid_source s (uuid_calls s)
    /\ Message.RequestID reqMsg = request_correlation body
    /\ (forall err,
          newRequestErr x = None ->
          upstream x = DoError err ->
          has_message_id (uuid_source s (S (uuid_calls s))) (Store.messages (db s))
            = false ->
          uuid_source s (uuid_calls s) <> uuid_source s (S (uuid_calls s)) ->
          exists errMsg,
            rest = [errMsg]
            /\ Message.Direction errMsg = "response"
            /\ Message.RequestID errMsg = Message.ID reqMsg).
Proof.
  intros Hmethod Hbody Hcap Hid0.
  destruct (handleProxy_request_first p x s body Hmethod Hbody Hcap Hid0)
    as [rest Hrest].
  destruct (ParseRequest_run (request x) body (Proxy.traceID p) s)
    as (_ & _ & Hdir & _ & Hcorr).
  eexists. exists rest.
  split; [exact Hrest |].
  split; [exact Hdir |]. split; [reflexivity |]. split; [exact Hcorr |].
  intros err Hnew Hup Hid1 Hne.
  pose proof (handleProxy_failure p x s body err Hmethod Hbody Hcap Hnew Hup
                Hid0 Hid1 Hne) as Hrun.
  cbv zeta in Hrun. rewrite Hrun in Hrest.
  cbn [snd db advance Store.messages Store.set_messages] in Hrest.
  apply app_inv_head in Hrest. injection Hrest as <-.
  eexists. split; [reflexivity |]. split; reflexivity.
Qed.

End Correlation.

(** C1, as stated, fails: for the sample JSON-RPC call that upstream
    answers with status 200, the proxy saves a request Message and a
    response Message; the correlation identifier of both is the JSON-RPC
    id req-1 of the call, which is not the identifier uuid-0 of the
    request Message. *)
Lemma C1_counterexample :
  exists reqMsg respMsg,
    Store.messages (db (snd (@handleProxy sample_lib sample_proxy call_answered sample_sys)))
      = [reqMsg; respMsg]
    /\ Message.Direction reqMsg = "request"
    /\ Message.Direction respMsg = "response"
    /\ Message.ID reqMsg = "uuid-0"
    /\ Message.RequestID reqMsg = "req-1"
    /\ Message.RequestID respMsg = "req-1"
    /\ Message.RequestID reqMsg <> Message.ID reqMsg
    /\ Message.RequestID respMsg <> Message.ID reqMsg.
Proof.
  eexists. eexists.
  split; [vm_compute; reflexivity |].
  repeat (split; [reflexivity |]).
  split; discriminate.
Qed.

(** C1 at the sample call with an upstream that refuses the connection. *)
Lemma C1_correlation_witness :
  exists reqMsg errMsg,
    Store.messages (db (snd (@handleProxy sample_lib sample_proxy call_refused sample_sys)))
      = [reqMsg; errMsg]
    /\ Message.RequestID reqMsg = "req-1"
    /\ Message.RequestID errMsg = Message.ID reqMsg.
Proof.
  destruct (@C1_correlation sample_lib sample_proxy call_refused sample_sys sample_call)
    as (reqMsg & rest & Hdb & _ & _ & Hcorr & Hfail).
  - vm_compute. discriminate.
  - reflexivity.
  - vm_compute. reflexivity.
  - vm_compute. reflexivity.
  - destruct (Hfail refused) as (errMsg & -> & _ & Hid).
    + reflexivity.
    + reflexivity.
    + vm_compute. reflexivity.
    + vm_compute. discriminate.
    + exists reqMsg, errMsg. split; [exact Hdb |].
      split; [rewrite Hcorr; vm_compute; reflexivity | exact Hid].
Defined.

(** ** The Messages the proxy hands to the analyzer

    Only a request Message carries a method: this is the shape of trace
    the retry-loop property above assumes. *)

Section ProxyOutput.
Context {lib : GoLib}.

Lemma sends_ret {A} (P : A -> Prop) (a : A) : P a -> sends_with P (ret a).
Proof.
  intros HP s. exists []. rewrite app_nil_r. repeat split; [constructor | exact HP].
Qed.

Lemma sends_bind {A B} (P : A -> Prop) (Q : B -> Prop) (c : M A) (k : A -> M B) :
  sends_with P c ->
  (forall a, P a -> sends_with Q (k a)) ->
  sends_with Q (bind c k).
Proof.
  intros Hc Hk s. unfold bind.
  destruct (Hc s) as (sent1 & H1 & F1 & HP).
  destruct (c s) as [a s1]. cbn [fst snd] in *.
  destruct (Hk a HP s1) as (sent2 & H2 & F2 & HQ).
  exists (sent1 ++ sent2). rewrite H2, H1, app_assoc.
  repeat split; [apply Forall_app; split; assumption | exact HQ].
Qed.

Lemma sends_weaken {A} (P Q : A -> Prop) (c : M A) :
  sends_with P c -> (forall a, P a -> Q a) -> sends_with Q c.
Proof.
  intros Hc HPQ s. destruct (Hc s) as (sent & H1 & F1 & HP).
  exists sent. repeat split; auto.
Qed.

Lemma sends_time_Now : sends_with (fun _ => True) time_Now.
Proof.
  intros s. exists []. rewrite app_nil_r. repeat split. constructor.
Qed.

Lemma sends_time_Since t : sends_with (fun _ => True) (time_Since t).
Proof.
  unfold time_Since. eapply sends_bind; [apply sends_time_Now |].
  intros now _. apply sends_ret. exact I.
Qed.

Lemma sends_notify_message (set : bool) (msg : Message.t) :
  method_on_request msg -> sends_with (fun _ => True) (notify_message set msg).
Proof.
  intros Hmsg s. exists (if set then [msg] else []).
  destruct set; cbn; rewrite ?app_nil_r; repeat split; repeat constructor; exact Hmsg.
Qed.

Lemma sends_notify_agent (set : bool) (a : Agent.t) :
  sends_with (fun _ => True) (notify_agent set a).
Proof.
  intros s. exists []. rewrite app_nil_r. repeat split. constructor.
Qed.

Lemma sends_SaveMessage (msg : Message.t) :
  method_on_request msg ->
  sends_with (fun saved => method_on_request (fst saved)) (SaveMessage msg).
Proof.
  intros Hmsg s. exists []. rewrite app_nil_r.
  unfold SaveMessage, bind, uuid_New, get_db, put_db, ret.
  destruct (String.eqb (Message.ID msg) EmptyString); cbn [fst snd db];
    destruct (has_message_id _ _); cbn [fst snd published];
    (repeat split; [constructor | exact Hmsg]).
Qed.

Lemma sends_SaveAgent (agent : Agent.t) :
  sends_with (fun _ => True) (SaveAgent agent).
Proof.
  intros s. exists []. rewrite app_nil_r.
  unfold SaveAgent, bind, uuid_New, get_db, put_db, ret.
  destruct (String.eqb (Agent.ID agent) EmptyString); cbn [fst snd db];
    destruct (has_agent_id _ _); cbn [fst snd published];
    try (repeat split; constructor);
    destruct (has_agent_url _ _); cbn [fst snd published]; repeat split; constructor.
Qed.

Lemma sends_ParseRequest r body traceID :
  sends_with method_on_request (ParseRequest r body traceID).
Proof.
  intros s. exists [].
  destruct (ParseRequest_run r body traceID s) as (Hs & _ & Hdir & _).
  rewrite Hs. cbn [advance published]. repeat split; [constructor |].
  intros _. exact Hdir.
Qed.

(** [ParseResponse] sets no method. *)
Lemma ParseResponse_Method resp body requestMsg duration s :
  Message.Method (fst (ParseResponse resp body requestMsg duration s)) = EmptyString.
Proof.
  unfold ParseResponse, bind, time_Now, ret. cbn [fst].
  destruct (400 <=? http.StatusCode resp);
    destruct (json_Unmarshal_A2AResponse body) as [a2aResp |]; try reflexivity;
    destruct (A2AResponse.Error a2aResp); reflexivity.
Qed.

Lemma sends_ParseResponse resp body requestMsg duration :
  sends_with method_on_request (ParseResponse resp body requestMsg duration).
Proof.
  intros s. exists []. rewrite app_nil_r.
  pose proof (ParseResponse_Method resp body requestMsg duration s) as Hm.
  repeat split; [constructor |].
  intros Hne. contradiction.
Qed.

Lemma sends_ParseAgentCard body url :
  sends_with (fun _ => True) (ParseAgentCard body url).
Proof.
  unfold ParseAgentCard. destruct (json_Unmarshal_AgentCard body).
  - eapply sends_bind; [apply sends_time_Now |].
    intros now _. apply sends_ret. exact I.
  - apply sends_ret. exact I.
Qed.

Lemma sends_capture_request p r body :
  sends_with (fun _ => True) (capture_request p r body).
Proof.
  unfold capture_request. destruct (_ || _); [| apply sends_ret; exact I].
  eapply sends_bind; [apply sends_ParseRequest |]. intros reqMsg Hreq.
  eapply sends_bind; [apply sends_SaveMessage; exact Hreq |]. intros saved Hsaved.
  eapply sends_bind; [apply sends_notify_message; exact Hsaved |]. intros _ _.
  apply sends_ret. exact I.
Qed.

Lemma sends_capture_failure p targetURL startTime err reqMsg :
  sends_with (fun _ => True) (capture_failure p targetURL startTime err reqMsg).
Proof.
  unfold capture_failure. destruct reqMsg as [reqMsg |]; [| apply sends_ret; exact I].
  eapply sends_bind; [apply sends_time_Now |]. intros now _.
  eapply sends_bind; [apply sends_time_Since |]. intros since _.
  eapply sends_bind.
  - apply sends_SaveMessage. intros Hne. contradiction.
  - intros saved Hsaved. apply sends_notify_message. exact Hsaved.
Qed.

Lemma sends_capture_response p r targetURL resp respBody duration reqMsg :
  sends_with (fun _ => True)
    (capture_response p r targetURL resp respBody duration reqMsg).
Proof.
  unfold capture_response. destruct reqMsg as [reqMsg |]; [| apply sends_ret; exact I].
  eapply sends_bind; [apply sends_ParseResponse |]. intros respMsg Hresp.
  eapply sends_bind; [apply sends_SaveMessage; exact Hresp |]. intros saved Hsaved.
  eapply sends_bind; [apply sends_notify_message; exact Hsaved |]. intros _ _.
  destruct (GoStrings.Contains _ _); [| apply sends_ret; exact I].
  eapply sends_bind; [apply sends_ParseAgentCard |]. intros agent _.
  destruct agent as [agent |]; [| apply sends_ret; exact I].
  eapply sends_bind; [apply sends_SaveAgent |]. intros saved' _.
  apply sends_notify_agent.
Qed.

(** Whatever a traversal hands to OnMessage, so to the analyzer, is a
    request or carries no method. *)
Theorem handleProxy_sends (p : Proxy.t) (x : Inbound) :
  sends_with (fun _ => True) (handleProxy p x).
Proof.
  unfold handleProxy.
  destruct (String.eqb _ "CONNECT"); [apply sends_ret; exact I |].
  destruct (reqBody x) as [body |]; [| apply sends_ret; exact I].
  eapply sends_bind; [apply sends_capture_request |]. intros reqMsg _.
  eapply sends_bind; [apply sends_time_Now |]. intros startTime _.
  destruct (newRequestErr x); [apply sends_ret; exact I |].
  destruct (upstream x) as [err | resp respBody].
  - eapply sends_bind; [apply sends_capture_failure |]. intros _ _.
    apply sends_ret. exact I.
  - eapply sends_bind; [apply sends_time_Since |]. intros duration _.
    destruct respBody as [respBody |]; [| apply sends_ret; exact I].
    eapply sends_bind; [apply sends_capture_response |]. intros _ _.
    apply sends_ret. exact I.
Qed.

Corollary serve_sends (p : Proxy.t) (xs : list Inbound) (s : Sys) :
  Forall method_on_request (published s) ->
  Forall method_on_request (published (snd (serve p xs s))).
Proof.
  revert s. induction xs as [| x xs IH]; intros s Hs.
  - exact Hs.
  - cbn [serve]. unfold bind.
    destruct (handleProxy_sends p x s) as (sent & Hp & Hsent & _).
    destruct (handleProxy p x s) as [reply s1]. cbn [snd] in Hp.
    specialize (IH s1). rewrite Hp in IH.
    destruct (serve p xs s1) as [replies s2]. unfold ret. cbn [snd] in *.
    apply IH. apply Forall_app. split; assumption.
Qed.

End ProxyOutput.

(** * More properties of the code *)

(** ** The store *)

Lemma has_message_id_In (id : string) (rows : list Message.t) :
  has_message_id id rows = true <-> In id (map Message.ID rows).
Proof.
  unfold has_message_id. rewrite existsb_exists, in_map_iff.
  split; intros (r & H1 & H2); exists r.
  - apply String.eqb_eq in H2. auto.
  - split; [exact H2 | apply String.eqb_eq; exact H1].
Qed.

Lemma SaveMessage_outcome (msg : Message.t) (s : Sys) :
  let id := if String.eqb (Message.ID msg) EmptyString
            then uuid_source s (uuid_calls s) else Message.ID msg in
  fst (fst (SaveMessage msg s)) = Message.set_ID id msg
  /\ (snd (fst (SaveMessage msg s)) = true ->
      Store.messages (db (snd (SaveMessage msg s)))
      = Store.messages (db s) ++ [Message.set_ID id msg]).
Proof.
  unfold SaveMessage, bind.
  destruct (String.eqb (Message.ID msg) EmptyString) eqn:E;
    unfold uuid_New, get_db, put_db, ret; cbn [fst snd db Message.ID Message.set_ID].
  - destruct (has_message_id _ _); cbn [fst snd db Store.messages Store.set_messages];
      split; try reflexivity; discriminate.
  - rewrite set_ID_same.
    destruct (has_message_id _ _); cbn [fst snd db Store.messages Store.set_messages];
      split; try reflexivity; discriminate.
Qed.

(** X1: SaveMessage: the identifier of a message that has one is kept,
    one that has none gets the next identifier; the INSERT succeeds
    exactly when that identifier is not in the table, and then adds the
    message as the last row; when it fails the table is as before.
    Either way the rows that were there are unchanged and, if the
    identifiers of the table were distinct, they still are. *)
Theorem SaveMessage_table (msg : Message.t) (s : Sys) :
  let id := if String.eqb (Message.ID msg) EmptyString
            then uuid_source s (uuid_calls s) else Message.ID msg in
  let rows := Store.messages (db s) in
  let result := SaveMessage msg s in
  let rows' := Store.messages (db (snd result)) in
  fst (fst result) = Message.set_ID id msg
  /\ (snd (fst result) = true <-> ~ In id (map Message.ID rows))
  /\ (snd (fst result) = true -> rows' = rows ++ [Message.set_ID id msg])
  /\ (snd (fst result) = false -> rows' = rows)
  /\ (NoDup (map Message.ID rows) -> NoDup (map Message.ID rows'))
  /\ Store.agents (db (snd result)) = Store.agents (db s)
  /\ Store.insights (db (snd result)) = Store.insights (db s).
Proof.
  intros id rows result rows'.
  assert (Hres : result =
            if has_message_id id rows
            then ((Message.set_ID id msg, false),
                  mkSys (uuid_source s)
                    (if String.eqb (Message.ID msg) EmptyString
                     then S (uuid_calls s) else uuid_calls s)
                    (clock s) (clock_calls s) (db s) (published s)
                    (published_agents s) (published_insights s))
            else ((Message.set_ID id msg, true),
                  mkSys (uuid_source s)
                    (if String.eqb (Message.ID msg) EmptyString
                     then S (uuid_calls s) else uuid_calls s)
                    (clock s) (clock_calls s)
                    (Store.set_messages (rows ++ [Message.set_ID id msg]) (db s))
                    (published s) (published_agents s) (published_insights s))).
  { subst result id rows. unfold SaveMessage, bind.
    destruct (String.eqb (Message.ID msg) EmptyString) eqn:E;
      unfold uuid_New, get_db, put_db, ret; cbn [fst snd db Message.ID Message.set_ID].
    - destruct (has_message_id _ _); reflexivity.
    - rewrite set_ID_same.
      destruct (has_message_id _ _); destruct s; reflexivity. }
  subst rows'. rewrite Hres. clear Hres.
  pose proof (has_message_id_In id rows) as Hin.
  destruct (has_message_id id rows); cbn [fst snd db Store.messages Store.set_messages
                                          Store.agents Store.insights].
  - split; [reflexivity |]. split.
    { split; [discriminate | intros H; exfalso; apply H, Hin; reflexivity]. }
    split; [discriminate |]. split; [reflexivity |]. split; [auto |].
    split; reflexivity.
  - assert (Hnot : ~ In id (map Message.ID rows)).
    { intros H. apply Hin in H. discriminate. }
    split; [reflexivity |]. split; [tauto |].
    split; [reflexivity |]. split; [discriminate |]. split; [| split; reflexivity].
    intros Hnd. rewrite map_app. cbn [map].
    apply NoDup_app. split; [exact Hnd |]. split.
    + intros x Hx Hx'. apply list_elem_of_In in Hx.
      apply list_elem_of_singleton in Hx'.
      replace (Message.ID (Message.set_ID id msg)) with id in Hx'
        by (destruct msg; reflexivity).
      subst x. contradiction.
    + apply NoDup_singleton.
Qed.

(** *** Queries in order *)

Section Ordering.
Context {A : Type} (le : A -> A -> bool).
Hypothesis le_total : forall x y, le x y = false -> le y x = true.
Hypothesis le_trans : forall x y z, le x y = true -> le y z = true -> le x z = true.

Lemma insert_by_ordered (x : A) (l : list A) :
  ordered le l -> ordered le (insert_by le x l).
Proof.
  induction l as [| y l IH]; simpl; intros H.
  - split; [constructor | exact I].
  - destruct H as [Hy Hl]. destruct (le x y) eqn:E; simpl.
    + split; [| split; assumption].
      constructor; [exact E |].
      eapply Forall_impl; [exact Hy |]. intros z Hz. eapply le_trans; eassumption.
    + split; [| apply IH; exact Hl].
      rewrite insert_by_perm. constructor; [apply le_total; exact E | exact Hy].
Qed.

Lemma sort_by_ordered (l : list A) : ordered le (sort_by le l).
Proof.
  unfold sort_by. induction l as [| x l IH]; simpl.
  - exact I.
  - apply insert_by_ordered. exact IH.
Qed.

End Ordering.

Lemma sort_by_In {A} (le : A -> A -> bool) (l : list A) (x : A) :
  In x (sort_by le l) <-> In x l.
Proof.
  rewrite <- !list_elem_of_In. rewrite (sort_by_perm le l). reflexivity.
Qed.

(** The comparison of texts is a total preorder. *)
Lemma string_leb_flip (x y : string) : String.leb x y = false -> String.leb y x = true.
Proof.
  intros H. destruct (String.leb_total x y) as [E | E]; [congruence | exact E].
Qed.

Lemma ascii_compare_Lt_trans (a b c : ascii) :
  Ascii.compare a b = Lt -> Ascii.compare b c = Lt -> Ascii.compare a c = Lt.
Proof.
  unfold Ascii.compare. rewrite !N.compare_lt_iff. lia.
Qed.

Lemma ascii_compare_Eq (a b : ascii) : Ascii.compare a b = Eq -> a = b.
Proof.
  unfold Ascii.compare. intros H. apply N.compare_eq in H.
  rewrite <- (ascii_N_embedding a), <- (ascii_N_embedding b), H. reflexivity.
Qed.

Lemma string_leb_trans (x : string) : forall y z,
  String.leb x y = true -> String.leb y z = true -> String.leb x z = true.
Proof.
  unfold String.leb.
  induction x as [| a x IH]; intros [| b y] [| c z]; cbn [String.compare];
    try reflexivity; try discriminate.
  destruct (Ascii.compare a b) eqn:Eab; [| | discriminate].
  - apply ascii_compare_Eq in Eab. subst b.
    destruct (Ascii.compare a c) eqn:Eac; [apply IH | reflexivity | discriminate].
  - destruct (Ascii.compare b c) eqn:Ebc; [| | discriminate].
    + apply ascii_compare_Eq in Ebc. subst c. rewrite Eab. reflexivity.
    + rewrite (ascii_compare_Lt_trans a b c Eab Ebc). reflexivity.
Qed.

Lemma sort_by_text_ordered {A} (key : A -> string) (l : list A) :
  ordered (fun a b => String.leb (key a) (key b)) (sort_by (fun a b => String.leb (key a) (key b)) l).
Proof.
  apply sort_by_ordered.
  - intros x y. apply string_leb_flip.
  - intros x y z. apply string_leb_trans.
Qed.

(** Two comparisons that agree on the elements of a list order it
    alike. *)
Lemma ordered_agree {A} (le le' : A -> A -> bool) (l : list A) :
  (forall a b, In a l -> In b l -> le a b = le' a b) ->
  ordered le l -> ordered le' l.
Proof.
  induction l as [| x l IH]; intros Hagree H; [exact I |].
  destruct H as [Hx Hl]. split.
  - apply Forall_forall. intros y Hy. rewrite Forall_forall in Hx.
    apply list_elem_of_In in Hy.
    rewrite <- (Hagree x y (or_introl eq_refl) (or_intror Hy)).
    apply Hx. apply list_elem_of_In. exact Hy.
  - apply IH; [| exact Hl]. intros a b Ha Hb. apply Hagree; right; assumption.
Qed.

Lemma GetMessages_listing (traceID : string) (s : Sys) (m : Message.t) :
  In m (fst (GetMessages traceID s))
  <-> In m (Store.messages (db s)) /\ Message.TraceID m = traceID.
Proof.
  unfold GetMessages, bind, get_db, ret. cbn [fst].
  rewrite sort_by_In, filter_In, String.eqb_eq. reflexivity.
Qed.

(** X2: GetMessages returns the rows of the trace asked for, all of them
    and no other, and changes nothing; the rows come in the ascending
    order of the texts under which their timestamps are stored. They
    come from the earliest timestamp to the latest when those texts
    compare as the times do. *)
Theorem GetMessages_rows (traceID : string) (s : Sys) :
  let rows := fst (GetMessages traceID s) in
  let text m := Store.time_text (db s) (Message.Timestamp m) in
  snd (GetMessages traceID s) = s
  /\ Permutation rows
       (List.filter (in_trace traceID) (Store.messages (db s)))
  /\ (forall m, In m rows <->
                In m (Store.messages (db s)) /\ Message.TraceID m = traceID)
  /\ ordered (fun a b => String.leb (text a) (text b)) rows
  /\ (text_follows_time (Store.time_text (db s)) Message.Timestamp rows ->
      ordered (fun a b => Message.Timestamp a <=? Message.Timestamp b) rows).
Proof.
  intros rows text.
  assert (Hord : ordered (fun a b => String.leb (text a) (text b)) rows)
    by apply (sort_by_text_ordered text).
  split; [reflexivity |]. split; [apply sort_by_perm |]. split; [| split].
  - intros m. apply GetMessages_listing.
  - exact Hord.
  - intros Hagree. revert Hord. apply ordered_agree. exact Hagree.
Qed.

(** The rows of trace-1 in the sample store, whose texts are those of
    times in UTC: they come in the order of their times. *)
Lemma GetMessages_rows_witness :
  map Message.ID (fst (GetMessages "trace-1" sample_sys_store)) = ["m1"; "m4"; "m2"]
  /\ ordered (fun a b => Message.Timestamp a <=? Message.Timestamp b)
       (fst (GetMessages "trace-1" sample_sys_store)).
Proof.
  split; [vm_compute; reflexivity |].
  apply (proj2 (proj2 (proj2 (proj2 (GetMessages_rows "trace-1" sample_sys_store))))).
  intros a b Ha Hb. vm_compute in Ha, Hb.
  destruct Ha as [<- | [<- | [<- | []]]]; destruct Hb as [<- | [<- | [<- | []]]];
    vm_compute; reflexivity.
Defined.

(** X3: GetInsights returns the insights of the trace asked for, all of
    them and no other, and changes nothing; they come in the descending
    order of the texts under which their timestamps are stored. They
    come from the latest timestamp to the earliest when those texts
    compare as the times do. *)
Theorem GetInsights_rows (traceID : string) (s : Sys) :
  let rows := fst (GetInsights traceID s) in
  let text i := Store.time_text (db s) (Insight.Timestamp i) in
  snd (GetInsights traceID s) = s
  /\ (forall i, In i rows <->
                In i (Store.insights (db s)) /\ Insight.TraceID i = traceID)
  /\ length rows
     = length (List.filter (fun i => String.eqb (Insight.TraceID i) traceID)
                 (Store.insights (db s)))
  /\ ordered (fun a b => String.leb (text b) (text a)) rows
  /\ (text_follows_time (Store.time_text (db s)) Insight.Timestamp rows ->
      ordered (fun a b => Insight.Timestamp b <=? Insight.Timestamp a) rows).
Proof.
  intros rows text.
  assert (Hord : ordered (fun a b => String.leb (text b) (text a)) rows).
  { apply sort_by_ordered.
    - intros x y. apply string_leb_flip.
    - intros x y z H1 H2. exact (string_leb_trans _ _ _ H2 H1). }
  subst rows. unfold GetInsights, bind, get_db, ret in *. cbn [fst snd] in *.
  split; [reflexivity |]. split; [| split; [| split]].
  - intros i. rewrite sort_by_In, filter_In.
    rewrite String.eqb_eq. reflexivity.
  - apply Permutation_length, sort_by_perm.
  - exact Hord.
  - intros Hagree. revert Hord. apply ordered_agree.
    intros a b Ha Hb. apply Hagree; assumption.
Qed.

(** X4: a message whose save succeeded is among the messages GetMessages
    returns for its trace, with the identifier it was given, and the
    messages returned before are still returned. *)
Theorem SaveMessage_GetMessages (msg : Message.t) (s : Sys) :
  snd (fst (SaveMessage msg s)) = true ->
  let saved := fst (fst (SaveMessage msg s)) in
  let s' := snd (SaveMessage msg s) in
  In saved (fst (GetMessages (Message.TraceID msg) s'))
  /\ Message.TraceID saved = Message.TraceID msg
  /\ (Message.ID msg <> EmptyString -> saved = msg)
  /\ (forall traceID m, In m (fst (GetMessages traceID s)) ->
                        In m (fst (GetMessages traceID s'))).
Proof.
  intros Hok saved s'.
  destruct (SaveMessage_outcome msg s) as (Hsaved & Hrows).
  cbv zeta in Hsaved, Hrows. specialize (Hrows Hok).
  fold saved in Hsaved. fold s' in Hrows. rewrite <- Hsaved in Hrows.
  assert (Htrace : Message.TraceID saved = Message.TraceID msg).
  { rewrite Hsaved. destruct msg; reflexivity. }
  split; [| split; [exact Htrace | split]].
  - apply GetMessages_listing. rewrite Hrows.
    split; [apply in_or_app; right; left; reflexivity | exact Htrace].
  - intros Hid. rewrite Hsaved.
    apply String.eqb_neq in Hid. rewrite Hid. apply set_ID_same.
  - intros traceID m Hm.
    apply GetMessages_listing in Hm. destruct Hm as [Hm Ht].
    apply GetMessages_listing. rewrite Hrows.
    split; [apply in_or_app; left; exact Hm | exact Ht].
Qed.

(** The round trip at a store of four rows and a response without
    identifier. *)
Lemma SaveMessage_GetMessages_witness :
  In (Message.set_ID "uuid-0" sample_reply_msg)
     (fst (GetMessages "trace-1" (snd (SaveMessage sample_reply_msg sample_sys_store)))).
Proof.
  refine (proj1 (SaveMessage_GetMessages sample_reply_msg sample_sys_store _)).
  vm_compute. reflexivity.
Defined.

(** *** SaveAgent on any table *)

Lemma has_agent_id_In (id : string) (rows : list Agent.t) :
  has_agent_id id rows = true <-> In id (map Agent.ID rows).
Proof.
  unfold has_agent_id. rewrite existsb_exists, in_map_iff.
  split; intros (r & H1 & H2); exists r.
  - apply String.eqb_eq in H2. auto.
  - split; [exact H2 | apply String.eqb_eq; exact H1].
Qed.

Lemma has_agent_url_In (url : string) (rows : list Agent.t) :
  has_agent_url url rows = true <-> In url (map Agent.URL rows).
Proof.
  unfold has_agent_url. rewrite existsb_exists, in_map_iff.
  split; intros (r & H1 & H2); exists r.
  - apply String.eqb_eq in H2. auto.
  - split; [exact H2 | apply String.eqb_eq; exact H1].
Qed.

(** Three insights saved out of order, whose texts are those of times in
    UTC: they come from the latest to the earliest. *)
Lemma GetInsights_rows_witness :
  map Insight.ID (fst (GetInsights "trace-1" sample_sys_insights)) = ["i2"; "i3"; "i1"]
  /\ ordered (fun a b => Insight.Timestamp b <=? Insight.Timestamp a)
       (fst (GetInsights "trace-1" sample_sys_insights)).
Proof.
  split; [vm_compute; reflexivity |].
  apply (proj2 (proj2 (proj2 (proj2 (GetInsights_rows "trace-1" sample_sys_insights))))).
  intros a b Ha Hb. vm_compute in Ha, Hb.
  destruct Ha as [<- | [<- | [<- | []]]]; destruct Hb as [<- | [<- | [<- | []]]];
    vm_compute; reflexivity.
Defined.

(** The three outcomes of SaveAgent. *)
Lemma SaveAgent_cases (agent : Agent.t) (s : Sys) :
  let id := if String.eqb (Agent.ID agent) EmptyString
            then uuid_source s (uuid_calls s) else Agent.ID agent in
  let agent' := Agent.set_ID id agent in
  let rows := Store.agents (db s) in
  fst (fst (SaveAgent agent s)) = agent'
  /\ Store.messages (db (snd (SaveAgent agent s))) = Store.messages (db s)
  /\ Store.insights (db (snd (SaveAgent agent s))) = Store.insights (db s)
  /\ published_agents (snd (SaveAgent agent s)) = published_agents s
  /\ ((has_agent_url (Agent.URL agent) rows = true
       /\ snd (fst (SaveAgent agent s)) = true
       /\ Store.agents (db (snd (SaveAgent agent s))) = upsert_agent agent' rows)
      \/ (has_agent_url (Agent.URL agent) rows = false /\ has_agent_id id rows = true
          /\ snd (fst (SaveAgent agent s)) = false
          /\ Store.agents (db (snd (SaveAgent agent s))) = rows)
      \/ (has_agent_url (Agent.URL agent) rows = false /\ has_agent_id id rows = false
          /\ snd (fst (SaveAgent agent s)) = true
          /\ Store.agents (db (snd (SaveAgent agent s))) = rows ++ [agent'])).
Proof.
  intros id agent' rows. subst id agent' rows.
  unfold SaveAgent, bind.
  destruct (String.eqb (Agent.ID agent) EmptyString) eqn:E;
    unfold uuid_New, get_db, put_db, ret; cbn [fst snd db Agent.ID Agent.URL Agent.set_ID].
  - destruct (has_agent_url _ _) eqn:E2;
      cbn [fst snd db Store.agents Store.set_agents Store.messages Store.insights
           published_agents].
    { repeat split; try reflexivity. left. auto. }
    destruct (has_agent_id _ _) eqn:E1;
      cbn [fst snd db Store.agents Store.set_agents Store.messages Store.insights
           published_agents].
    + repeat split; try reflexivity. right. left. auto.
    + repeat split; try reflexivity. right. right. auto.
  - assert (Hsame : Agent.set_ID (Agent.ID agent) agent = agent)
      by (destruct agent; reflexivity).
    rewrite Hsame.
    destruct (has_agent_url _ _) eqn:E2;
      cbn [fst snd db Store.agents Store.set_agents Store.messages Store.insights
           published_agents].
    { repeat split; try reflexivity. left. auto. }
    destruct (has_agent_id _ _) eqn:E1;
      cbn [fst snd db Store.agents Store.set_agents Store.messages Store.insights
           published_agents].
    + repeat split; try reflexivity. right. left. auto.
    + repeat split; try reflexivity. right. right. auto.
Qed.

Lemma SaveAgent_columns (agent : Agent.t) (s : Sys) :
  NoDup (map Agent.URL (Store.agents (db s))) ->
  NoDup (map Agent.URL (Store.agents (db (snd (SaveAgent agent s))))).
Proof.
  destruct (SaveAgent_cases agent s) as (_ & _ & _ & _ & Hcases).
  cbv zeta in Hcases.
  destruct Hcases as [(_ & _ & ->) | [(_ & _ & _ & ->) | (Hurl & _ & _ & ->)]].
  - rewrite (proj1 (proj2 (upsert_agent_columns _ _))). auto.
  - auto.
  - intros Hnd. rewrite map_app. apply NoDup_app.
    split; [exact Hnd |]. split; [| apply NoDup_singleton].
    intros x Hx Hx'. apply list_elem_of_singleton in Hx'. subst x.
    apply list_elem_of_In, has_agent_url_In in Hx.
    replace (Agent.URL (Agent.set_ID _ agent)) with (Agent.URL agent) in Hx
      by (destruct agent; reflexivity).
    congruence.
Qed.

(** X5: SaveAgent keeps the two keys of the agents table: whatever Agent
    is saved, on whatever table (its URL known or not, its identifier
    taken or not), identifiers that were distinct stay distinct and URLs
    that were distinct stay distinct; the rows that were there keep
    their place, their id, their URL and their first-seen time, and at
    most one row is added. The other tables are untouched. *)
Theorem SaveAgent_keeps_keys (agent : Agent.t) (s : Sys) :
  let rows := Store.agents (db s) in
  let rows' := Store.agents (db (snd (SaveAgent agent s))) in
  (NoDup (map Agent.ID rows) -> NoDup (map Agent.ID rows'))
  /\ (NoDup (map Agent.URL rows) -> NoDup (map Agent.URL rows'))
  /\ (exists added,
        (length added <= 1)%nat
        /\ map Agent.ID rows' = map Agent.ID rows ++ map Agent.ID added
        /\ map Agent.URL rows' = map Agent.URL rows ++ map Agent.URL added
        /\ map Agent.FirstSeen rows'
           = map Agent.FirstSeen rows ++ map Agent.FirstSeen added)
  /\ Store.messages (db (snd (SaveAgent agent s))) = Store.messages (db s)
  /\ Store.insights (db (snd (SaveAgent agent s))) = Store.insights (db s).
Proof.
  intros rows rows'.
  destruct (SaveAgent_cases agent s) as (_ & Hm & Hi & _ & Hcases).
  cbv zeta in Hcases. fold rows in Hcases. fold rows' in Hcases.
  set (id := if String.eqb (Agent.ID agent) EmptyString
             then uuid_source s (uuid_calls s) else Agent.ID agent) in *.
  split; [| split; [| split; [| split; assumption]]].
  - destruct Hcases as [(_ & _ & ->) | [(_ & _ & _ & ->) | (_ & Hid & _ & ->)]].
    + rewrite (proj1 (upsert_agent_columns _ rows)). auto.
    + auto.
    + intros Hnd. rewrite map_app. apply NoDup_app.
      split; [exact Hnd |]. split; [| apply NoDup_singleton].
      intros x Hx Hx'. apply list_elem_of_singleton in Hx'. subst x.
      apply list_elem_of_In, has_agent_id_In in Hx.
      replace (Agent.ID (Agent.set_ID id agent)) with id in Hx
        by (destruct agent; reflexivity).
      congruence.
  - destruct Hcases as [(_ & _ & ->) | [(_ & _ & _ & ->) | (Hurl & _ & _ & ->)]].
    + rewrite (proj1 (proj2 (upsert_agent_columns _ rows))). auto.
    + auto.
    + intros Hnd. rewrite map_app. apply NoDup_app.
      split; [exact Hnd |]. split; [| apply NoDup_singleton].
      intros x Hx Hx'. apply list_elem_of_singleton in Hx'. subst x.
      apply list_elem_of_In, has_agent_url_In in Hx.
      replace (Agent.URL (Agent.set_ID id agent)) with (Agent.URL agent) in Hx
        by (destruct agent; reflexivity).
      congruence.
  - destruct Hcases as [(_ & _ & ->) | [(_ & _ & _ & ->) | (_ & _ & _ & ->)]].
    + exists []. simpl. rewrite !app_nil_r.
      destruct (upsert_agent_columns (Agent.set_ID id agent) rows) as (H1 & H2 & H3).
      repeat split; [lia | assumption ..].
    + exists []. simpl. rewrite !app_nil_r. repeat split. lia.
    + exists [Agent.set_ID id agent]. rewrite !map_app. repeat split. simpl. lia.
Qed.

Lemma NoDup_map_eq {A B} (f : A -> B) (l : list A) (x y : A) :
  NoDup (map f l) -> In x l -> In y l -> f x = f y -> x = y.
Proof.
  induction l as [| a l IH]; simpl; intros Hnd Hx Hy Hf; [contradiction |].
  apply NoDup_cons in Hnd. destruct Hnd as [Ha Hnd].
  destruct Hx as [<- | Hx], Hy as [<- | Hy].
  - reflexivity.
  - exfalso. apply Ha. rewrite Hf. apply list_elem_of_In, in_map. exact Hy.
  - exfalso. apply Ha. rewrite <- Hf. apply list_elem_of_In, in_map. exact Hx.
  - apply IH; assumption.
Qed.

(** X6: after a SaveAgent that succeeded, on a table with distinct URLs,
    GetAgents returns exactly one row for the URL of the Agent saved,
    and that row has its name, description, version and skills; a save
    succeeds whenever the URL is in the table, whatever the identifier
    of the Agent. GetAgents lists the rows of the table in the
    descending order of the texts stored for their first-seen times,
    which is from the latest to the earliest when those texts compare
    as the times do. *)
Theorem SaveAgent_GetAgents (agent : Agent.t) (s : Sys) :
  NoDup (map Agent.URL (Store.agents (db s))) ->
  snd (fst (SaveAgent agent s)) = true
  \/ In (Agent.URL agent) (map Agent.URL (Store.agents (db s))) ->
  let s' := snd (SaveAgent agent s) in
  let listed := fst (GetAgents s') in
  let text a := Store.time_text (db s') (Agent.FirstSeen a) in
  snd (fst (SaveAgent agent s)) = true
  /\ Permutation listed (Store.agents (db s'))
  /\ ordered (fun a b => String.leb (text b) (text a)) listed
  /\ (text_follows_time (Store.time_text (db s')) Agent.FirstSeen listed ->
      ordered (fun a b => Agent.FirstSeen b <=? Agent.FirstSeen a) listed)
  /\ exists row,
       In row listed
       /\ Agent.URL row = Agent.URL agent
       /\ Agent.Name row = Agent.Name agent
       /\ Agent.Description row = Agent.Description agent
       /\ Agent.Version row = Agent.Version agent
       /\ Agent.Skills row = Agent.Skills agent
       /\ forall other, In other listed -> Agent.URL other = Agent.URL agent ->
                        other = row.
Proof.
  intros Hnd Hwhy s' listed text.
  assert (Hperm : Permutation listed (Store.agents (db s'))) by apply sort_by_perm.
  assert (Hin : forall r, In r listed <-> In r (Store.agents (db s'))).
  { intros r. rewrite <- !list_elem_of_In, Hperm. reflexivity. }
  assert (Hord : ordered (fun a b => String.leb (text b) (text a)) listed).
  { apply sort_by_ordered.
    - intros x y. apply string_leb_flip.
    - intros x y z H1 H2. exact (string_leb_trans _ _ _ H2 H1). }
  pose proof (SaveAgent_columns agent s Hnd) as Hnd'. fold s' in Hnd'.
  destruct (SaveAgent_cases agent s) as (_ & _ & _ & _ & Hcases).
  cbv zeta in Hcases. fold s' in Hcases.
  set (agent' := Agent.set_ID _ agent) in Hcases.
  assert (Hok : snd (fst (SaveAgent agent s)) = true).
  { destruct Hwhy as [Hok | Hurl]; [exact Hok |].
    apply has_agent_url_In in Hurl.
    destruct Hcases as [(_ & Hok & _) | [(Hno & _) | (Hno & _)]];
      [exact Hok | congruence | congruence]. }
  split; [exact Hok |]. split; [exact Hperm |]. split; [exact Hord |]. split.
  { intros Hagree. revert Hord. apply ordered_agree.
    intros a b Ha Hb. apply Hagree; assumption. }
  assert (Hfields : Agent.URL agent' = Agent.URL agent
                    /\ Agent.Name agent' = Agent.Name agent
                    /\ Agent.Description agent' = Agent.Description agent
                    /\ Agent.Version agent' = Agent.Version agent
                    /\ Agent.Skills agent' = Agent.Skills agent)
    by (destruct agent; repeat split).
  destruct Hfields as (Hu & Hn & Hd & Hv & Hs).
  assert (Hrow : exists row, In row (Store.agents (db s'))
                   /\ Agent.URL row = Agent.URL agent
                   /\ Agent.Name row = Agent.Name agent
                   /\ Agent.Description row = Agent.Description agent
                   /\ Agent.Version row = Agent.Version agent
                   /\ Agent.Skills row = Agent.Skills agent).
  { destruct Hcases as [(Hurl & _ & Hrows) | [(_ & _ & Hno & _) | (_ & _ & _ & Hrows)]].
    - apply has_agent_url_In, in_map_iff in Hurl. destruct Hurl as (old & Hold & Hin').
      exists (upsert_fields agent' old). rewrite Hrows. split.
      + unfold upsert_agent. apply in_map_iff. exists old. split; [| exact Hin'].
        rewrite Hu, Hold, String.eqb_refl. reflexivity.
      + cbn. repeat split; congruence.
    - congruence.
    - exists agent'. rewrite Hrows. split; [apply in_or_app; right; left; reflexivity |].
      repeat split; assumption. }
  destruct Hrow as (row & Hrin & Hru & Hrest).
  exists row. split; [apply Hin; exact Hrin |]. split; [exact Hru |].
  destruct Hrest as (H1 & H2 & H3 & H4).
  repeat (split; [assumption |]).
  intros other Ho Hou. apply Hin in Ho.
  apply (NoDup_map_eq Agent.URL _ other row Hnd' Ho Hrin). congruence.
Qed.

(** The round trip at a table of two agents: a third, new one, and the
    first one saved again with the identifier it has in the table. *)
Lemma SaveAgent_GetAgents_witness :
  (exists row,
     In row (fst (GetAgents (snd (SaveAgent sample_new_agent sample_sys_agents))))
     /\ Agent.Name row = "Zed")
  /\ (exists row,
        In row (fst (GetAgents (snd (SaveAgent sample_agent_stored sample_sys_agents))))
        /\ Agent.URL row = "http://agent.local/.well-known/agent.json"
        /\ Agent.Name row = "Robert").
Proof.
  assert (Hnd : NoDup (map Agent.URL (Store.agents (db sample_sys_agents)))).
  { vm_compute. constructor; [not_among |]. constructor; [not_among | constructor]. }
  split.
  - destruct (SaveAgent_GetAgents sample_new_agent sample_sys_agents Hnd)
      as (_ & _ & _ & _ & row & Hin & _ & Hname & _).
    + left. vm_compute. reflexivity.
    + exists row. split; [exact Hin | exact Hname].
  - destruct (SaveAgent_GetAgents sample_agent_stored sample_sys_agents Hnd)
      as (_ & _ & _ & _ & row & Hin & Hurl & Hname & _).
    + right. vm_compute. tauto.
    + exists row. split; [exact Hin |]. split; [exact Hurl | exact Hname].
Defined.

(** *** Traces *)

Lemma GetTrace_none (id : string) (rows : list Trace.t) :
  has_trace_id id rows = false -> GetTrace id rows = None.
Proof.
  unfold has_trace_id, GetTrace. induction rows as [| r rows IH]; simpl.
  - reflexivity.
  - intros H. apply orb_false_iff in H. destruct H as [H1 H2].
    rewrite H1. apply IH. exact H2.
Qed.

Lemma GetTrace_app (id : string) (rows more : list Trace.t) :
  GetTrace id (rows ++ more)
  = match GetTrace id rows with
    | Some t => Some t
    | None => GetTrace id more
    end.
Proof.
  unfold GetTrace. induction rows as [| r rows IH]; simpl.
  - reflexivity.
  - destruct (String.eqb (Trace.ID r) id); [reflexivity | exact IH].
Qed.

Lemma GetTrace_update_other (id other status : string) (rows : list Trace.t) :
  other <> id ->
  GetTrace other (UpdateTraceStatus id status rows) = GetTrace other rows.
Proof.
  intros Hne. unfold GetTrace, UpdateTraceStatus.
  induction rows as [| r rows IH]; simpl; [reflexivity |].
  destruct (String.eqb_spec (Trace.ID r) id) as [E | E]; simpl.
  - rewrite E. apply String.eqb_neq in Hne. rewrite String.eqb_sym, Hne.
    rewrite IH. reflexivity.
  - destruct (String.eqb (Trace.ID r) other); [reflexivity | exact IH].
Qed.

Lemma UpdateTraceStatus_unknown (id status : string) (rows : list Trace.t) :
  has_trace_id id rows = false -> UpdateTraceStatus id status rows = rows.
Proof.
  unfold has_trace_id, UpdateTraceStatus.
  induction rows as [| r rows IH]; simpl; [reflexivity |].
  intros H. apply orb_false_iff in H. destruct H as [H1 H2].
  rewrite H1, (IH H2). reflexivity.
Qed.

(** X7: the life of a trace: a trace that CreateTrace made is running
    and GetTrace finds it; after UpdateTraceStatus, GetTrace returns it
    with the new status and its other fields as they were; no other
    trace is affected, and updating or getting an identifier the table
    does not hold changes nothing and finds nothing. *)
Theorem trace_lifecycle (id : string) (now : Z) (command status : string)
    (rows rows' : list Trace.t) (trace : Trace.t) :
  CreateTrace id now command rows = (Some trace, rows') ->
  trace = Trace.mk id now command "running"
  /\ GetTrace id rows = None
  /\ GetTrace id rows' = Some trace
  /\ GetTrace id (UpdateTraceStatus id status rows')
     = Some (Trace.mk id now command status)
  /\ (forall other, other <> id ->
        GetTrace other (UpdateTraceStatus id status rows') = GetTrace other rows)
  /\ UpdateTraceStatus id status rows = rows.
Proof.
  unfold CreateTrace. destruct (has_trace_id id rows) eqn:E; [discriminate |].
  intros [= <- <-].
  pose proof (GetTrace_none id rows E) as Hnone.
  split; [reflexivity |]. split; [exact Hnone |]. split; [| split; [| split]].
  - rewrite GetTrace_app, Hnone. unfold GetTrace. simpl.
    rewrite String.eqb_refl. reflexivity.
  - unfold UpdateTraceStatus. rewrite map_app.
    fold (UpdateTraceStatus id status rows).
    rewrite (UpdateTraceStatus_unknown id status rows E).
    rewrite GetTrace_app, Hnone. unfold GetTrace. simpl.
    rewrite String.eqb_refl. simpl. rewrite String.eqb_refl. reflexivity.
  - intros other Hne. rewrite (GetTrace_update_other id other status _ Hne).
    rewrite GetTrace_app. destruct (GetTrace other rows); [reflexivity |].
    unfold GetTrace. simpl. apply String.eqb_neq in Hne.
    rewrite String.eqb_sym, Hne. reflexivity.
  - apply UpdateTraceStatus_unknown. exact E.
Qed.

(** The life of the trace of one run, from an empty table. *)
Lemma trace_lifecycle_witness :
  GetTrace "uuid-0"
    (UpdateTraceStatus "uuid-0" "completed"
       (snd (CreateTrace "uuid-0" 1700000000000000000 "[node agent.js]" [])))
  = Some (Trace.mk "uuid-0" 1700000000000000000 "[node agent.js]" "completed").
Proof.
  apply (trace_lifecycle "uuid-0" 1700000000000000000 "[node agent.js]" "completed"
           [] _ (Trace.mk "uuid-0" 1700000000000000000 "[node agent.js]" "running")).
  reflexivity.
Defined.

(** ** The interceptor *)

Lemma occurs_before (sep : ascii) (s : string) :
  GoStrings.occurs sep (GoStrings.before sep s) = false.
Proof.
  induction s as [| c s IH]; simpl; [reflexivity |].
  destruct (Ascii.eqb c sep) eqn:E; simpl; [reflexivity |].
  rewrite E. exact IH.
Qed.

Lemma before_none (sep : ascii) (s : string) :
  GoStrings.occurs sep s = false -> GoStrings.before sep s = s.
Proof.
  induction s as [| c s IH]; simpl; [reflexivity |].
  intros H. apply orb_false_iff in H. destruct H as [Hc Hs].
  rewrite Hc, (IH Hs). reflexivity.
Qed.

Lemma before_sep (sep : ascii) (s rest : string) :
  GoStrings.occurs sep s = false ->
  GoStrings.before sep (s +:+ String sep rest) = s.
Proof.
  induction s as [| c s IH]; simpl; intros H.
  - rewrite Ascii.eqb_refl. reflexivity.
  - apply orb_false_iff in H. destruct H as [Hc Hs].
    rewrite Hc, (IH Hs). reflexivity.
Qed.

Lemma occurs_app (sep : ascii) (s t : string) :
  GoStrings.occurs sep (s +:+ t) = GoStrings.occurs sep s || GoStrings.occurs sep t.
Proof.
  induction s as [| c s IH]; simpl; [reflexivity |].
  rewrite IH, orb_assoc. reflexivity.
Qed.

Lemma HasPrefix_app (s prefix : string) :
  GoStrings.HasPrefix s prefix = true -> exists t, s = prefix +:+ t.
Proof.
  revert s. induction prefix as [| c p IH]; intros s; simpl.
  - exists s. reflexivity.
  - destruct s as [| d s]; [discriminate |].
    intros H. apply andb_true_iff in H. destruct H as [Hc Hp].
    apply Ascii.eqb_eq in Hc. subst d.
    destruct (IH s Hp) as [t ->]. exists t. reflexivity.
Qed.

Lemma append_nil_r (s : string) : s +:+ EmptyString = s.
Proof.
  induction s as [| c s IH]; [reflexivity |].
  change (String c s +:+ EmptyString) with (String c (s +:+ EmptyString)).
  f_equal. exact IH.
Qed.

(** A text with no slash does not start with https://, and followed by a
    slash it does so only if it is the text https: itself. *)
Lemma no_https_prefix (host tail : string) :
  GoStrings.occurs "/"%char host = false ->
  tail = EmptyString \/ (exists rest, tail = String "/"%char rest /\ host <> "https:") ->
  GoStrings.HasPrefix (host +:+ tail) "https://" = false.
Proof.
  intros Hhost Htail.
  destruct (GoStrings.HasPrefix (host +:+ tail) "https://") eqn:E; [| reflexivity].
  exfalso. apply HasPrefix_app in E. destruct E as [t Ht].
  destruct Htail as [-> | (rest & -> & Hne)].
  - assert (H : GoStrings.occurs "/"%char (host +:+ EmptyString) = true)
      by (rewrite Ht; reflexivity).
    rewrite occurs_app, Hhost in H. discriminate.
  - apply Hne.
    rewrite <- (before_sep "/"%char host rest Hhost), Ht. reflexivity.
Qed.

Lemma TrimPrefix_here (prefix t : string) :
  GoStrings.TrimPrefix (prefix +:+ t) prefix = t.
Proof.
  unfold GoStrings.TrimPrefix.
  assert (H : GoStrings.HasPrefix (prefix +:+ t) prefix = true
              /\ GoStrings.drop (String.length prefix) (prefix +:+ t) = t).
  { induction prefix as [| c p [IH1 IH2]]; [split; destruct t; reflexivity |].
    change (String c p +:+ t) with (String c (p +:+ t)). simpl.
    rewrite Ascii.eqb_refl, IH1, IH2. split; reflexivity. }
  destruct H as [-> ->]. reflexivity.
Qed.

Lemma TrimPrefix_not (s prefix : string) :
  GoStrings.HasPrefix s prefix = false -> GoStrings.TrimPrefix s prefix = s.
Proof. unfold GoStrings.TrimPrefix. intros ->. reflexivity. Qed.

(** X8: extractAgentFromURL: the result never holds a slash; for a URL
    made of the scheme http or https, a host without slash and a path,
    it is the host (with its port), and so it is for a URL with no path. *)
Theorem extractAgentFromURL_host (urlStr host rest : string) :
  GoStrings.occurs "/"%char (extractAgentFromURL urlStr) = false
  /\ (GoStrings.occurs "/"%char host = false ->
      extractAgentFromURL ("https://" +:+ host +:+ String "/"%char rest) = host
      /\ extractAgentFromURL ("https://" +:+ host) = host
      /\ extractAgentFromURL ("http://" +:+ host) = host
      /\ (host <> "https:" ->
          extractAgentFromURL ("http://" +:+ host +:+ String "/"%char rest) = host)).
Proof.
  split.
  - unfold extractAgentFromURL. cbv zeta.
    set (u := GoStrings.TrimPrefix _ "https://").
    destruct (GoStrings.occurs "/"%char u) eqn:E; [apply occurs_before | exact E].
  - intros Hhost.
    assert (Hpath : forall r,
               (if GoStrings.occurs "/"%char (host +:+ String "/"%char r)
                then GoStrings.before "/"%char (host +:+ String "/"%char r)
                else host +:+ String "/"%char r) = host).
    { intros r. rewrite occurs_app, Hhost. simpl.
      rewrite before_sep by exact Hhost. reflexivity. }
    pose proof (no_https_prefix host EmptyString Hhost (or_introl eq_refl)) as Hplain.
    rewrite append_nil_r in Hplain.
    unfold extractAgentFromURL. cbv zeta.
    split; [| split; [| split]].
    + rewrite (TrimPrefix_not ("https://" +:+ _) "http://") by reflexivity.
      rewrite TrimPrefix_here. apply Hpath.
    + rewrite (TrimPrefix_not ("https://" +:+ _) "http://") by reflexivity.
      rewrite TrimPrefix_here, Hhost. reflexivity.
    + rewrite TrimPrefix_here, (TrimPrefix_not host) by exact Hplain.
      rewrite Hhost. reflexivity.
    + intros Hne. rewrite TrimPrefix_here.
      rewrite TrimPrefix_not
        by (apply no_https_prefix;
            [exact Hhost | right; exists rest; split; [reflexivity | exact Hne]]).
      apply Hpath.
Qed.

(** The host of a URL with a port and a path. *)
Lemma extractAgentFromURL_host_witness :
  extractAgentFromURL "http://localhost:8001/.well-known/agent.json" = "localhost:8001".
Proof.
  refine (proj2 (proj2 (proj2 (proj2 (extractAgentFromURL_host EmptyString
            "localhost:8001" ".well-known/agent.json") _))) _).
  - reflexivity.
  - discriminate.
Defined.

Lemma all_from_spec (f : Z -> bool) (count : nat) : forall from k,
  all_from f from count = true ->
  from <= k < from + Z.of_nat count -> f k = true.
Proof.
  induction count as [| c IH]; intros from k H Hk; [lia |].
  simpl in H. apply andb_true_iff in H. destruct H as [H0 H1].
  destruct (Z.eq_dec k from) as [-> | Hne]; [exact H0 |].
  apply (IH (from + 1)); [exact H1 | lia].
Qed.

Lemma formatRequestID_check :
  all_from (fun k => negb (String.eqb (formatRequestID (IdFloat64 k)) (Itoa k)))
    0 (Z.to_nat 100000) = true.
Proof. vm_compute. reflexivity. Qed.

(** X9: formatRequestID on a numeric JSON-RPC id: for no integer from 0
    to 99,999 is the result its decimal digits (the number goes through
    a rune conversion). *)
Theorem formatRequestID_not_decimal (n : Z) :
  0 <= n < 100000 ->
  formatRequestID (IdFloat64 n) <> Itoa n.
Proof.
  intros Hn E.
  pose proof (all_from_spec _ _ 0 n formatRequestID_check) as H.
  cbv beta in H. rewrite E, String.eqb_refl in H.
  rewrite Z2Nat.id in H by lia.
  specialize (H ltac:(lia)). discriminate.
Qed.

(** The id 7 becomes the single byte 7, not the digit. *)
Lemma formatRequestID_not_decimal_witness :
  formatRequestID (IdFloat64 7) <> "7".
Proof.
  apply (formatRequestID_not_decimal 7). lia.
Defined.

(** ** The proxy *)

Section ProxyReply.
Context {lib : GoLib}.

Lemma handleProxy_reply (p : Proxy.t) (x : Inbound) (s : Sys) :
  fst (handleProxy p x s) = caller_reply x.
Proof.
  unfold handleProxy, caller_reply.
  destruct (String.eqb _ "CONNECT"); [reflexivity |].
  destruct (reqBody x) as [body |]; [| reflexivity].
  unfold bind.
  destruct (capture_request p (request x) body s) as [reqMsg s1].
  destruct (time_Now s1) as [startTime s2].
  destruct (newRequestErr x) as [err |]; [reflexivity |].
  destruct (upstream x) as [err | resp respBody].
  - destruct (capture_failure _ _ _ _ _ s2) as [u s3]. reflexivity.
  - destruct (time_Since startTime s2) as [duration s3].
    destruct respBody as [respBody |]; [| reflexivity].
    destruct (capture_response _ _ _ _ _ _ _ s3) as [u s4]. reflexivity.
Qed.

(** X10: capture never alters what the caller gets: the reply of
    handleProxy depends on the inbound request and on what the network
    did, not on the configuration of the proxy nor on what the store
    holds or whether a save failed. When upstream answers and its body
    is read, the caller gets the status, the headers and the very body
    of the answer; when the upstream call fails, a 502. *)
Theorem reply_independent_of_capture (x : Inbound) (p p' : Proxy.t) (s s' : Sys) :
  fst (handleProxy p x s) = fst (handleProxy p' x s')
  /\ (http.Method (request x) = "CONNECT" -> fst (handleProxy p x s) = Tunnel)
  /\ (http.Method (request x) <> "CONNECT" ->
      forall body, reqBody x = Some body -> newRequestErr x = None ->
      (forall resp respBody, upstream x = DoResponse resp (Some respBody) ->
         fst (handleProxy p x s)
         = Written (http.StatusCode resp) (http.RespHeader resp) respBody)
      /\ (forall err, upstream x = DoError err ->
            exists header text, fst (handleProxy p x s) = Written 502 header text)).
Proof.
  rewrite !handleProxy_reply. split; [reflexivity |]. unfold caller_reply. split.
  - intros ->. reflexivity.
  - intros Hm body Hb Hn. apply String.eqb_neq in Hm. rewrite Hm, Hb, Hn. split.
    + intros resp respBody ->. reflexivity.
    + intros err ->. unfold http_Error. eexists. eexists. reflexivity.
Qed.

End ProxyReply.

Section ProxyPaths.
Context {lib : GoLib}.

(** X11: a traversal that is not captured leaves no trace: for a
    CONNECT, for a request whose body cannot be read, and for a request
    that is not classified A2A and has an empty body, whatever upstream
    does, the tables are as before, nothing is handed to OnMessage or
    OnAgent and no identifier is drawn. In particular an agent-card GET
    that is not captured records no agent, even when upstream answers
    with a card. *)
Theorem uncaptured_leaves_no_trace (p : Proxy.t) (x : Inbound) (s : Sys) :
  http.Method (request x) = "CONNECT"
  \/ reqBody x = None
  \/ (exists body, reqBody x = Some body
        /\ IsA2ARequest (request x) || (0 <? String.length body)%nat = false) ->
  let s' := snd (handleProxy p x s) in
  db s' = db s
  /\ published s' = published s
  /\ published_agents s' = published_agents s
  /\ published_insights s' = published_insights s
  /\ uuid_calls s' = uuid_calls s.
Proof.
  intros H. cbv zeta.
  assert (Hs : snd (handleProxy p x s) = s
               \/ exists k, snd (handleProxy p x s) = advance 0 k [] [] s).
  { unfold handleProxy.
    destruct (String.eqb_spec (http.Method (request x)) "CONNECT") as [E | E].
    { left. reflexivity. }
    destruct H as [H | [H | (body & Hb & Hc)]]; [contradiction | |].
    { rewrite H. left. reflexivity. }
    right. rewrite Hb. unfold bind, capture_request. rewrite Hc.
    unfold ret at 1. rewrite time_Now_run.
    destruct (newRequestErr x); [exists 1%nat; reflexivity |].
    destruct (upstream x) as [err | resp [respBody |]].
    - exists 1%nat. reflexivity.
    - rewrite time_Since_run. unfold capture_response, ret. cbn [snd].
      rewrite advance_advance. exists 2%nat. reflexivity.
    - rewrite time_Since_run. unfold ret. cbn [snd].
      rewrite advance_advance. exists 2%nat. reflexivity. }
  destruct Hs as [-> | [k ->]]; [repeat split |].
  unfold advance. cbn. rewrite !app_nil_r.
  destruct (db s). repeat split.
Qed.

End ProxyPaths.

(** A plain agent-card GET (no Content-Type, no body) that upstream
    answers: the agents table stays empty. *)
Lemma uncaptured_leaves_no_trace_witness :
  Store.agents (db (snd (@handleProxy sample_lib sample_proxy plain_card_answered
                           sample_sys))) = [].
Proof.
  destruct (@uncaptured_leaves_no_trace sample_lib sample_proxy plain_card_answered
              sample_sys) as (Hdb & _).
  - right. right. exists EmptyString. split; vm_compute; reflexivity.
  - rewrite Hdb. reflexivity.
Defined.

Section SuccessPath.
Context {lib : GoLib}.

Lemma ParseResponse_run resp body requestMsg duration s :
  let msg := fst (ParseResponse resp body requestMsg duration s) in
  snd (ParseResponse resp body requestMsg duration s) = advance 0 1 [] [] s
  /\ Message.ID msg = EmptyString
  /\ Message.Direction msg = "response"
  /\ Message.TraceID msg = Message.TraceID requestMsg
  /\ Message.Timestamp msg = clock s (clock_calls s)
  /\ Message.FromAgent msg = Message.ToAgent requestMsg
  /\ Message.URL msg = Message.URL requestMsg
  /\ Message.StatusCode msg = http.StatusCode resp
  /\ Message.Body msg = body
  /\ Message.Size msg = Z.of_nat (String.length body)
  /\ Message.DurationMs msg = Milliseconds duration.
Proof.
  unfold ParseResponse, bind. rewrite time_Now_run. unfold ret. cbn [fst snd].
  split; [reflexivity |].
  destruct (400 <=? http.StatusCode resp);
    destruct (json_Unmarshal_A2AResponse body) as [a2aResp |]; try (repeat split; fail);
    destruct (A2AResponse.Error a2aResp); repeat split.
Qed.

Lemma ParseRequest_fields r body traceID s :
  let msg := fst (ParseRequest r body traceID s) in
  Message.Timestamp msg = clock s (clock_calls s)
  /\ Message.URL msg = http.String_ (http.Url r)
  /\ Message.ToAgent msg = extractAgentFromURL (http.String_ (http.Url r))
  /\ Message.Body msg = body
  /\ Message.StatusCode msg = 0
  /\ Message.DurationMs msg = 0.
Proof.
  unfold ParseRequest, bind, time_Now, ret. cbn [fst].
  destruct (json_Unmarshal_A2ARequest body) as [q |]; [| repeat split].
  destruct (A2ARequest.ID q); repeat split.
Qed.

Lemma capture_response_split p r targetURL resp respBody duration reqMsg s :
  has_message_id (uuid_source s (uuid_calls s)) (Store.messages (db s)) = false ->
  let respMsg := Message.set_ID (uuid_source s (uuid_calls s))
                   (fst (ParseResponse resp respBody reqMsg duration s)) in
  capture_response p r targetURL resp respBody duration (Some reqMsg) s
  = discover_agent p r targetURL respBody
      (advance 1 1 [respMsg] (if Proxy.onMessage p then [respMsg] else []) s).
Proof.
  intros Hnew respMsg. unfold capture_response, bind.
  destruct (ParseResponse_run resp respBody reqMsg duration s) as (Hs & Hid & _).
  subst respMsg.
  destruct (ParseResponse resp respBody reqMsg duration s) as [m s1].
  cbn [fst snd] in *. subst s1.
  rewrite (SaveMessage_new m _ Hid) by (cbn; rewrite app_nil_r; exact Hnew).
  cbn [fst snd uuid_source uuid_calls advance Nat.add].
  rewrite notify_message_run, !advance_advance. cbn [Nat.add app fst snd].
  reflexivity.
Qed.

Lemma SaveAgent_published (agent : Agent.t) (s : Sys) :
  published (snd (SaveAgent agent s)) = published s.
Proof.
  unfold SaveAgent, bind, uuid_New, get_db, put_db, ret.
  destruct (String.eqb (Agent.ID agent) EmptyString); cbn [fst snd db];
    destruct (has_agent_id _ _); cbn [fst snd published]; try reflexivity;
    destruct (has_agent_url _ _); reflexivity.
Qed.

(** The agent-card block touches neither the messages nor what was
    handed to OnMessage. *)
Lemma discover_agent_frame p r targetURL respBody s :
  Store.messages (db (snd (discover_agent p r targetURL respBody s)))
    = Store.messages (db s)
  /\ published (snd (discover_agent p r targetURL respBody s)) = published s.
Proof.
  unfold discover_agent.
  destruct (GoStrings.Contains _ _); [| split; reflexivity].
  unfold ParseAgentCard.
  destruct (json_Unmarshal_AgentCard respBody) as [card |]; [| split; reflexivity].
  unfold bind. rewrite time_Now_run. unfold ret. cbn [fst snd].
  match goal with
  | |- context [SaveAgent ?a ?st] =>
      pose proof (SaveAgent_messages a st) as Hm;
      pose proof (SaveAgent_published a st) as Hp;
      destruct (SaveAgent a st) as [saved s2]
  end.
  cbn [fst snd] in *. unfold notify_agent. cbn [snd db published].
  rewrite Hm, Hp. cbn. rewrite !app_nil_r. split; reflexivity.
Qed.

End SuccessPath.

Section SuccessTheorems.
Context {lib : GoLib}.

(** The state after a traversal that upstream answered, for a captured
    request: the request and the response were saved and sent, then the
    agent-card block ran. *)
Lemma handleProxy_success_state (p : Proxy.t) (x : Inbound) (s : Sys)
    (body respBody : string) (resp : http.Response) :
  http.Method (request x) <> "CONNECT" ->
  reqBody x = Some body ->
  IsA2ARequest (request x) || (0 <? String.length body)%nat = true ->
  newRequestErr x = None ->
  upstream x = DoResponse resp (Some respBody) ->
  let id0 := uuid_source s (uuid_calls s) in
  let id1 := uuid_source s (S (uuid_calls s)) in
  has_message_id id0 (Store.messages (db s)) = false ->
  has_message_id id1 (Store.messages (db s)) = false ->
  id0 <> id1 ->
  let reqMsg :=
    Message.set_ID id0 (fst (ParseRequest (request x) body (Proxy.traceID p) s)) in
  let sent1 := if Proxy.onMessage p then [reqMsg] else [] in
  let respMsg :=
    Message.set_ID id1
      (fst (ParseResponse resp respBody reqMsg
              (time_Sub (clock s (2 + clock_calls s)) (clock s (1 + clock_calls s)))
              (advance 1 3 [reqMsg] sent1 s))) in
  snd (handleProxy p x s)
  = snd (discover_agent p (request x) (target_url (request x)) respBody
           (advance 2 4 [reqMsg; respMsg]
              (if Proxy.onMessage p then [reqMsg; respMsg] else []) s)).
Proof.
  intros Hmethod Hbody Hcap Hnew Hup id0 id1 Hid0 Hid1 Hne reqMsg sent1 respMsg.
  unfold handleProxy. apply String.eqb_neq in Hmethod. rewrite Hmethod, Hbody.
  unfold bind. rewrite (capture_request_run p _ body s Hcap Hid0).
  fold id0. fold reqMsg. fold sent1.
  rewrite time_Now_run, Hnew, Hup, time_Since_run.
  rewrite !advance_advance. cbn [clock clock_calls advance Nat.add app].
  rewrite capture_response_split.
  - cbn [uuid_source uuid_calls advance Nat.add]. fold id1. fold respMsg.
    rewrite !advance_advance. cbn [Nat.add app].
    destruct (Proxy.onMessage p); subst sent1; cbn [app];
      destruct (discover_agent _ _ _ _ _); reflexivity.
  - cbn [uuid_source uuid_calls advance db Store.messages Store.set_messages Nat.add].
    fold id1. rewrite !has_message_id_app, Hid1. cbn.
    destruct (String.eqb_spec id0 id1); [contradiction | reflexivity].
Qed.

(** X12: a captured request that upstream answers: the proxy saves and
    sends two Messages, the request and then the response; the response
    has the status of the answer, its body and the size of its body, the
    URL and the trace of the request, as source agent the target agent
    of the request (the host of its URL), and as duration the time
    between the clock readings taken just before the upstream call and
    just after it returned. *)
Theorem success_path_messages (p : Proxy.t) (x : Inbound) (s : Sys)
    (body respBody : string) (resp : http.Response) :
  http.Method (request x) <> "CONNECT" ->
  reqBody x = Some body ->
  IsA2ARequest (request x) || (0 <? String.length body)%nat = true ->
  newRequestErr x = None ->
  upstream x = DoResponse resp (Some respBody) ->
  Proxy.onMessage p = true ->
  has_message_id (uuid_source s (uuid_calls s)) (Store.messages (db s)) = false ->
  has_message_id (uuid_source s (S (uuid_calls s))) (Store.messages (db s)) = false ->
  uuid_source s (uuid_calls s) <> uuid_source s (S (uuid_calls s)) ->
  let s' := snd (handleProxy p x s) in
  exists reqMsg respMsg,
    Store.messages (db s') = Store.messages (db s) ++ [reqMsg; respMsg]
    /\ published s' = published s ++ [reqMsg; respMsg]
    /\ Message.Direction reqMsg = "request"
    /\ Message.Direction respMsg = "response"
    /\ Message.ID reqMsg = uuid_source s (uuid_calls s)
    /\ Message.ID respMsg = uuid_source s (S (uuid_calls s))
    /\ Message.TraceID reqMsg = Proxy.traceID p
    /\ Message.TraceID respMsg = Proxy.traceID p
    /\ Message.Body reqMsg = body
    /\ Message.ToAgent reqMsg
       = extractAgentFromURL (http.String_ (http.Url (request x)))
    /\ Message.FromAgent respMsg = Message.ToAgent reqMsg
    /\ Message.URL respMsg = Message.URL reqMsg
    /\ Message.StatusCode respMsg = http.StatusCode resp
    /\ Message.Body respMsg = respBody
    /\ Message.Size respMsg = Z.of_nat (String.length respBody)
    /\ Message.DurationMs respMsg
       = Milliseconds (time_Sub (clock s (2 + clock_calls s))
                         (clock s (1 + clock_calls s))).
Proof.
  intros Hmethod Hbody Hcap Hnew Hup Hon Hid0 Hid1 Hne s'.
  pose proof (handleProxy_success_state p x s body respBody resp Hmethod Hbody Hcap
                Hnew Hup Hid0 Hid1 Hne) as Hs.
  cbv zeta in Hs. rewrite Hon in Hs. subst s'. rewrite Hs. clear Hs.
  match goal with
  | |- context [discover_agent ?a ?b ?c ?d ?st] =>
      destruct (discover_agent_frame a b c d st) as [Hm Hp]
  end.
  rewrite Hm, Hp. clear Hm Hp.
  destruct (ParseRequest_run (request x) body (Proxy.traceID p) s)
    as (_ & _ & Hdir & Htr & _).
  destruct (ParseRequest_fields (request x) body (Proxy.traceID p) s)
    as (_ & Hurl & Hto & Hb & _).
  cbv zeta in Hurl, Hto, Hb.
  match goal with
  | |- context [ParseResponse ?a ?b ?c ?d ?st] =>
      destruct (ParseResponse_run a b c d st)
        as (_ & _ & Hrdir & Hrtr & _ & Hrfrom & Hrurl & Hrst & Hrb & Hrsz & Hrdur)
  end.
  cbv zeta in Hrdir, Hrtr, Hrfrom, Hrurl, Hrst, Hrb, Hrsz, Hrdur.
  eexists. eexists.
  split; [reflexivity |]. split; [reflexivity |].
  assert (Hset : forall id m,
             Message.Direction (Message.set_ID id m) = Message.Direction m
             /\ Message.TraceID (Message.set_ID id m) = Message.TraceID m
             /\ Message.Body (Message.set_ID id m) = Message.Body m
             /\ Message.ToAgent (Message.set_ID id m) = Message.ToAgent m
             /\ Message.FromAgent (Message.set_ID id m) = Message.FromAgent m
             /\ Message.URL (Message.set_ID id m) = Message.URL m
             /\ Message.StatusCode (Message.set_ID id m) = Message.StatusCode m
             /\ Message.Size (Message.set_ID id m) = Message.Size m
             /\ Message.DurationMs (Message.set_ID id m) = Message.DurationMs m
             /\ Message.ID (Message.set_ID id m) = id)
    by (intros id m; repeat split).
  repeat match goal with
         | |- _ /\ _ => split
         end;
    try (rewrite ?(proj1 (Hset _ _)); first
           [ exact Hdir | exact Hrdir | reflexivity ]).
  - cbn [Message.set_ID Message.TraceID]. exact Htr.
  - cbn [Message.set_ID Message.TraceID] in Hrtr |- *. rewrite Hrtr. exact Htr.
  - cbn [Message.set_ID Message.Body]. exact Hb.
  - cbn [Message.set_ID Message.ToAgent]. exact Hto.
  - cbn [Message.set_ID Message.FromAgent Message.ToAgent] in Hrfrom |- *. exact Hrfrom.
  - cbn [Message.set_ID Message.URL] in Hrurl |- *. exact Hrurl.
  - cbn [Message.set_ID Message.StatusCode]. exact Hrst.
  - cbn [Message.set_ID Message.Body]. exact Hrb.
  - cbn [Message.set_ID Message.Size]. exact Hrsz.
  - cbn [Message.set_ID Message.DurationMs]. exact Hrdur.
Qed.

End SuccessTheorems.

(** A captured call that upstream answers with 200 and the sample result:
    the table holds the request and a response of status 200 that took
    7 ms. *)
Lemma success_path_messages_witness :
  exists reqMsg respMsg,
    Store.messages (db (snd (@handleProxy sample_lib sample_proxy call_answered
                               sample_sys))) = [reqMsg; respMsg]
    /\ Message.StatusCode respMsg = 200
    /\ Message.DurationMs respMsg = 7.
Proof.
  destruct (@success_path_messages sample_lib sample_proxy call_answered sample_sys
              sample_call sample_result upstream_200)
    as (reqMsg & respMsg & Hm & _ & _ & _ & _ & _ & _ & _ & _ & _ & _ & _ & Hst & _ & _ & Hd).
  - vm_compute. discriminate.
  - reflexivity.
  - vm_compute. reflexivity.
  - reflexivity.
  - reflexivity.
  - reflexivity.
  - vm_compute. reflexivity.
  - vm_compute. reflexivity.
  - vm_compute. discriminate.
  - exists reqMsg, respMsg. split; [exact Hm |]. split; [exact Hst |].
    rewrite Hd. vm_compute. reflexivity.
Defined.

(** ** What a traversal adds to the messages table *)

Section Growth.
Context {lib : GoLib}.

Lemma grows_ret {A} (a : A) : grows_by 0 (ret a).
Proof. intros s. exists []. rewrite app_nil_r. cbn. auto. Qed.

Lemma grows_frame {A} (c : M A) :
  (forall s, Store.messages (db (snd (c s))) = Store.messages (db s)) ->
  grows_by 0 c.
Proof.
  intros H s. exists []. rewrite app_nil_r, H. cbn. auto.
Qed.

Lemma grows_bind {A B} (n m : nat) (c : M A) (k : A -> M B) :
  grows_by n c -> (forall a, grows_by m (k a)) -> grows_by (n + m) (bind c k).
Proof.
  intros Hc Hk s. unfold bind.
  destruct (Hc s) as (rows1 & H1 & L1 & N1).
  destruct (c s) as [a s1]. cbn [fst snd] in *.
  destruct (Hk a s1) as (rows2 & H2 & L2 & N2).
  exists (rows1 ++ rows2).
  split; [rewrite H2, H1, app_assoc; reflexivity |].
  split; [rewrite length_app; lia | auto].
Qed.

Lemma grows_weaken {A} (n m : nat) (c : M A) :
  (n <= m)%nat -> grows_by n c -> grows_by m c.
Proof.
  intros Hle Hc s. destruct (Hc s) as (rows & H1 & L1 & N1).
  exists rows. split; [exact H1 |]. split; [lia | exact N1].
Qed.

Lemma SaveMessage_rows (msg : Message.t) (s : Sys) :
  let m := if String.eqb (Message.ID msg) EmptyString
           then Message.set_ID (uuid_source s (uuid_calls s)) msg else msg in
  Store.messages (db (snd (SaveMessage msg s)))
  = Store.messages (db s)
    ++ (if has_message_id (Message.ID m) (Store.messages (db s)) then [] else [m]).
Proof.
  unfold SaveMessage, bind.
  destruct (String.eqb (Message.ID msg) EmptyString);
    unfold uuid_New, get_db, put_db, ret; cbn [fst snd db];
    destruct (has_message_id _ _);
    cbn [fst snd db Store.messages Store.set_messages];
    rewrite ?app_nil_r; reflexivity.
Qed.

Lemma grows_SaveMessage (msg : Message.t) : grows_by 1 (SaveMessage msg).
Proof.
  intros s. pose proof (SaveMessage_rows msg s) as Hrows. cbv zeta in Hrows.
  set (m := if String.eqb (Message.ID msg) EmptyString
            then Message.set_ID (uuid_source s (uuid_calls s)) msg else msg) in *.
  eexists. split; [exact Hrows |].
  pose proof (has_message_id_In (Message.ID m) (Store.messages (db s))) as Hin.
  destruct (has_message_id (Message.ID m) (Store.messages (db s))).
  - split; [cbn; lia |]. rewrite Hrows, app_nil_r. auto.
  - split; [cbn; lia |]. intros Hnd. rewrite Hrows, map_app. cbn [map].
    apply NoDup_app. split; [exact Hnd |]. split; [| apply NoDup_singleton].
    intros i Hi Hi'. apply list_elem_of_In in Hi.
    apply list_elem_of_singleton in Hi'. subst i.
    apply Hin in Hi. discriminate.
Qed.

Lemma grows_time_Now : grows_by 0 time_Now.
Proof. apply grows_frame. reflexivity. Qed.

Lemma grows_time_Since t : grows_by 0 (time_Since t).
Proof. apply grows_frame. reflexivity. Qed.

Lemma grows_notify_message set m : grows_by 0 (notify_message set m).
Proof. apply grows_frame. reflexivity. Qed.

Lemma grows_notify_agent set a : grows_by 0 (notify_agent set a).
Proof. apply grows_frame. reflexivity. Qed.

Lemma grows_SaveAgent a : grows_by 0 (SaveAgent a).
Proof. apply grows_frame. apply SaveAgent_messages. Qed.

Lemma grows_ParseRequest r body traceID : grows_by 0 (ParseRequest r body traceID).
Proof.
  apply grows_frame. intros s.
  rewrite (proj1 (ParseRequest_run r body traceID s)). cbn. apply app_nil_r.
Qed.

Lemma grows_ParseResponse resp body requestMsg duration :
  grows_by 0 (ParseResponse resp body requestMsg duration).
Proof.
  apply grows_frame. intros s.
  rewrite (proj1 (ParseResponse_run resp body requestMsg duration s)).
  cbn. apply app_nil_r.
Qed.

Lemma grows_ParseAgentCard body url : grows_by 0 (ParseAgentCard body url).
Proof.
  apply grows_frame. intros s. unfold ParseAgentCard.
  destruct (json_Unmarshal_AgentCard body); reflexivity.
Qed.

Lemma grows_discover_agent p r targetURL respBody :
  grows_by 0 (discover_agent p r targetURL respBody).
Proof.
  apply grows_frame. intros s. apply discover_agent_frame.
Qed.

Lemma grows_capture_request p r body : grows_by 1 (capture_request p r body).
Proof.
  unfold capture_request.
  destruct (_ || _); [| apply (grows_weaken 0); [lia | apply grows_ret]].
  apply (grows_bind 0 1); [apply grows_ParseRequest |]. intros reqMsg.
  apply (grows_bind 1 0); [apply grows_SaveMessage |]. intros saved.
  apply (grows_bind 0 0); [apply grows_notify_message |]. intros _.
  apply grows_ret.
Qed.

Lemma grows_capture_failure p targetURL startTime err reqMsg :
  grows_by 1 (capture_failure p targetURL startTime err reqMsg).
Proof.
  unfold capture_failure.
  destruct reqMsg as [reqMsg |]; [| apply (grows_weaken 0); [lia | apply grows_ret]].
  apply (grows_bind 0 1); [apply grows_time_Now |]. intros now.
  apply (grows_bind 0 1); [apply grows_time_Since |]. intros since.
  apply (grows_bind 1 0); [apply grows_SaveMessage |]. intros saved.
  apply grows_notify_message.
Qed.

Lemma grows_capture_response p r targetURL resp respBody duration reqMsg :
  grows_by 1 (capture_response p r targetURL resp respBody duration reqMsg).
Proof.
  unfold capture_response.
  destruct reqMsg as [reqMsg |]; [| apply (grows_weaken 0); [lia | apply grows_ret]].
  apply (grows_bind 0 1); [apply grows_ParseResponse |]. intros respMsg.
  apply (grows_bind 1 0); [apply grows_SaveMessage |]. intros saved.
  apply (grows_bind 0 0); [apply grows_notify_message |]. intros _.
  apply (grows_discover_agent p r targetURL respBody).
Qed.

Lemma grows_handleProxy p x : grows_by 2 (handleProxy p x).
Proof.
  unfold handleProxy.
  destruct (String.eqb _ "CONNECT"); [apply (grows_weaken 0); [lia | apply grows_ret] |].
  destruct (reqBody x) as [body |]; [| apply (grows_weaken 0); [lia | apply grows_ret]].
  apply (grows_bind 1 1); [apply grows_capture_request |]. intros reqMsg.
  apply (grows_bind 0 1); [apply grows_time_Now |]. intros startTime.
  destruct (newRequestErr x); [apply (grows_weaken 0); [lia | apply grows_ret] |].
  destruct (upstream x) as [err | resp respBody].
  - apply (grows_bind 1 0); [apply grows_capture_failure |]. intros _. apply grows_ret.
  - apply (grows_bind 0 1); [apply grows_time_Since |]. intros duration.
    destruct respBody as [respBody |]; [| apply (grows_weaken 0); [lia | apply grows_ret]].
    apply (grows_bind 1 0); [apply grows_capture_response |]. intros _. apply grows_ret.
Qed.

(** X13: whatever requests the proxy serves, from whatever state: the
    rows of the messages table stay where they are and as they are, at
    most two rows are added after them for each request served, and
    identifiers that were distinct stay distinct. *)
Theorem serve_appends (p : Proxy.t) (xs : list Inbound) (s : Sys) :
  exists rows,
    Store.messages (db (snd (serve p xs s))) = Store.messages (db s) ++ rows
    /\ (length rows <= 2 * length xs)%nat
    /\ (NoDup (map Message.ID (Store.messages (db s))) ->
        NoDup (map Message.ID (Store.messages (db (snd (serve p xs s)))))).
Proof.
  revert s.
  assert (H : grows_by (2 * length xs) (serve p xs)).
  { induction xs as [| x xs IH]; [apply grows_ret |].
    cbn [serve length].
    replace (2 * S (length xs))%nat with (2 + (2 * length xs + 0))%nat by lia.
    apply grows_bind; [apply grows_handleProxy |]. intros reply.
    apply grows_bind; [exact IH |]. intros replies. apply grows_ret. }
  exact H.
Qed.

End Growth.

(** ** Timestamps and durations *)

Lemma time_Sub_bounds (t u : Z) : u <= t -> 0 <= time_Sub t u <= t - u.
Proof.
  intros H. unfold time_Sub.
  assert (H63 : 2 ^ 63 = 9223372036854775808) by reflexivity.
  destruct (Z.ltb_spec (t - u) (- 2 ^ 63)); [lia |].
  destruct (Z.ltb_spec (2 ^ 63 - 1) (t - u)); lia.
Qed.

Lemma Milliseconds_bounds (d : Z) :
  0 <= d -> 0 <= Milliseconds d /\ Milliseconds d * 1000000 <= d.
Proof.
  intros H. unfold Milliseconds. rewrite Z.quot_div_nonneg by lia. split.
  - apply Z.div_pos; lia.
  - rewrite Z.mul_comm. apply Z.mul_div_le. lia.
Qed.

Section Timing.
Context {lib : GoLib}.

(** X14: with a clock that never goes back, a captured request whose
    upstream call fails or is answered leaves a request row and a
    response row such that the response is not stamped before the
    request and its duration is not negative; when upstream answered,
    the duration, in milliseconds, is no longer than the time between
    the two stamps. *)
Theorem exchange_timing (p : Proxy.t) (x : Inbound) (s : Sys) (body : string) :
  http.Method (request x) <> "CONNECT" ->
  reqBody x = Some body ->
  IsA2ARequest (request x) || (0 <? String.length body)%nat = true ->
  newRequestErr x = None ->
  (forall resp, upstream x <> DoResponse resp None) ->
  has_message_id (uuid_source s (uuid_calls s)) (Store.messages (db s)) = false ->
  has_message_id (uuid_source s (S (uuid_calls s))) (Store.messages (db s)) = false ->
  uuid_source s (uuid_calls s) <> uuid_source s (S (uuid_calls s)) ->
  monotone (clock s) ->
  exists reqMsg respMsg,
    Store.messages (db (snd (handleProxy p x s)))
    = Store.messages (db s) ++ [reqMsg; respMsg]
    /\ Message.Timestamp reqMsg <= Message.Timestamp respMsg
    /\ 0 <= Message.DurationMs respMsg
    /\ (forall resp respBody, upstream x = DoResponse resp (Some respBody) ->
        Message.DurationMs respMsg * 1000000
        <= Message.Timestamp respMsg - Message.Timestamp reqMsg).
Proof.
  intros Hmethod Hbody Hcap Hnew Hread Hid0 Hid1 Hne Hmono.
  pose proof (proj1 (ParseRequest_fields (request x) body (Proxy.traceID p) s)) as Hts.
  cbv zeta in Hts.
  set (c := clock_calls s) in *.
  assert (H01 : clock s c <= clock s (S c)) by (apply Hmono; lia).
  assert (H12 : clock s (S c) <= clock s (S (S c))) by (apply Hmono; lia).
  assert (H23 : clock s (S (S c)) <= clock s (S (S (S c)))) by (apply Hmono; lia).
  destruct (upstream x) as [err | resp [respBody |]] eqn:Hup.
  - rewrite (handleProxy_failure p x s body err Hmethod Hbody Hcap Hnew Hup Hid0 Hid1 Hne).
    eexists. eexists. cbn [snd advance db Store.messages Store.set_messages].
    split; [reflexivity |].
    cbn [Message.Timestamp Message.DurationMs Message.set_ID Nat.add]. fold c.
    split; [rewrite Hts; lia |]. split; [| discriminate].
    apply Milliseconds_bounds, time_Sub_bounds. lia.
  - pose proof (handleProxy_success_state p x s body respBody resp Hmethod Hbody Hcap
                  Hnew Hup Hid0 Hid1 Hne) as Hs.
    cbv zeta in Hs. rewrite Hs. clear Hs.
    rewrite (proj1 (discover_agent_frame _ _ _ _ _)).
    match goal with
    | |- context [ParseResponse ?a ?b ?m ?d ?st] =>
        destruct (ParseResponse_run a b m d st)
          as (_ & _ & _ & _ & Hrts & _ & _ & _ & _ & _ & Hrd);
        cbv zeta in Hrts, Hrd;
        set (parsed := fst (ParseResponse a b m d st)) in *
    end.
    cbn [clock clock_calls advance Nat.add] in Hrts, Hrd. fold c in Hrts, Hrd.
    eexists. eexists. cbn [advance db Store.messages Store.set_messages].
    split; [reflexivity |].
    cbn [Message.Timestamp Message.DurationMs Message.set_ID].
    rewrite Hts, Hrts, Hrd.
    pose proof (time_Sub_bounds (clock s (S (S c))) (clock s (S c)) H12) as Hsub.
    pose proof (Milliseconds_bounds _ (proj1 Hsub)) as Hms.
    split; [lia |]. split; [lia |]. intros _ _ _. lia.
  - exfalso. apply (Hread resp). reflexivity.
Qed.

End Timing.

(** The sample call against an upstream that answers, with the sample
    clock: the response row is stamped 21 ms after the request row. *)
Lemma exchange_timing_witness :
  exists reqMsg respMsg,
    Store.messages (db (snd (@handleProxy sample_lib sample_proxy call_answered
                               sample_sys))) = [reqMsg; respMsg]
    /\ Message.Timestamp reqMsg <= Message.Timestamp respMsg
    /\ 0 <= Message.DurationMs respMsg.
Proof.
  destruct (@exchange_timing sample_lib sample_proxy call_answered sample_sys sample_call)
    as (reqMsg & respMsg & Hm & Hts & Hd & _).
  - vm_compute. discriminate.
  - reflexivity.
  - vm_compute. reflexivity.
  - reflexivity.
  - intros resp. cbn. discriminate.
  - vm_compute. reflexivity.
  - vm_compute. reflexivity.
  - vm_compute. discriminate.
  - intros i j Hij. cbn [clock sample_sys]. lia.
  - exists reqMsg, respMsg. split; [exact Hm |]. split; assumption.
Defined.

(** ** Agent discovery *)

Section Discovery.
Context {lib : GoLib}.

Lemma keeps_ret {A} (a : A) : keeps_agents (ret a).
Proof. intros s. split; reflexivity. Qed.

Lemma keeps_bind {A B} (c : M A) (k : A -> M B) :
  keeps_agents c -> (forall a, keeps_agents (k a)) -> keeps_agents (bind c k).
Proof.
  intros Hc Hk s. unfold bind.
  destruct (Hc s) as (H1 & H2). destruct (c s) as [a s1]. cbn [fst snd] in *.
  destruct (Hk a s1) as (H3 & H4). split; congruence.
Qed.

Lemma keeps_bind_ret {A B} (a : A) (k : A -> M B) :
  keeps_agents (k a) -> keeps_agents (bind (ret a) k).
Proof. intros H s. exact (H s). Qed.

Lemma keeps_SaveMessage msg : keeps_agents (SaveMessage msg).
Proof.
  intros s. unfold SaveMessage, bind.
  destruct (String.eqb (Message.ID msg) EmptyString);
    unfold uuid_New, get_db, put_db, ret; cbn [fst snd db];
    destruct (has_message_id _ _); split; reflexivity.
Qed.

Lemma keeps_ParseRequest r body traceID : keeps_agents (ParseRequest r body traceID).
Proof.
  intros s. rewrite (proj1 (ParseRequest_run r body traceID s)). split; reflexivity.
Qed.

Lemma keeps_ParseResponse resp body requestMsg duration :
  keeps_agents (ParseResponse resp body requestMsg duration).
Proof.
  intros s. rewrite (proj1 (ParseResponse_run resp body requestMsg duration s)).
  split; reflexivity.
Qed.

Lemma keeps_capture_request p r body : keeps_agents (capture_request p r body).
Proof.
  unfold capture_request. destruct (_ || _); [| apply keeps_ret].
  apply keeps_bind; [apply keeps_ParseRequest |]. intros reqMsg.
  apply keeps_bind; [apply keeps_SaveMessage |]. intros saved.
  apply keeps_bind; [intros s; split; reflexivity |]. intros _. apply keeps_ret.
Qed.

Lemma keeps_capture_failure p targetURL startTime err reqMsg :
  keeps_agents (capture_failure p targetURL startTime err reqMsg).
Proof.
  unfold capture_failure. destruct reqMsg as [reqMsg |]; [| apply keeps_ret].
  apply keeps_bind; [intros s; split; reflexivity |]. intros now.
  apply keeps_bind; [intros s; split; reflexivity |]. intros since.
  apply keeps_bind; [apply keeps_SaveMessage |]. intros saved.
  intros s; split; reflexivity.
Qed.

(** The agent-card block on a body that decodes, under a card path. *)
Lemma discover_agent_run p r targetURL respBody card s :
  GoStrings.Contains (http.Path (http.Url r)) agent_card_path = true ->
  json_Unmarshal_AgentCard respBody = Some card ->
  let agent := agent_of_card EmptyString targetURL card (clock s (clock_calls s)) in
  let s1 := advance 0 1 [] [] s in
  discover_agent p r targetURL respBody s
  = notify_agent (Proxy.onAgent p) (fst (fst (SaveAgent agent s1)))
      (snd (SaveAgent agent s1)).
Proof.
  intros Hpath Hcard agent s1. unfold discover_agent, ParseAgentCard.
  rewrite Hpath, Hcard. unfold bind. rewrite time_Now_run. unfold ret.
  fold s1. fold (agent_of_card EmptyString targetURL card (clock s (clock_calls s))).
  fold agent. destruct (SaveAgent agent s1) as [saved s2]. reflexivity.
Qed.

(** The agent-card block when the path is not a card path or the body
    does not decode. *)
Lemma discover_agent_none p r targetURL respBody :
  GoStrings.Contains (http.Path (http.Url r)) agent_card_path = false
  \/ json_Unmarshal_AgentCard respBody = None ->
  keeps_agents (discover_agent p r targetURL respBody).
Proof.
  intros H s. unfold discover_agent, ParseAgentCard.
  destruct (GoStrings.Contains _ _); [| split; reflexivity].
  destruct H as [H | H]; [discriminate |]. rewrite H. split; reflexivity.
Qed.

Lemma capture_response_unfold p r targetURL resp respBody duration reqMsg :
  capture_response p r targetURL resp respBody duration (Some reqMsg)
  = bind (ParseResponse resp respBody reqMsg duration) (fun respMsg =>
      bind (SaveMessage respMsg) (fun saved =>
        bind (notify_message (Proxy.onMessage p) (fst saved)) (fun _ =>
          discover_agent p r targetURL respBody))).
Proof. reflexivity. Qed.

(** Either a traversal leaves the agents alone, or it went all the way
    to an upstream answer, under a card path, whose body decodes. *)
Lemma handleProxy_agents_cases (p : Proxy.t) (x : Inbound) (s : Sys) :
  (Store.agents (db (snd (handleProxy p x s))) = Store.agents (db s)
   /\ published_agents (snd (handleProxy p x s)) = published_agents s)
  \/ exists body resp respBody card,
       http.Method (request x) <> "CONNECT"
       /\ reqBody x = Some body
       /\ IsA2ARequest (request x) || (0 <? String.length body)%nat = true
       /\ newRequestErr x = None
       /\ upstream x = DoResponse resp (Some respBody)
       /\ GoStrings.Contains (http.Path (http.Url (request x))) agent_card_path = true
       /\ json_Unmarshal_AgentCard respBody = Some card.
Proof.
  unfold handleProxy.
  destruct (String.eqb_spec (http.Method (request x)) "CONNECT") as [E | Hmethod].
  { left. apply (keeps_ret Tunnel s). }
  destruct (reqBody x) as [body |] eqn:Hbody; [| left; apply (keeps_ret _ s)].
  destruct (newRequestErr x) as [e |] eqn:Hnew.
  { left. revert s.
    apply keeps_bind; [apply keeps_capture_request |]. intros reqMsg.
    apply keeps_bind; [intros s; split; reflexivity |]. intros ?. apply keeps_ret. }
  destruct (upstream x) as [err | resp [respBody |]] eqn:Hup.
  - left. revert s.
    apply keeps_bind; [apply keeps_capture_request |]. intros reqMsg.
    apply keeps_bind; [intros s; split; reflexivity |]. intros ?.
    apply keeps_bind; [apply keeps_capture_failure |]. intros ?. apply keeps_ret.
  - destruct (IsA2ARequest (request x) || (0 <? String.length body)%nat) eqn:Hcap.
    + assert (Hno : GoStrings.Contains (http.Path (http.Url (request x))) agent_card_path
                    = false
                    \/ json_Unmarshal_AgentCard respBody = None
                    \/ exists card,
                         GoStrings.Contains (http.Path (http.Url (request x)))
                           agent_card_path = true
                         /\ json_Unmarshal_AgentCard respBody = Some card).
      { destruct (GoStrings.Contains _ _); [| auto].
        destruct (json_Unmarshal_AgentCard respBody) as [card |]; eauto. }
      destruct Hno as [Hno | [Hno | (card & Hpath & Hcard)]].
      * left. revert s.
        apply keeps_bind; [apply keeps_capture_request |]. intros reqMsg.
        apply keeps_bind; [intros s; split; reflexivity |]. intros ?.
        apply keeps_bind; [intros s; split; reflexivity |]. intros duration.
        apply keeps_bind; [| intros ?; apply keeps_ret].
        destruct reqMsg as [reqMsg |]; [| apply keeps_ret].
        rewrite capture_response_unfold.
        apply keeps_bind; [apply keeps_ParseResponse |]. intros respMsg.
        apply keeps_bind; [apply keeps_SaveMessage |]. intros saved.
        apply keeps_bind; [intros s; split; reflexivity |]. intros ?.
        apply discover_agent_none. left. exact Hno.
      * left. revert s.
        apply keeps_bind; [apply keeps_capture_request |]. intros reqMsg.
        apply keeps_bind; [intros s; split; reflexivity |]. intros ?.
        apply keeps_bind; [intros s; split; reflexivity |]. intros duration.
        apply keeps_bind; [| intros ?; apply keeps_ret].
        destruct reqMsg as [reqMsg |]; [| apply keeps_ret].
        rewrite capture_response_unfold.
        apply keeps_bind; [apply keeps_ParseResponse |]. intros respMsg.
        apply keeps_bind; [apply keeps_SaveMessage |]. intros saved.
        apply keeps_bind; [intros s; split; reflexivity |]. intros ?.
        apply discover_agent_none. right. exact Hno.
      * right. exists body, resp, respBody, card. repeat split; assumption.
    + left. unfold capture_request. rewrite Hcap. revert s.
      apply keeps_bind_ret.
      apply keeps_bind; [intros s; split; reflexivity |]. intros ?.
      apply keeps_bind; [intros s; split; reflexivity |]. intros duration.
      apply keeps_bind; [apply keeps_ret | intros ?; apply keeps_ret].
  - left. revert s.
    apply keeps_bind; [apply keeps_capture_request |]. intros reqMsg.
    apply keeps_bind; [intros s; split; reflexivity |]. intros ?.
    apply keeps_bind; [intros s; split; reflexivity |]. intros duration.
    apply keeps_ret.
Qed.

(** X15: the agents table changes, or OnAgent is called, only when a
    captured request under a path that contains the agent-card path was
    answered by upstream with a body that decodes as an agent card. *)
Theorem agents_only_from_cards (p : Proxy.t) (x : Inbound) (s : Sys) :
  Store.agents (db (snd (handleProxy p x s))) <> Store.agents (db s)
  \/ published_agents (snd (handleProxy p x s)) <> published_agents s ->
  exists body resp respBody card,
    http.Method (request x) <> "CONNECT"
    /\ reqBody x = Some body
    /\ IsA2ARequest (request x) || (0 <? String.length body)%nat = true
    /\ newRequestErr x = None
    /\ upstream x = DoResponse resp (Some respBody)
    /\ GoStrings.Contains (http.Path (http.Url (request x))) agent_card_path = true
    /\ json_Unmarshal_AgentCard respBody = Some card.
Proof.
  intros H. destruct (handleProxy_agents_cases p x s) as [(H1 & H2) | Hcard].
  - destruct H as [H | H]; contradiction.
  - exact Hcard.
Qed.

(** X16: a captured request under an agent-card path that upstream
    answers, with whatever status, with a body that decodes as a card:
    the Agent made of the card, with the target URL as its URL, the next
    identifier and the time of the next clock reading, is handed to
    OnAgent when there is one, and the agents table is what SaveAgent
    makes of it: the row of that URL updated when there is one, whatever
    the identifier; otherwise unchanged when the identifier is taken,
    and a new last row when it is not. *)
Theorem agent_card_discovery (p : Proxy.t) (x : Inbound) (s : Sys)
    (body respBody : string) (resp : http.Response) (card : AgentCard.t) :
  http.Method (request x) <> "CONNECT" ->
  reqBody x = Some body ->
  IsA2ARequest (request x) || (0 <? String.length body)%nat = true ->
  newRequestErr x = None ->
  upstream x = DoResponse resp (Some respBody) ->
  has_message_id (uuid_source s (uuid_calls s)) (Store.messages (db s)) = false ->
  has_message_id (uuid_source s (S (uuid_calls s))) (Store.messages (db s)) = false ->
  uuid_source s (uuid_calls s) <> uuid_source s (S (uuid_calls s)) ->
  GoStrings.Contains (http.Path (http.Url (request x))) agent_card_path = true ->
  json_Unmarshal_AgentCard respBody = Some card ->
  let s' := snd (handleProxy p x s) in
  let agent := agent_of_card (uuid_source s (2 + uuid_calls s)) (target_url (request x))
                 card (clock s (4 + clock_calls s)) in
  let rows := Store.agents (db s) in
  published_agents s'
  = published_agents s ++ (if Proxy.onAgent p then [agent] else [])
  /\ Store.agents (db s')
     = if has_agent_url (Agent.URL agent) rows then upsert_agent agent rows
       else if has_agent_id (Agent.ID agent) rows then rows
       else rows ++ [agent].
Proof.
  intros Hmethod Hbody Hcap Hnew Hup Hid0 Hid1 Hne Hpath Hcard s' agent rows.
  pose proof (handleProxy_success_state p x s body respBody resp Hmethod Hbody Hcap
                Hnew Hup Hid0 Hid1 Hne) as Hs.
  cbv zeta in Hs. subst s'. rewrite Hs. clear Hs.
  rewrite (discover_agent_run p (request x) (target_url (request x)) respBody card _
             Hpath Hcard).
  cbv zeta. rewrite advance_advance.
  cbn [clock clock_calls advance Nat.add app].
  match goal with
  | |- context [SaveAgent ?a ?st] =>
      destruct (SaveAgent_cases a st) as (Hres & _ & _ & Hpub & Hcases);
      cbv zeta in Hres, Hcases;
      destruct (SaveAgent a st) as [[saved ok] s2]
  end.
  cbn [fst snd] in *.
  cbn [agent_of_card Agent.ID Agent.URL String.eqb uuid_source uuid_calls advance db
       Store.agents Store.set_messages published_agents Nat.add] in Hres, Hcases, Hpub.
  assert (Hagent : saved = agent) by (rewrite Hres; reflexivity).
  fold rows in Hcases.
  replace (Agent.set_ID (uuid_source s (S (S (uuid_calls s))))
             (agent_of_card EmptyString (target_url (request x)) card
                (clock s (S (S (S (S (clock_calls s))))))))
    with agent in Hcases by reflexivity.
  unfold notify_agent. cbn [snd db published_agents]. rewrite Hpub, Hagent.
  split.
  - destruct (Proxy.onAgent p); [reflexivity | rewrite app_nil_r; reflexivity].
  - change (Agent.ID agent) with (uuid_source s (S (S (uuid_calls s)))).
    change (Agent.URL agent) with (target_url (request x)).
    destruct Hcases as [(-> & _ & ->) | [(-> & -> & _ & ->) | (-> & -> & _ & ->)]];
      reflexivity.
Qed.

(** X17: a captured request for which no upstream answer was read,
    because the outgoing request could not be built or because reading
    the body of the answer failed: the caller gets a 500, and the
    request is the only row, and the only Message sent, of the
    traversal; no response row follows it. *)
Theorem request_without_response (p : Proxy.t) (x : Inbound) (s : Sys) (body : string) :
  http.Method (request x) <> "CONNECT" ->
  reqBody x = Some body ->
  IsA2ARequest (request x) || (0 <? String.length body)%nat = true ->
  has_message_id (uuid_source s (uuid_calls s)) (Store.messages (db s)) = false ->
  newRequestErr x <> None
  \/ (exists resp, upstream x = DoResponse resp None) ->
  let reqMsg := Message.set_ID (uuid_source s (uuid_calls s))
                  (fst (ParseRequest (request x) body (Proxy.traceID p) s)) in
  let result := handleProxy p x s in
  Store.messages (db (snd result)) = Store.messages (db s) ++ [reqMsg]
  /\ published (snd result)
     = published s ++ (if Proxy.onMessage p then [reqMsg] else [])
  /\ Message.Direction reqMsg = "request"
  /\ exists text, fst result = http_Error text 500.
Proof.
  intros Hmethod Hbody Hcap Hid0 Hwhy reqMsg result.
  assert (Hdir : Message.Direction reqMsg = "request").
  { subst reqMsg. cbn [Message.set_ID Message.Direction].
    apply (ParseRequest_run (request x) body (Proxy.traceID p) s). }
  subst result. unfold handleProxy.
  apply String.eqb_neq in Hmethod. rewrite Hmethod, Hbody.
  unfold bind. rewrite (capture_request_run p _ body s Hcap Hid0).
  fold reqMsg. rewrite time_Now_run, advance_advance.
  destruct (newRequestErr x) as [e |].
  - unfold ret. cbn [fst snd advance db Store.messages Store.set_messages published app].
    split; [reflexivity |].
    split; [destruct (Proxy.onMessage p); rewrite ?app_nil_r; reflexivity |].
    split; [exact Hdir |]. eexists. reflexivity.
  - destruct Hwhy as [Hwhy | (resp & Hup)]; [contradiction |].
    rewrite Hup, time_Since_run. unfold ret.
    cbn [fst snd advance db Store.messages Store.set_messages published app].
    rewrite !app_nil_r.
    split; [reflexivity |].
    split; [destruct (Proxy.onMessage p); rewrite ?app_nil_r; reflexivity |].
    split; [exact Hdir |]. eexists. reflexivity.
Qed.

End Discovery.

(** The captured card request against an upstream that answers with the
    sample result: the agents table changes, so the request was a card
    request whose answer decoded. *)
Lemma agents_only_from_cards_witness :
  exists body resp respBody card,
    http.Method (request card_answered) <> "CONNECT"
    /\ reqBody card_answered = Some body
    /\ IsA2ARequest (request card_answered) || (0 <? String.length body)%nat = true
    /\ newRequestErr card_answered = None
    /\ upstream card_answered = DoResponse resp (Some respBody)
    /\ GoStrings.Contains (http.Path (http.Url (request card_answered))) agent_card_path
       = true
    /\ @json_Unmarshal_AgentCard sample_lib respBody = Some card.
Proof.
  apply (@agents_only_from_cards sample_lib sample_proxy card_answered sample_sys).
  left. vm_compute. discriminate.
Defined.

(** The captured card request, answered with the sample result: one
    agent is in the table, with the URL the request went to. On the
    table of two agents, when the next identifier is the one of the row
    of that URL, that row is updated. *)
Lemma agent_card_discovery_witness :
  map Agent.URL
    (Store.agents (db (snd (@handleProxy sample_lib sample_proxy card_answered
                              sample_sys))))
  = ["http://agent.local/.well-known/agent.json"]
  /\ map (fun a => (Agent.ID a, Agent.Name a))
       (Store.agents (db (snd (@handleProxy sample_lib sample_proxy card_answered
                                 sample_sys_taken))))
     = [("uuid-7", EmptyString); ("uuid-9", "Eve")].
Proof.
  split; [| rewrite (proj2 (@agent_card_discovery sample_lib sample_proxy card_answered
                    sample_sys_taken
                    EmptyString sample_result upstream_200
                    (AgentCard.mk EmptyString EmptyString EmptyString EmptyString [])
                    ltac:(vm_compute; discriminate) eq_refl
                    ltac:(vm_compute; reflexivity) eq_refl eq_refl
                    ltac:(vm_compute; reflexivity) ltac:(vm_compute; reflexivity)
                    ltac:(vm_compute; discriminate)
                    ltac:(vm_compute; reflexivity) ltac:(vm_compute; reflexivity)));
            vm_compute; reflexivity].
  rewrite (proj2 (@agent_card_discovery sample_lib sample_proxy card_answered sample_sys
                    EmptyString sample_result upstream_200
                    (AgentCard.mk EmptyString EmptyString EmptyString EmptyString [])
                    ltac:(vm_compute; discriminate) eq_refl
                    ltac:(vm_compute; reflexivity) eq_refl eq_refl
                    ltac:(vm_compute; reflexivity) ltac:(vm_compute; reflexivity)
                    ltac:(vm_compute; discriminate)
                    ltac:(vm_compute; reflexivity) ltac:(vm_compute; reflexivity))).
  vm_compute. reflexivity.
Defined.

(** The sample call when the outgoing request cannot be built: the
    request is the only row. *)
Lemma request_without_response_witness :
  length (Store.messages (db (snd (@handleProxy sample_lib sample_proxy call_unbuildable
                                     sample_sys)))) = 1%nat.
Proof.
  rewrite (proj1 (@request_without_response sample_lib sample_proxy call_unbuildable
                    sample_sys sample_call
                    ltac:(vm_compute; discriminate) eq_refl
                    ltac:(vm_compute; reflexivity) ltac:(vm_compute; reflexivity)
                    ltac:(left; discriminate))).
  reflexivity.
Defined.

(** ** The analyzer *)

Section AnalyzerRulesMore.
Context {lib : GoLib}.

Lemma failed_checkError (msg : Message.t) :
  String.eqb (Message.Error msg) EmptyString && (Message.StatusCode msg <? 400)
  = negb (failed msg).
Proof.
  unfold failed. destruct (String.eqb _ _); cbn; [| reflexivity].
  destruct (Z.ltb_spec (Message.StatusCode msg) 400);
    destruct (Z.leb_spec 400 (Message.StatusCode msg)); try reflexivity; lia.
Qed.

Lemma checkError_value a msg s :
  fst (checkError a msg s) =
  if failed msg
  then (Analyzer.mk (Analyzer.traceID a) (Analyzer.slowThreshold a)
          (Analyzer.onInsight a) (Analyzer.requestTimes a) (Analyzer.methodCounts a)
          (increment (Analyzer.agentErrors a) (Message.FromAgent msg)),
        Some (Insight.mk (uuid_source s (uuid_calls s)) (Analyzer.traceID a)
                (Message.ID msg) (error_severity msg) "error" (formatErrorTitle msg)
                (formatErrorDetails msg) (clock s (clock_calls s))))
  else (a, None).
Proof.
  unfold checkError. rewrite failed_checkError.
  destruct (failed msg); reflexivity.
Qed.

Lemma checkProtocolViolation_value a msg s :
  fst (checkProtocolViolation a msg s) =
  match protocol_violations msg with
  | [] => None
  | _ => Some (Insight.mk (uuid_source s (uuid_calls s)) (Analyzer.traceID a)
                 (Message.ID msg) "warning" "protocol_violation"
                 "A2A Protocol Violation" (Join (protocol_violations msg) "; ")
                 (clock s (clock_calls s)))
  end.
Proof.
  unfold checkProtocolViolation. cbv zeta.
  destruct (protocol_violations msg); reflexivity.
Qed.

Lemma note_request_response a msg :
  Message.Direction msg = "response" -> note_request a msg = a.
Proof. intros H. unfold note_request. rewrite H. reflexivity. Qed.

Lemma AnalyzeMessage_agentErrors a msg s :
  Analyzer.agentErrors (fst (fst (AnalyzeMessage a msg s))) =
  if is_response msg && failed msg
  then increment (Analyzer.agentErrors a) (Message.FromAgent msg)
  else Analyzer.agentErrors a.
Proof.
  assert (Hnote : Analyzer.agentErrors (note_request a msg) = Analyzer.agentErrors a).
  { unfold note_request. destruct (String.eqb _ _); reflexivity. }
  unfold AnalyzeMessage, response_checks, bind, is_response.
  destruct (String.eqb (Message.Direction msg) "response").
  - destruct (checkSlowResponse (note_request a msg) msg s) as [slow s1].
    pose proof (checkError_value (note_request a msg) msg s1) as He.
    destruct (checkError (note_request a msg) msg s1) as [[a' err] s2].
    cbn [fst snd] in He |- *.
    destruct (checkProtocolViolation a' msg s2) as [viol s3].
    unfold ret. cbn [fst snd].
    destruct (checkRetryLoop a' msg s3) as [retry s4].
    destruct (save_and_broadcast _ _ s4) as [saved s5]. cbn [fst snd andb].
    destruct (failed msg); injection He as -> _; cbn [Analyzer.agentErrors]; congruence.
  - unfold ret. cbn [fst snd].
    destruct (checkRetryLoop (note_request a msg) msg s) as [retry s4].
    destruct (save_and_broadcast _ _ s4) as [saved s5]. cbn [fst snd andb]. exact Hnote.
Qed.

(** The error insights of a response, up to the identifier. *)
Lemma error_insights a msg s :
  Message.Direction msg = "response" ->
  exists s1,
    Forall2 same_but_ID
      (option_list (snd (fst (checkError a msg s1))))
      (List.filter (is_category "error") (snd (fst (AnalyzeMessage a msg s)))).
Proof.
  intros Hdir.
  destruct (AnalyzeMessage_result a msg s)
    as (slow & err & viol & retry & s1 & s2 & s3 & Hchecks & Hretry & _ & _ & Hall).
  rewrite Hdir in Hchecks. simpl in Hchecks.
  destruct Hchecks as (Hslow & Herr & Hviol).
  rewrite (note_request_response a msg Hdir) in *.
  apply (filter_category_same "error") in Hall.
  rewrite !filter_append_some in Hall. simpl List.filter at 1 in Hall.
  rewrite (filter_other_category _ slow "slow_response") in Hall;
    [| intros i Hi; subst slow; eapply slow_category; exact Hi | discriminate].
  rewrite (filter_other_category _ viol "protocol_violation") in Hall;
    [| intros i Hi; subst viol; eapply checkProtocolViolation_result; exact Hi
     | discriminate].
  rewrite (filter_other_category _ retry "retry_loop") in Hall;
    [| intros i Hi; subst retry; eapply retry_category; exact Hi | discriminate].
  rewrite !app_nil_r in Hall. simpl app in Hall.
  exists s1. subst err.
  destruct (snd (fst (checkError a msg s1))) as [i |] eqn:E; simpl in Hall |- *.
  - unfold is_category in Hall.
    rewrite (proj2 (proj2 (proj2 (checkError_result a msg s1))) i E) in Hall.
    simpl in Hall. exact Hall.
  - exact Hall.
Qed.

(** X18: the error rule: a response that failed (an error text, or a
    status of 400 or more) yields exactly one insight of category error,
    tied to the Message and to the trace, of severity warning when the
    status is 400 to 499 and error otherwise (so also for a failure with
    no status), and adds one to the count of errors of the agent the
    response is from; a response that did not fail yields no such
    insight and leaves the counts alone. *)
Theorem error_insight_rule (a : Analyzer.t) (msg : Message.t) (s : Sys) :
  Message.Direction msg = "response" ->
  let result := AnalyzeMessage a msg s in
  let errors := List.filter (is_category "error") (snd (fst result)) in
  if failed msg
  then (exists i, errors = [i]
          /\ Insight.Type_ i = error_severity msg
          /\ Insight.MessageID i = Message.ID msg
          /\ Insight.TraceID i = Analyzer.traceID a
          /\ Insight.Title i = formatErrorTitle msg
          /\ Insight.Details i = formatErrorDetails msg)
       /\ count_of (Analyzer.agentErrors (fst (fst result))) (Message.FromAgent msg)
          = wrap64 (count_of (Analyzer.agentErrors a) (Message.FromAgent msg) + 1)
  else errors = []
       /\ Analyzer.agentErrors (fst (fst result)) = Analyzer.agentErrors a.
Proof.
  intros Hdir result errors.
  destruct (error_insights a msg s Hdir) as (s1 & H).
  fold result in H. fold errors in H.
  pose proof (AnalyzeMessage_agentErrors a msg s) as Hcount.
  fold result in Hcount. unfold is_response in Hcount.
  rewrite Hdir in Hcount. cbn [String.eqb Ascii.eqb Bool.eqb andb] in Hcount.
  rewrite checkError_value in H.
  destruct (failed msg); cbn [fst snd option_list] in H.
  - apply Forall2_one_l in H. destruct H as (i & Hi & Hsame).
    destruct Hsame as (Htr & Hm & Ht & _ & Htitle & Hdet & _).
    cbn in Htr, Hm, Ht, Htitle, Hdet.
    split.
    + exists i. split; [exact Hi |]. repeat split; symmetry; assumption.
    + rewrite Hcount, count_of_increment, String.eqb_refl. reflexivity.
  - apply Forall2_nil_l in H. split; [exact H | exact Hcount].
Qed.

End AnalyzerRulesMore.

(** The error rule at a response of status 500. *)
Lemma error_insight_rule_witness :
  exists i,
    List.filter (is_category "error")
      (snd (fst (@AnalyzeMessage sample_lib sample_analyzer (response_with_status 500)
                   sample_sys))) = [i]
    /\ Insight.Type_ i = "error".
Proof.
  pose proof (@error_insight_rule sample_lib sample_analyzer (response_with_status 500)
                sample_sys eq_refl) as H.
  cbv zeta in H.
  change (failed (response_with_status 500)) with true in H.
  destruct H as ((i & Hi & Ht & _) & _).
  exists i. split; [exact Hi | exact Ht].
Defined.

Section ProtocolRule.
Context {lib : GoLib}.

Lemma protocol_violations_nil (msg : Message.t) :
  protocol_violations msg = [] <-> compliant msg.
Proof.
  unfold protocol_violations, compliant.
  destruct (String.eqb_spec (Message.Body msg) EmptyString) as [E | E].
  { split; auto. }
  destruct (json_Unmarshal_object (Message.Body msg)) as [keys |]; [| tauto].
  destruct (bool_decide_reflect ("jsonrpc" ∈ keys)) as [Hj | Hj]; cbn [app].
  - destruct (bool_decide_reflect ("id" ∈ keys)) as [Hi | Hi]; [tauto |].
    destruct (Z.leb_spec 200 (Message.StatusCode msg));
      destruct (Z.ltb_spec (Message.StatusCode msg) 300); cbn [andb];
      try (split; [intros _; right; split; [exact Hj | right; left; lia] | reflexivity]).
    destruct (bool_decide_reflect ("result" ∈ keys)) as [Hr | Hr].
    + split; [discriminate |].
      intros [Hb | (_ & [Hid | [Hst | Hres]])]; [contradiction | contradiction | |].
      * exfalso. apply Hst. lia.
      * contradiction.
    + split; [| reflexivity]. intros _. right. split; [exact Hj | right; right; exact Hr].
  - split; [discriminate |]. intros [Hb | (Hj' & _)]; contradiction.
Qed.

(** The protocol-violation insights of a response, up to the identifier. *)
Lemma violation_insights a msg s :
  Message.Direction msg = "response" ->
  exists a' s2,
    Analyzer.traceID a' = Analyzer.traceID a
    /\ Forall2 same_but_ID
         (option_list (fst (checkProtocolViolation a' msg s2)))
         (List.filter (is_category "protocol_violation")
            (snd (fst (AnalyzeMessage a msg s)))).
Proof.
  intros Hdir.
  destruct (AnalyzeMessage_result a msg s)
    as (slow & err & viol & retry & s1 & s2 & s3 & Hchecks & Hretry & _ & _ & Hall).
  rewrite Hdir in Hchecks. simpl in Hchecks.
  destruct Hchecks as (Hslow & Herr & Hviol).
  rewrite (note_request_response a msg Hdir) in *.
  apply (filter_category_same "protocol_violation") in Hall.
  rewrite !filter_append_some in Hall. simpl List.filter at 1 in Hall.
  rewrite (filter_other_category _ slow "slow_response") in Hall;
    [| intros i Hi; subst slow; eapply slow_category; exact Hi | discriminate].
  rewrite (filter_other_category _ err "error") in Hall;
    [| intros i Hi; subst err; eapply checkError_result; exact Hi | discriminate].
  rewrite (filter_other_category _ retry "retry_loop") in Hall;
    [| intros i Hi; subst retry; eapply retry_category; exact Hi | discriminate].
  rewrite !app_nil_r in Hall. simpl app in Hall.
  exists (fst (fst (checkError a msg s1))), s2.
  split; [apply checkError_result |]. subst viol.
  destruct (fst (checkProtocolViolation _ msg s2)) as [i |] eqn:E; simpl in Hall |- *.
  - unfold is_category in Hall.
    rewrite (checkProtocolViolation_result _ _ _ _ E) in Hall.
    simpl in Hall. exact Hall.
  - exact Hall.
Qed.

(** X19: the protocol rule: a response whose body is empty, or is one
    that json.Unmarshal refuses to decode into a map of keys (text that
    is not JSON, or a JSON value that is not an object and not null), or
    decodes to a map with a jsonrpc key and either an id key, or a
    status outside 200 to 299, or no result key, yields no
    protocol_violation insight; any other response yields exactly one, a
    warning tied to the Message and the trace, whose details list what
    is missing. A body that decodes to a map without keys is among the
    others: the object without members, and also the body null, which
    json.Unmarshal accepts, leaving the map nil; such a response yields
    the one insight, with details Missing 'jsonrpc' field, whatever its
    status. *)
Theorem protocol_violation_rule (a : Analyzer.t) (msg : Message.t) (s : Sys) :
  Message.Direction msg = "response" ->
  let found := List.filter (is_category "protocol_violation")
                 (snd (fst (AnalyzeMessage a msg s))) in
  (compliant msg -> found = [])
  /\ (~ compliant msg ->
      exists i, found = [i]
        /\ Insight.Type_ i = "warning"
        /\ Insight.Title i = "A2A Protocol Violation"
        /\ Insight.Details i = Join (protocol_violations msg) "; "
        /\ refers_to a msg i)
  /\ (json_Unmarshal_object (Message.Body msg) = None -> found = [])
  /\ (Message.Body msg <> EmptyString ->
      json_Unmarshal_object (Message.Body msg) = Some ∅ ->
      exists i, found = [i]
        /\ Insight.Type_ i = "warning"
        /\ Insight.Details i = "Missing 'jsonrpc' field"
        /\ refers_to a msg i).
Proof.
  intros Hdir found.
  assert (Hrule : (compliant msg -> found = [])
                  /\ (~ compliant msg ->
                      exists i, found = [i]
                        /\ Insight.Type_ i = "warning"
                        /\ Insight.Title i = "A2A Protocol Violation"
                        /\ Insight.Details i = Join (protocol_violations msg) "; "
                        /\ refers_to a msg i)).
  { destruct (violation_insights a msg s Hdir) as (a' & s2 & Htr & H).
    fold found in H. rewrite checkProtocolViolation_value in H.
    pose proof (protocol_violations_nil msg) as Hnil.
    destruct (protocol_violations msg) as [| v vs] eqn:E; cbn [option_list] in H.
    - split.
      + intros _. apply Forall2_nil_l in H. exact H.
      + intros Hc. exfalso. apply Hc, Hnil. reflexivity.
    - split.
      + intros Hc. apply Hnil in Hc. discriminate.
      + intros _. apply Forall2_one_l in H. destruct H as (i & Hi & Hsame).
        destruct Hsame as (Ht & Hm & Hty & _ & Htitle & Hdet & _).
        cbn in Ht, Hm, Hty, Htitle, Hdet.
        exists i. split; [exact Hi |]. split; [symmetry; exact Hty |].
        split; [symmetry; exact Htitle |]. split; [symmetry; exact Hdet |].
        split; [symmetry; exact Hm | rewrite <- Ht; exact Htr]. }
  destruct Hrule as (Hnone & Hone).
  split; [exact Hnone |]. split; [exact Hone |]. split.
  - intros Hrefused. apply Hnone. right. rewrite Hrefused. exact I.
  - intros Hbody Hkeys.
    destruct Hone as (i & Hi & Hty & _ & Hdet & Href).
    { intros [Hb | Hc]; [contradiction |].
      rewrite Hkeys in Hc. destruct Hc as (Hj & _).
      exact (not_elem_of_empty (C := gset string) _ Hj). }
    exists i. split; [exact Hi |]. split; [exact Hty |]. split; [| exact Href].
    rewrite Hdet. unfold protocol_violations.
    apply String.eqb_neq in Hbody. rewrite Hbody, Hkeys.
    rewrite !(bool_decide_eq_false_2 _ (not_elem_of_empty (C := gset string) _)).
    destruct ((200 <=? Message.StatusCode msg) && (Message.StatusCode msg <? 300));
      reflexivity.
Qed.

End ProtocolRule.

(** The protocol rule at the sample result (jsonrpc, id, result), at a
    200 answer with a result and no id, and at an answer whose body is
    null. *)
Lemma protocol_violation_rule_witness :
  List.filter (is_category "protocol_violation")
    (snd (fst (@AnalyzeMessage sample_lib_objects sample_analyzer
                 (response_of_duration 40) sample_sys))) = []
  /\ (exists i,
        List.filter (is_category "protocol_violation")
          (snd (fst (@AnalyzeMessage sample_lib_objects sample_analyzer anonymous_result
                       sample_sys))) = [i]
        /\ Insight.Details i = "Missing 'id' field in response")
  /\ (exists i,
        List.filter (is_category "protocol_violation")
          (snd (fst (@AnalyzeMessage sample_lib_objects sample_analyzer null_answer
                       sample_sys))) = [i]
        /\ Insight.Details i = "Missing 'jsonrpc' field").
Proof.
  split; [| split].
  - apply (proj1 (@protocol_violation_rule sample_lib_objects sample_analyzer
                    (response_of_duration 40) sample_sys eq_refl)).
    right. cbn. split; [| left]; refine (bool_decide_unpack _ _); vm_compute; exact I.
  - destruct (proj1 (proj2 (@protocol_violation_rule sample_lib_objects sample_analyzer
                       anonymous_result sample_sys eq_refl)))
      as (i & Hi & _ & _ & Hd & _).
    + intros [Hb | Hc]; [discriminate Hb |].
      cbn in Hc. destruct Hc as (_ & [H1 | [H2 | H3]]).
      * revert H1. refine (bool_decide_unpack _ _). vm_compute. exact I.
      * apply H2. lia.
      * apply H3. refine (bool_decide_unpack _ _). vm_compute. exact I.
    + exists i. split; [exact Hi |]. rewrite Hd. vm_compute. reflexivity.
  - destruct (proj2 (proj2 (proj2 (@protocol_violation_rule sample_lib_objects
                                     sample_analyzer null_answer sample_sys eq_refl))))
      as (i & Hi & _ & Hd & _).
    + discriminate.
    + reflexivity.
    + exists i. split; [exact Hi | exact Hd].
Defined.

Section InsightShape.
Context {lib : GoLib}.

Lemma Forall2_same_categories (l l' : list Insight.t) :
  Forall2 same_but_ID l l' -> map Insight.Category l' = map Insight.Category l.
Proof.
  induction 1 as [| i j l l' Hij Hl IH]; [reflexivity |].
  cbn [map]. rewrite IH. destruct Hij as (_ & _ & _ & -> & _). reflexivity.
Qed.

Lemma Forall2_same_refers a msg (l l' : list Insight.t) :
  Forall2 same_but_ID l l' -> Forall (refers_to a msg) l -> Forall (refers_to a msg) l'.
Proof.
  induction 1 as [| i j l l' Hij Hl IH]; intros HF; [constructor |].
  inversion HF as [| ? ? Hi Hrest]; subst. constructor; [| auto].
  destruct Hij as (Ht & Hm & _). destruct Hi as (H1 & H2).
  split; congruence.
Qed.

Lemma checkSlowResponse_refers a msg s i :
  fst (checkSlowResponse a msg s) = Some i ->
  Insight.Category i = "slow_response" /\ refers_to a msg i.
Proof.
  rewrite checkSlowResponse_result. destruct (_ <=? _); [discriminate |].
  intros [= <-]. repeat split.
Qed.

Lemma checkError_refers a msg s i :
  snd (fst (checkError a msg s)) = Some i ->
  Insight.Category i = "error" /\ refers_to a msg i.
Proof.
  rewrite checkError_value. destruct (failed msg); [| discriminate].
  intros [= <-]. repeat split.
Qed.

Lemma checkProtocolViolation_refers a msg s i :
  fst (checkProtocolViolation a msg s) = Some i ->
  Insight.Category i = "protocol_violation" /\ refers_to a msg i.
Proof.
  rewrite checkProtocolViolation_value. destruct (protocol_violations msg); [discriminate |].
  intros [= <-]. repeat split.
Qed.

Lemma checkRetryLoop_refers a msg s i :
  fst (checkRetryLoop a msg s) = Some i ->
  Insight.Category i = "retry_loop" /\ refers_to a msg i.
Proof.
  rewrite checkRetryLoop_result. cbv zeta. destruct (_ && _); [| discriminate].
  intros [= <-]. repeat split.
Qed.

Lemma refers_to_trace a a' msg i :
  Analyzer.traceID a' = Analyzer.traceID a -> refers_to a' msg i -> refers_to a msg i.
Proof. unfold refers_to. intros ->. auto. Qed.

(** X20: the insights AnalyzeMessage returns for one Message are, in
    this order and each at most once, one of category slow_response, one
    of category error, one of category protocol_violation and one of
    category retry_loop, so four at most; for a Message that is not a
    response only the last can appear. Every one of them is tied to the
    Message and to the trace of the analyzer. *)
Theorem insights_of_a_message (a : Analyzer.t) (msg : Message.t) (s : Sys) :
  let insights := snd (fst (AnalyzeMessage a msg s)) in
  sublist (map Insight.Category insights) categories
  /\ (Message.Direction msg <> "response" ->
      sublist (map Insight.Category insights) ["retry_loop"])
  /\ Forall (refers_to a msg) insights.
Proof.
  intros insights.
  destruct (AnalyzeMessage_result a msg s)
    as (slow & err & viol & retry & s1 & s2 & s3 & Hchecks & Hretry & _ & Htrace & Hall).
  fold insights in Hall.
  assert (Hnote : Analyzer.traceID (note_request a msg) = Analyzer.traceID a).
  { unfold note_request.
    destruct (String.eqb (Message.Direction msg) "request"); reflexivity. }
  assert (Hslow : forall i, slow = Some i ->
                    Insight.Category i = "slow_response" /\ refers_to a msg i).
  { intros i Hi. destruct (String.eqb (Message.Direction msg) "response").
    - destruct Hchecks as (-> & _). apply checkSlowResponse_refers in Hi.
      destruct Hi as (Hc & Hr). split; [exact Hc |].
      exact (refers_to_trace _ _ _ _ Hnote Hr).
    - destruct Hchecks as (-> & _). discriminate. }
  assert (Herr : forall i, err = Some i ->
                   Insight.Category i = "error" /\ refers_to a msg i).
  { intros i Hi. destruct (String.eqb (Message.Direction msg) "response").
    - destruct Hchecks as (_ & -> & _). apply checkError_refers in Hi.
      destruct Hi as (Hc & Hr). split; [exact Hc |].
      exact (refers_to_trace _ _ _ _ Hnote Hr).
    - destruct Hchecks as (_ & -> & _). discriminate. }
  assert (Hviol : forall i, viol = Some i ->
                    Insight.Category i = "protocol_violation" /\ refers_to a msg i).
  { intros i Hi. destruct (String.eqb (Message.Direction msg) "response").
    - destruct Hchecks as (_ & _ & ->). apply checkProtocolViolation_refers in Hi.
      destruct Hi as (Hc & Hr). split; [exact Hc |].
      refine (refers_to_trace _ _ _ _ _ Hr).
      rewrite <- Hnote. apply checkError_result.
    - destruct Hchecks as (_ & _ & ->). discriminate. }
  assert (Hret : forall i, retry = Some i ->
                   Insight.Category i = "retry_loop" /\ refers_to a msg i).
  { intros i Hi. subst retry. apply checkRetryLoop_refers in Hi.
    destruct Hi as (Hc & Hr). split; [exact Hc |].
    exact (refers_to_trace _ _ _ _ Htrace Hr). }
  assert (Hquiet : Message.Direction msg <> "response" ->
                   slow = None /\ err = None /\ viol = None).
  { intros Hdir. apply String.eqb_neq in Hdir. rewrite Hdir in Hchecks. exact Hchecks. }
  clear Hchecks Hretry.
  rewrite (Forall2_same_categories _ _ Hall).
  split; [| split].
  - destruct slow as [i1 |], err as [i2 |], viol as [i3 |], retry as [i4 |];
      cbn [append_some app map];
      rewrite ?(proj1 (Hslow _ eq_refl)), ?(proj1 (Herr _ eq_refl)),
        ?(proj1 (Hviol _ eq_refl)), ?(proj1 (Hret _ eq_refl));
      unfold categories;
      repeat first [apply sublist_nil | apply sublist_skip | apply sublist_cons].
  - intros Hdir. destruct (Hquiet Hdir) as (-> & -> & ->).
    destruct retry as [i4 |]; cbn [append_some app map];
      rewrite ?(proj1 (Hret _ eq_refl));
      repeat first [apply sublist_nil | apply sublist_skip | apply sublist_cons].
  - apply (Forall2_same_refers a msg _ _ Hall).
    destruct slow as [i1 |]; [pose proof (proj2 (Hslow i1 eq_refl)) |];
      (destruct err as [i2 |]; [pose proof (proj2 (Herr i2 eq_refl)) |]);
      (destruct viol as [i3 |]; [pose proof (proj2 (Hviol i3 eq_refl)) |]);
      (destruct retry as [i4 |]; [pose proof (proj2 (Hret i4 eq_refl)) |]);
      cbn [append_some app]; repeat (constructor; [assumption |]); constructor.
Qed.

End InsightShape.

Section InsightStore.
Context {lib : GoLib}.

Lemma untouched_refl s : untouched s s.
Proof. repeat split. Qed.

Lemma untouched_trans s1 s2 s3 : untouched s1 s2 -> untouched s2 s3 -> untouched s1 s3.
Proof.
  intros (A1 & A2 & A3 & A4) (B1 & B2 & B3 & B4). repeat split; congruence.
Qed.

Lemma checkSlowResponse_untouched a msg s : untouched s (snd (checkSlowResponse a msg s)).
Proof. unfold checkSlowResponse. destruct (_ <=? _); repeat split. Qed.

Lemma checkError_untouched a msg s : untouched s (snd (checkError a msg s)).
Proof. unfold checkError. destruct (_ && _); repeat split. Qed.

Lemma checkProtocolViolation_untouched a msg s :
  untouched s (snd (checkProtocolViolation a msg s)).
Proof.
  unfold checkProtocolViolation. cbv zeta.
  destruct (protocol_violations msg); repeat split.
Qed.

Lemma checkRetryLoop_untouched a msg s : untouched s (snd (checkRetryLoop a msg s)).
Proof.
  unfold checkRetryLoop. cbv zeta.
  destruct (String.eqb _ _); [repeat split |].
  destruct (_ && _); repeat split.
Qed.

(** SaveInsight: the row is appended when the INSERT succeeds, the table
    is as before when it fails; nothing else changes. *)
Lemma SaveInsight_tables (i : Insight.t) (s : Sys) :
  let r := SaveInsight i s in
  same_tables s (snd r)
  /\ published_insights (snd r) = published_insights s
  /\ Store.insights (db (snd r))
     = Store.insights (db s) ++ (if snd (fst r) then [fst (fst r)] else []).
Proof.
  unfold SaveInsight, bind.
  destruct (String.eqb (Insight.ID i) EmptyString);
    unfold uuid_New, get_db, put_db, ret; cbn [fst snd db];
    destruct (has_insight_id _ _);
    cbn [fst snd db Store.insights Store.set_insights];
    rewrite ?app_nil_r; repeat split.
Qed.

Lemma save_and_broadcast_tables (on : bool) (l : list Insight.t) : forall s,
  let r := save_and_broadcast on l s in
  exists added,
    Store.insights (db (snd r)) = Store.insights (db s) ++ added
    /\ published_insights (snd r)
       = published_insights s ++ (if on then added else [])
    /\ sublist added (fst r)
    /\ same_tables s (snd r).
Proof.
  induction l as [| i l IH]; intros s; cbn [save_and_broadcast].
  - exists []. unfold ret. cbn [fst snd].
    destruct on; rewrite !app_nil_r; repeat split; constructor.
  - unfold bind.
    destruct (SaveInsight_tables i s) as ((T1 & T2 & T3 & T4) & Hp & Hi).
    destruct (SaveInsight i s) as [[saved ok] s1]. cbn [fst snd] in *.
    assert (Hnotify :
              let s2 := snd ((if ok then notify_insight on saved else ret tt) s1) in
              db s2 = db s1 /\ published s2 = published s1
              /\ published_agents s2 = published_agents s1
              /\ published_insights s2
                 = published_insights s1 ++ (if ok && on then [saved] else [])).
    { destruct ok, on; cbn; rewrite ?app_nil_r; repeat split. }
    destruct ((if ok then notify_insight on saved else ret tt) s1) as [u s2].
    cbn [snd] in Hnotify. destruct Hnotify as (N1 & N2 & N3 & N4).
    destruct (IH s2) as (added & A1 & A2 & A3 & (A4 & A5 & A6 & A7)).
    destruct (save_and_broadcast on l s2) as [rest s3]. cbn [fst snd] in *.
    unfold ret. cbn [fst snd].
    exists ((if ok then [saved] else []) ++ added).
    rewrite A1, A2, N1, N4, Hi, Hp, <- !app_assoc.
    split; [reflexivity |]. split.
    { destruct ok, on; cbn [andb app]; rewrite ?app_nil_r; reflexivity. }
    split.
    { destruct ok; cbn [app]; [apply sublist_skip | apply sublist_cons]; exact A3. }
    unfold same_tables. rewrite A4, A5, A6, A7, N1, N2, N3. repeat split; assumption.
Qed.

(** X21: AnalyzeMessage and the store: the insights of the table stay as
    they are and where they are; the rows added after them are insights
    the call returns, in their order; OnInsight, when there is one, is
    handed exactly the rows added, in that order, so never an insight
    whose INSERT failed; the messages, the agents and what OnMessage and
    OnAgent were handed are untouched. *)
Theorem insights_saved_then_sent (a : Analyzer.t) (msg : Message.t) (s : Sys) :
  let result := AnalyzeMessage a msg s in
  exists added,
    Store.insights (db (snd result)) = Store.insights (db s) ++ added
    /\ published_insights (snd result)
       = published_insights s ++ (if Analyzer.onInsight a then added else [])
    /\ sublist added (snd (fst result))
    /\ same_tables s (snd result).
Proof.
  assert (Hon : Analyzer.onInsight (note_request a msg) = Analyzer.onInsight a).
  { unfold note_request.
    destruct (String.eqb (Message.Direction msg) "request"); reflexivity. }
  assert (Hgo : forall (a' : Analyzer.t) (l : list Insight.t) (s' : Sys),
             Analyzer.onInsight a' = Analyzer.onInsight a ->
             untouched s s' ->
             let r := save_and_broadcast (Analyzer.onInsight a') l s' in
             exists added,
               Store.insights (db (snd r)) = Store.insights (db s) ++ added
               /\ published_insights (snd r)
                  = published_insights s ++ (if Analyzer.onInsight a then added else [])
               /\ sublist added (fst r)
               /\ same_tables s (snd r)).
  { intros a' l s' Ha' (U1 & U2 & U3 & U4). cbv zeta.
    destruct (save_and_broadcast_tables (Analyzer.onInsight a') l s')
      as (added & A1 & A2 & A3 & (A4 & A5 & A6 & A7)).
    exists added. rewrite <- Ha'. rewrite A1, A2, U1, U4.
    split; [reflexivity |]. split; [reflexivity |]. split; [exact A3 |].
    unfold same_tables. rewrite A4, A5, A6, A7, U1, U2, U3. repeat split. }
  cbv zeta. unfold AnalyzeMessage, response_checks, bind.
  destruct (String.eqb (Message.Direction msg) "response").
  - pose proof (checkSlowResponse_untouched (note_request a msg) msg s) as U1.
    destruct (checkSlowResponse (note_request a msg) msg s) as [slow s1].
    pose proof (checkError_untouched (note_request a msg) msg s1) as U2.
    pose proof (checkError_result (note_request a msg) msg s1) as (_ & _ & Ho & _).
    destruct (checkError (note_request a msg) msg s1) as [[a' err] s2].
    cbn [fst snd] in *.
    pose proof (checkProtocolViolation_untouched a' msg s2) as U3.
    destruct (checkProtocolViolation a' msg s2) as [viol s3].
    unfold ret. cbn [fst snd] in *.
    pose proof (checkRetryLoop_untouched a' msg s3) as U4.
    destruct (checkRetryLoop a' msg s3) as [retry s4]. cbn [fst snd] in *.
    match goal with
    | |- context [save_and_broadcast _ ?l s4] =>
        destruct (Hgo a' l s4) as (added & Hadded)
    end.
    + congruence.
    + eauto using untouched_trans.
    + destruct (save_and_broadcast _ _ s4) as [saved s5]. cbn [fst snd] in *.
      exists added. exact Hadded.
  - unfold ret. cbn [fst snd].
    pose proof (checkRetryLoop_untouched (note_request a msg) msg s) as U4.
    destruct (checkRetryLoop (note_request a msg) msg s) as [retry s4].
    cbn [fst snd] in *.
    match goal with
    | |- context [save_and_broadcast _ ?l s4] =>
        destruct (Hgo (note_request a msg) l s4 Hon U4) as (added & Hadded)
    end.
    destruct (save_and_broadcast _ _ s4) as [saved s5]. cbn [fst snd] in *.
    exists added. exact Hadded.
Qed.

End InsightStore.

(** ** Counters *)

Lemma filter_length_perm {A} (f : A -> bool) (l l' : list A) :
  Permutation l l' -> length (List.filter f l) = length (List.filter f l').
Proof.
  induction 1 as [| x l l' _ IH | x y l | l l' l'' _ IH1 _ IH2]; cbn [List.filter].
  - reflexivity.
  - destruct (f x); cbn [length]; congruence.
  - destruct (f x), (f y); reflexivity.
  - congruence.
Qed.

Lemma filter_filter_and {A} (f g : A -> bool) (l : list A) :
  List.filter f (List.filter g l) = List.filter (fun x => g x && f x) l.
Proof.
  induction l as [| x l IH]; [reflexivity |]. cbn [List.filter].
  destruct (g x); cbn [List.filter andb]; rewrite IH; reflexivity.
Qed.

Lemma filter_length_split {A} (f : A -> bool) (l : list A) :
  (length (List.filter f l) + length (List.filter (fun x => negb (f x)) l))%nat
  = length l.
Proof.
  induction l as [| x l IH]; [reflexivity |]. cbn [List.filter].
  destruct (f x); cbn [negb length]; lia.
Qed.

Lemma filter_length_le {A} (f : A -> bool) (l : list A) :
  (length (List.filter f l) <= length l)%nat.
Proof.
  induction l as [| x l IH]; [reflexivity |]. cbn [List.filter].
  destruct (f x); cbn [length]; lia.
Qed.

Lemma summary_counts_loop (l : list Message.t) : forall acc,
  0 <= errorCount acc -> 0 <= successCount acc ->
  errorCount acc + successCount acc + Z.of_nat (length l) < 2 ^ 63 ->
  errorCount (fold_left summary_step l acc)
  = errorCount acc
    + Z.of_nat (length (List.filter (fun m => is_response m && failed m) l))
  /\ successCount (fold_left summary_step l acc)
     = successCount acc
       + Z.of_nat (length (List.filter (fun m => is_response m && negb (failed m)) l)).
Proof.
  induction l as [| m l IH]; intros acc He Hs Hlt; cbn [fold_left List.filter length].
  - split; lia.
  - change (2 ^ 63) with 9223372036854775808 in *.
    cbn [length] in Hlt. rewrite Nat2Z.inj_succ in Hlt.
    assert (Hstep : errorCount (summary_step acc m)
                    = errorCount acc + (if is_response m && failed m then 1 else 0)
                    /\ successCount (summary_step acc m)
                       = successCount acc
                         + (if is_response m && negb (failed m) then 1 else 0)).
    { unfold summary_step, is_response, failed.
      destruct (String.eqb (Message.Direction m) "response"); cbn [andb];
        [| split; lia].
      destruct (negb _ || _); cbn [errorCount successCount negb];
        rewrite ?wrap64_small
          by (change (2 ^ 63) with 9223372036854775808; lia);
        split; lia. }
    destruct Hstep as (E1 & E2).
    destruct (IH (summary_step acc m)) as (IH1 & IH2).
    + rewrite E1. destruct (is_response m && failed m); lia.
    + rewrite E2. destruct (is_response m && negb (failed m)); lia.
    + rewrite E1, E2.
      destruct (is_response m); cbn [andb]; [destruct (failed m); cbn [negb] |]; lia.
    + rewrite IH1, IH2, E1, E2.
      destruct (is_response m); cbn [andb]; [destruct (failed m); cbn [negb] |];
        cbn [length]; split; lia.
Qed.

(** X22: the counts of the summary: total_messages is the number of
    Messages of the trace and total_insights the number of its insights;
    error_count is the number of its responses with an error text or a
    status of 400 or more, success_count the number of its other
    responses, so that the two add up to the number of responses; the
    two tables of counters are those of the analyzer; the call changes
    nothing. *)
Theorem summary_counts (a : Analyzer.t) (s : Sys) :
  Z.of_nat (length (List.filter (in_trace (Analyzer.traceID a))
                      (Store.messages (db s)))) < 2 ^ 63 ->
  let rows := List.filter (in_trace (Analyzer.traceID a)) (Store.messages (db s)) in
  let responses := trace_responses (Analyzer.traceID a) (db s) in
  let summary := fst (GetSummary a s) in
  snd (GetSummary a s) = s
  /\ total_messages summary = Z.of_nat (length rows)
  /\ total_insights summary
     = Z.of_nat (length (List.filter
                           (fun i => String.eqb (Insight.TraceID i) (Analyzer.traceID a))
                           (Store.insights (db s))))
  /\ error_count summary = Z.of_nat (length (List.filter failed responses))
  /\ success_count summary
     = Z.of_nat (length (List.filter (fun m => negb (failed m)) responses))
  /\ error_count summary + success_count summary = Z.of_nat (length responses)
  /\ method_counts summary = Analyzer.methodCounts a
  /\ agent_error_counts summary = Analyzer.agentErrors a.
Proof.
  intros Hlt rows responses summary.
  subst summary. unfold GetSummary, GetInsights, GetMessages, bind, get_db, ret.
  cbn [fst snd total_messages total_insights error_count success_count method_counts
       agent_error_counts].
  change (List.filter (fun m => String.eqb (Message.TraceID m) (Analyzer.traceID a))
            (Store.messages (db s))) with rows.
  set (sorted := sort_by _ rows).
  assert (Hperm : Permutation sorted rows) by apply sort_by_perm.
  assert (Hlen : length sorted = length rows) by (apply Permutation_length; exact Hperm).
  destruct (summary_counts_loop sorted (mkStats 0 0 0)) as (He & Hs);
    cbn [errorCount successCount]; try lia.
  { rewrite Hlen. fold rows in Hlt. lia. }
  cbn [errorCount successCount] in He, Hs.
  rewrite (filter_length_perm _ _ _ Hperm), <- filter_filter_and in He.
  rewrite (filter_length_perm _ _ _ Hperm), <- filter_filter_and in Hs.
  change (List.filter is_response rows) with responses in He, Hs.
  split; [reflexivity |].
  split; [rewrite Hlen; reflexivity |].
  split.
  { f_equal. apply Permutation_length. apply sort_by_perm. }
  split; [rewrite He; lia |]. split; [rewrite Hs; lia |].
  split; [| split; reflexivity].
  rewrite He, Hs. pose proof (filter_length_split failed responses). lia.
Qed.

(** The counts at the sample store: three Messages of trace-1, two of
    them responses, one of which failed. *)
Lemma summary_counts_witness :
  total_messages (fst (GetSummary sample_analyzer sample_sys_store)) = 3
  /\ error_count (fst (GetSummary sample_analyzer sample_sys_store)) = 1
  /\ success_count (fst (GetSummary sample_analyzer sample_sys_store)) = 1.
Proof.
  destruct (summary_counts sample_analyzer sample_sys_store)
    as (_ & Ht & _ & He & Hs & _).
  - vm_compute. reflexivity.
  - rewrite Ht, He, Hs. vm_compute. repeat split.
Defined.

Section Counters.
Context {lib : GoLib}.

Lemma AnalyzeMessage_methodCounts a msg s :
  Analyzer.methodCounts (fst (fst (AnalyzeMessage a msg s))) =
  if String.eqb (Message.Direction msg) "request"
  then increment (Analyzer.methodCounts a) (Message.Method msg)
  else Analyzer.methodCounts a.
Proof.
  destruct (AnalyzeMessage_result a msg s)
    as (_ & _ & _ & _ & _ & _ & _ & _ & _ & Hm & _).
  rewrite Hm. unfold note_request.
  destruct (String.eqb (Message.Direction msg) "request"); reflexivity.
Qed.

Lemma AnalyzeAll_counters (msgs : list Message.t) : forall a s m agent,
  0 <= count_of (Analyzer.methodCounts a) m ->
  0 <= count_of (Analyzer.agentErrors a) agent ->
  count_of (Analyzer.methodCounts a) m + Z.of_nat (length msgs) < 2 ^ 63 ->
  count_of (Analyzer.agentErrors a) agent + Z.of_nat (length msgs) < 2 ^ 63 ->
  let a' := fst (fst (AnalyzeAll a msgs s)) in
  count_of (Analyzer.methodCounts a') m
  = count_of (Analyzer.methodCounts a) m
    + Z.of_nat (length (List.filter (request_for m) msgs))
  /\ count_of (Analyzer.agentErrors a') agent
     = count_of (Analyzer.agentErrors a) agent
       + Z.of_nat (length (List.filter (error_from agent) msgs)).
Proof.
  induction msgs as [| msg rest IH]; intros a s m agent Hm He Hml Hel;
    cbn [AnalyzeAll List.filter length].
  - unfold ret. cbn [fst]. split; lia.
  - change (2 ^ 63) with 9223372036854775808 in *.
    cbn [length] in Hml, Hel. rewrite Nat2Z.inj_succ in Hml, Hel.
    unfold bind.
    pose proof (AnalyzeMessage_methodCounts a msg s) as Cm.
    pose proof (AnalyzeMessage_agentErrors a msg s) as Ce.
    destruct (AnalyzeMessage a msg s) as [[a1 found] s1]. cbn [fst snd] in *.
    assert (Cm' : count_of (Analyzer.methodCounts a1) m
                  = count_of (Analyzer.methodCounts a) m
                    + (if request_for m msg then 1 else 0)).
    { rewrite Cm. unfold request_for, carries.
      destruct (String.eqb (Message.Direction msg) "request"); cbn [andb]; [| lia].
      rewrite count_of_increment.
      destruct (String.eqb_spec (Message.Method msg) m) as [E | _]; [rewrite E | lia].
      apply wrap64_small. change (2 ^ 63) with 9223372036854775808. lia. }
    assert (Ce' : count_of (Analyzer.agentErrors a1) agent
                  = count_of (Analyzer.agentErrors a) agent
                    + (if error_from agent msg then 1 else 0)).
    { rewrite Ce. unfold error_from.
      destruct (is_response msg && failed msg); cbn [andb]; [| lia].
      rewrite count_of_increment.
      destruct (String.eqb_spec (Message.FromAgent msg) agent) as [E | _];
        [rewrite E | lia].
      apply wrap64_small. change (2 ^ 63) with 9223372036854775808. lia. }
    specialize (IH a1 s1 m agent).
    destruct (AnalyzeAll a1 rest s1) as [[a2 founds] s2]. cbn [fst snd] in *.
    unfold ret. cbn [fst].
    destruct IH as (IH1 & IH2).
    + rewrite Cm'. destruct (request_for m msg); lia.
    + rewrite Ce'. destruct (error_from agent msg); lia.
    + rewrite Cm'. destruct (request_for m msg); lia.
    + rewrite Ce'. destruct (error_from agent msg); lia.
    + rewrite IH1, IH2, Cm', Ce'.
      destruct (request_for m msg), (error_from agent msg); cbn [length]; split; lia.
Qed.

(** X23: the two tables of counters of the summary, for an analyzer that
    starts fresh and is fed a list of Messages: the count of a method is
    the number of requests that carried it (responses never count, and
    the requests without a method count under the empty name); the count
    of errors of an agent is the number of failed responses from it (a
    failure with no source agent counts under the empty name). *)
Theorem counters_total (cfg : Analyzer.Config) (msgs : list Message.t) (s : Sys)
    (m agent : string) :
  Z.of_nat (length msgs) < 2 ^ 63 ->
  let a := fst (fst (AnalyzeAll (New cfg) msgs s)) in
  count_of (Analyzer.methodCounts a) m
  = Z.of_nat (length (List.filter (request_for m) msgs))
  /\ count_of (Analyzer.agentErrors a) agent
     = Z.of_nat (length (List.filter (error_from agent) msgs)).
Proof.
  intros Hlt a.
  assert (Hm : count_of (Analyzer.methodCounts (New cfg)) m = 0)
    by (unfold New, count_of; cbn [Analyzer.methodCounts];
        rewrite lookup_empty; reflexivity).
  assert (He : count_of (Analyzer.agentErrors (New cfg)) agent = 0)
    by (unfold New, count_of; cbn [Analyzer.agentErrors];
        rewrite lookup_empty; reflexivity).
  destruct (AnalyzeAll_counters msgs (New cfg) s m agent) as (H1 & H2).
  - rewrite Hm. lia.
  - rewrite He. lia.
  - rewrite Hm. exact Hlt.
  - rewrite He. exact Hlt.
  - subst a. rewrite H1, H2, Hm, He. split; reflexivity.
Qed.

End Counters.

(** The counters after the seven sample Messages: five requests for
    tasks/create, no failed response. *)
Lemma counters_total_witness :
  count_of (Analyzer.methodCounts
              (fst (fst (@AnalyzeAll sample_lib (New default_config) five_calls
                           sample_sys)))) "tasks/create" = 5
  /\ count_of (Analyzer.agentErrors
                 (fst (fst (@AnalyzeAll sample_lib (New default_config) five_calls
                              sample_sys)))) "agent.local" = 0.
Proof.
  destruct (@counters_total sample_lib default_config five_calls sample_sys
              "tasks/create" "agent.local") as (H1 & H2).
  - vm_compute. reflexivity.
  - rewrite H1, H2. vm_compute. split; reflexivity.
Defined.

(** ** The child environment, once more *)

Lemma proxy_key_any_port (p1 p2 : Z) (k : string) :
  match proxyVars p1 !! k with Some _ => false | None => true end
  = match proxyVars p2 !! k with Some _ => false | None => true end.
Proof.
  pose proof (proxyVars_defined p1 k) as H1.
  pose proof (proxyVars_defined p2 k) as H2.
  destruct (proxyVars p1 !! k) as [v1 |], (proxyVars p2 !! k) as [v2 |];
    try reflexivity; exfalso.
  - destruct (proj1 H2 (proj2 H1 (ex_intro _ v1 eq_refl))) as [v Hv]. discriminate.
  - destruct (proj1 H1 (proj2 H2 (ex_intro _ v2 eq_refl))) as [v Hv]. discriminate.
Qed.

Lemma filter_idem {A} (f : A -> bool) (l : list A) :
  List.filter f (List.filter f l) = List.filter f l.
Proof.
  induction l as [| x l IH]; [reflexivity |]. cbn [List.filter].
  destruct (f x) eqn:E; cbn [List.filter]; rewrite ?E, IH; reflexivity.
Qed.

(** X24: a tool started by a tool: the environment built from an
    environment that was itself built for another port is the one built
    from the original parent environment; nothing of the outer proxy is
    left, and the inherited entries are kept once, in their order. *)
Theorem buildEnv_nested (environ : list string) (p1 p2 : Z)
    (r1 r2 : list (string * string)) :
  r1 ≡ₚ map_to_list (proxyVars p1) ->
  buildEnv (buildEnv environ p1 r1) p2 r2 = buildEnv environ p2 r2.
Proof.
  intros HP. unfold buildEnv. rewrite List.filter_app. f_equal.
  assert (Hinner : List.filter
                     (fun e => match proxyVars p2 !! env_key e with
                               | Some _ => false
                               | None => true
                               end) (map env_entry r1) = []).
  { assert (Hall : forall kv, In kv r1 -> proxyVars p1 !! fst kv = Some (snd kv)).
    { intros [k v] Hin. apply (range_lookup p1 r1 k v HP). exact Hin. }
    clear HP. induction r1 as [| [k v] r1 IH]; [reflexivity |].
    cbn [map List.filter].
    pose proof (Hall (k, v) (or_introl eq_refl)) as Hk. cbn [fst snd] in Hk.
    rewrite (env_key_entry p1 k v Hk).
    rewrite <- (proxy_key_any_port p1 p2 k), Hk.
    apply IH. intros kv Hin. apply Hall. right. exact Hin. }
  rewrite Hinner, app_nil_r.
  rewrite (List.filter_ext _ _ (fun e => proxy_key_any_port p1 p2 (env_key e))).
  apply filter_idem.
Qed.

(** The sample environment through port 8080 and then port 9090. *)
Lemma buildEnv_nested_witness :
  buildEnv (buildEnv sample_environ 8080 (map_to_list (proxyVars 8080))) 9090
    (map_to_list (proxyVars 9090))
  = buildEnv sample_environ 9090 (map_to_list (proxyVars 9090)).
Proof.
  apply (buildEnv_nested sample_environ 8080 9090). reflexivity.
Defined.

(** ** The command line *)

Lemma dashIndex_from_spec (args : list string) : forall i,
  (~ In "--" args /\ cli.dashIndex_from i args = -1)
  \/ exists pre post,
       args = pre ++ "--" :: post
       /\ ~ In "--" pre
       /\ cli.dashIndex_from i args = i + Z.of_nat (length pre)
       /\ cli.before_dash args = pre.
Proof.
  induction args as [| arg rest IH]; intros i; cbn [cli.dashIndex_from cli.before_dash].
  - left. split; [intros [] | reflexivity].
  - destruct (String.eqb_spec arg "--") as [-> | Hne].
    + right. exists [], rest. cbn. split; [reflexivity |].
      split; [intros [] |]. split; [lia | reflexivity].
    + cbv iota.
      destruct (IH (i + 1)) as [(Hno & Hidx) | (pre & post & Heq & Hno & Hidx & Hb)].
      * left. split; [| exact Hidx]. intros [E | Hin]; [congruence | contradiction].
      * right. exists (arg :: pre), post. rewrite Hidx, Hb, Heq. cbn [app length].
        split; [reflexivity |].
        split; [intros [E | Hin]; [congruence | contradiction] |].
        split; [lia | reflexivity].
Qed.

(** The outcome of [RunE] alone. *)
Lemma RunE_cases (osArgs : list string) :
  (cli.RunE osArgs = None
   /\ (~ In "--" osArgs \/ exists pre, osArgs = pre ++ ["--"] /\ ~ In "--" pre))
  \/ exists pre command,
       cli.RunE osArgs = Some command
       /\ command <> []
       /\ osArgs = pre ++ "--" :: command
       /\ ~ In "--" pre
       /\ cli.before_dash osArgs = pre.
Proof.
  unfold cli.RunE. cbv zeta.
  destruct (dashIndex_from_spec osArgs 0)
    as [(Hno & Hidx) | (pre & post & Heq & Hno & Hidx & Hb)]; rewrite Hidx.
  - cbn [Z.eqb orb]. left. split; [reflexivity | left; exact Hno].
  - assert (Hneq : (0 + Z.of_nat (length pre) =? -1) = false) by (apply Z.eqb_neq; lia).
    rewrite Hneq. cbn [orb].
    assert (Hlen : length osArgs = (length pre + S (length post))%nat)
      by (rewrite Heq, length_app; reflexivity).
    destruct post as [| word post].
    + assert (Hlast : (0 + Z.of_nat (length pre) =? Z.of_nat (length osArgs) - 1) = true)
        by (apply Z.eqb_eq; cbn [length] in Hlen; lia).
      rewrite Hlast. left. split; [reflexivity |]. right. exists pre. split; assumption.
    + assert (Hnot : (0 + Z.of_nat (length pre) =? Z.of_nat (length osArgs) - 1) = false)
        by (apply Z.eqb_neq; cbn [length] in Hlen; lia).
      rewrite Hnot.
      assert (Hdrop : drop (Z.to_nat (0 + Z.of_nat (length pre) + 1)) osArgs
                      = word :: post).
      { rewrite Heq.
        replace (Z.to_nat (0 + Z.of_nat (length pre) + 1)) with (length pre + 1)%nat
          by lia.
        rewrite <- drop_drop, drop_app_length. reflexivity. }
      rewrite Hdrop. right. exists pre, (word :: post).
      split; [reflexivity |]. split; [discriminate |]. split; [exact Heq |].
      split; [exact Hno | exact Hb].
Qed.

Lemma before_dash_clean (args : list string) : ~ In "--" (cli.before_dash args).
Proof.
  induction args as [| arg rest IH]; cbn [cli.before_dash]; [intros [] |].
  destruct (String.eqb_spec arg "--") as [-> | Hne]; [intros [] |].
  intros [E | Hin]; [congruence | contradiction].
Qed.

(** X25: the command line, through ParseArgs. ParseArgs panics exactly
    on an empty argument list. Otherwise cobra is given exactly the
    arguments between the program name and the first [--], none of
    which is [--], and what ParseArgs returns follows what cobra does
    with them. When cobra returns an error of its own, for a flag it
    refuses, ParseArgs returns that error, whatever follows the dashes.
    When cobra returns without running the command, as it does for
    --help, -h and --version, ParseArgs returns a Config without
    error whose command is empty, whatever follows the dashes, and no
    Manager can be made for it. When cobra runs the command, ParseArgs
    fails, with the error of RunE, exactly when the arguments have no
    [--] or nothing after the first one; otherwise the command of the
    Config is everything after the first [--], later dashes included,
    it is not empty, and a Manager is made for it, whose words are its
    name and arguments. A Config returned has the flags cobra read,
    with the proxy port as UI port when that flag is 0. *)
Theorem command_after_dashes (Execute : list string -> list string -> cli.Outcome)
    (osArgs : list string) (proxyPort : Z) :
  (cli.ParseArgs Execute osArgs = None <-> osArgs = [])
  /\ forall prog rest, osArgs = prog :: rest ->
     let given := cli.before_dash rest in
     let config flags command :=
       {| cli.Port := cli.port flags;
          cli.UIPort := if cli.uiPort flags =? 0 then cli.port flags
                        else cli.uiPort flags;
          cli.DBPath := cli.db flags;
          cli.Verbose := cli.verbose flags;
          cli.NoUI := cli.noUI flags;
          cli.Command := command |} in
     cli.argsToparse osArgs = Some given
     /\ ~ In "--" given
     /\ match Execute given osArgs with
        | cli.Refused err => cli.ParseArgs Execute osArgs = Some (inl err)
        | cli.Answered flags =>
            cli.ParseArgs Execute osArgs = Some (inr (config flags []))
            /\ process.New [] proxyPort = inl "no command specified"
        | cli.Ran flags =>
            (cli.ParseArgs Execute osArgs = Some (inl cli.no_command)
             /\ (~ In "--" osArgs
                 \/ exists pre, osArgs = pre ++ ["--"] /\ ~ In "--" pre))
            \/ exists pre command,
                 cli.ParseArgs Execute osArgs = Some (inr (config flags command))
                 /\ command <> []
                 /\ osArgs = pre ++ "--" :: command
                 /\ ~ In "--" pre
                 /\ (prog <> "--" -> rest = given ++ "--" :: command)
                 /\ exists m, process.New command proxyPort = inr m
                              /\ process.Args (process.cmd m) = command
                              /\ process.CommandString m = Join command " "
        end.
Proof.
  split.
  { unfold cli.ParseArgs. destruct osArgs as [| prog rest]; cbn [cli.argsToparse].
    - split; reflexivity.
    - split; discriminate. }
  intros prog rest Hos given config. subst osArgs.
  split; [reflexivity |]. split; [apply before_dash_clean |].
  unfold cli.ParseArgs. cbn [cli.argsToparse]. fold given.
  destruct (Execute given (prog :: rest)) as [err | flags | flags].
  - reflexivity.
  - split; reflexivity.
  - destruct (RunE_cases (prog :: rest))
      as [(Hrun & Hwhy) | (pre & command & Hrun & Hne & Heq & Hno & Hb)]; rewrite Hrun.
    + left. split; [reflexivity | exact Hwhy].
    + right. exists pre, command.
      split; [reflexivity |]. split; [exact Hne |]. split; [exact Heq |].
      split; [exact Hno |]. split.
      * intros Hprog. subst given.
        destruct pre as [| p pre']; cbn [app] in Heq; injection Heq as E1 E2.
        { contradiction Hprog. }
        subst p. cbn [cli.before_dash] in Hb.
        destruct (String.eqb prog "--"); [discriminate |].
        injection Hb as Hb. rewrite E2 in Hb |- *.
        rewrite Hb. reflexivity.
      * destruct command as [| name args]; [contradiction |].
        destruct args as [| w2 args]; eexists; repeat split.
Qed.

(** The command line [a2a-trace --help -- node], where cobra answers the
    flag itself: a Config with no command; and [a2a-trace -- node
    agent.js], where it runs the command. *)
Lemma command_after_dashes_witness :
  (exists cfg,
     cli.ParseArgs cli.sample_Execute ["a2a-trace"; "--help"; "--"; "node"]
     = Some (inr cfg)
     /\ cli.Command cfg = [] /\ cli.UIPort cfg = 8080)
  /\ (exists cfg,
        cli.ParseArgs cli.sample_Execute ["a2a-trace"; "--"; "node"; "agent.js"]
        = Some (inr cfg)
        /\ cli.Command cfg = ["node"; "agent.js"]).
Proof.
  split.
  - destruct (proj2 (command_after_dashes cli.sample_Execute
                       ["a2a-trace"; "--help"; "--"; "node"] 8080)
                _ _ eq_refl) as (_ & _ & H).
    cbn in H. destruct H as (H & _). eexists. split; [exact H |]. split; reflexivity.
  - destruct (proj2 (command_after_dashes cli.sample_Execute
                       ["a2a-trace"; "--"; "node"; "agent.js"] 8080)
                _ _ eq_refl) as (_ & _ & H).
    cbn in H. destruct H as [(H & _) | (pre & command & H & _)].
    + vm_compute in H. discriminate H.
    + exists (cli.Build_Config 8080 8080 EmptyString false false ["node"; "agent.js"]).
      split; reflexivity.
Defined.

(** ** ClassifyMethod *)

(** X26: ClassifyMethod describes the six task methods and leaves every
    other name as it is; no description is itself one of the six names,
    so describing twice is describing once, and a method with a name is
    never described by the empty string. *)
Theorem ClassifyMethod_stable (method : string) :
  ClassifyMethod (ClassifyMethod method) = ClassifyMethod method
  /\ (method <> EmptyString -> ClassifyMethod method <> EmptyString)
  /\ (methodDescriptions !! method = None -> ClassifyMethod method = method).
Proof.
  unfold ClassifyMethod at 2 3 4.
  destruct (methodDescriptions !! method) as [desc |] eqn:E.
  - apply elem_of_list_to_map_2 in E.
    repeat (apply elem_of_cons in E; destruct E as [E | E];
            [injection E as _ ->; split; [reflexivity | split; [discriminate | discriminate]] |]).
    apply elem_of_nil in E. contradiction.
  - unfold ClassifyMethod. rewrite E. split; [reflexivity |]. split; auto.
Qed.

(** ** From the proxy to the analyzer *)

Section Pipeline.
Context {lib : GoLib}.

(** X27: a failed upstream call, end to end: the synthetic response the
    proxy saves and hands to OnMessage, once analyzed, from whatever
    analyzer state, yields exactly one error insight, of severity error,
    titled as an A2A error response and tied to that response, and the
    failure is counted under the empty agent name, the synthetic
    response having no source agent. *)
Theorem transport_failure_reported (p : Proxy.t) (x : Inbound) (s : Sys)
    (body : string) (err : url.Error) (a : Analyzer.t) (s2 : Sys) :
  http.Method (request x) <> "CONNECT" ->
  reqBody x = Some body ->
  IsA2ARequest (request x) || (0 <? String.length body)%nat = true ->
  newRequestErr x = None ->
  upstream x = DoError err ->
  has_message_id (uuid_source s (uuid_calls s)) (Store.messages (db s)) = false ->
  has_message_id (uuid_source s (S (uuid_calls s))) (Store.messages (db s)) = false ->
  uuid_source s (uuid_calls s) <> uuid_source s (S (uuid_calls s)) ->
  exists reqMsg errMsg,
    Store.messages (db (snd (handleProxy p x s))) = Store.messages (db s) ++ [reqMsg; errMsg]
    /\ published (snd (handleProxy p x s))
       = published s ++ (if Proxy.onMessage p then [reqMsg; errMsg] else [])
    /\ Message.FromAgent errMsg = EmptyString
    /\ (exists i,
          List.filter (is_category "error") (snd (fst (AnalyzeMessage a errMsg s2))) = [i]
          /\ Insight.Type_ i = "error"
          /\ Insight.Title i = "A2A Error Response"
          /\ Insight.MessageID i = Message.ID errMsg)
    /\ count_of (Analyzer.agentErrors (fst (fst (AnalyzeMessage a errMsg s2)))) EmptyString
       = wrap64 (count_of (Analyzer.agentErrors a) EmptyString + 1).
Proof.
  intros Hmethod Hbody Hcap Hnew Hup Hid0 Hid1 Hne.
  rewrite (handleProxy_failure p x s body err Hmethod Hbody Hcap Hnew Hup Hid0 Hid1 Hne).
  cbn [snd advance db Store.messages Store.set_messages published].
  match goal with
  | |- context [[?r; ?e]] => set (reqMsg := r); set (errMsg := e)
  end.
  exists reqMsg, errMsg.
  split; [reflexivity |]. split.
  { destruct (Proxy.onMessage p); [reflexivity | rewrite app_nil_r; reflexivity]. }
  split; [reflexivity |].
  assert (Hdir : Message.Direction errMsg = "response") by reflexivity.
  assert (Hfailed : failed errMsg = true).
  { unfold failed. subst errMsg. cbn [Message.Error Message.StatusCode].
    pose proof (url_Error_Error_nonempty err) as Hn.
    apply String.eqb_neq in Hn. rewrite Hn. reflexivity. }
  split.
  - destruct (error_insights a errMsg s2 Hdir) as (s1 & H).
    rewrite checkError_value, Hfailed in H. cbn [fst snd option_list] in H.
    apply Forall2_one_l in H. destruct H as (i & Hi & Hsame).
    destruct Hsame as (_ & Hm & Ht & _ & Htitle & _).
    cbn in Hm, Ht, Htitle.
    exists i. split; [exact Hi |]. split; [symmetry; exact Ht |].
    split; [symmetry; exact Htitle | symmetry; exact Hm].
  - rewrite AnalyzeMessage_agentErrors. unfold is_response.
    rewrite Hdir, Hfailed. cbn [String.eqb Ascii.eqb Bool.eqb andb].
    change (Message.FromAgent errMsg) with EmptyString.
    rewrite count_of_increment. reflexivity.
Qed.

End Pipeline.

(** The sample call against an upstream that refuses the connection,
    analyzed by a fresh analyzer. *)
Lemma transport_failure_reported_witness :
  exists reqMsg errMsg,
    Store.messages (db (snd (@handleProxy sample_lib sample_proxy call_refused sample_sys)))
    = [reqMsg; errMsg]
    /\ exists i,
         List.filter (is_category "error")
           (snd (fst (@AnalyzeMessage sample_lib sample_analyzer errMsg sample_sys))) = [i]
         /\ Insight.Type_ i = "error".
Proof.
  destruct (@transport_failure_reported sample_lib sample_proxy call_refused sample_sys
              sample_call refused sample_analyzer sample_sys)
    as (reqMsg & errMsg & Hm & _ & _ & (i & Hi & Ht & _) & _).
  - vm_compute. discriminate.
  - reflexivity.
  - vm_compute. reflexivity.
  - reflexivity.
  - reflexivity.
  - vm_compute. reflexivity.
  - vm_compute. reflexivity.
  - vm_compute. discriminate.
  - exists reqMsg, errMsg. split; [exact Hm |]. exists i. split; [exact Hi | exact Ht].
Defined.

Section PipelineAnswers.
Context {lib : GoLib}.

(** X30: an upstream answer, end to end: the response the proxy saves
    for a captured request carries the host of the request URL as its
    source agent; once analyzed, from whatever analyzer state, it yields
    exactly one error insight when the status is 400 or more, a warning
    for 400 to 499 and an error from 500 on, and also when the status is
    below 400 and the body carries a JSON-RPC error with a message, then
    of severity error; the failure is counted for that host. An answer
    below 400 with no JSON-RPC error message yields no error insight and
    is not counted. *)
Theorem upstream_answer_reported (p : Proxy.t) (x : Inbound) (s : Sys)
    (body respBody : string) (resp : http.Response) (a : Analyzer.t) (s2 : Sys) :
  http.Method (request x) <> "CONNECT" ->
  reqBody x = Some body ->
  IsA2ARequest (request x) || (0 <? String.length body)%nat = true ->
  newRequestErr x = None ->
  upstream x = DoResponse resp (Some respBody) ->
  has_message_id (uuid_source s (uuid_calls s)) (Store.messages (db s)) = false ->
  has_message_id (uuid_source s (S (uuid_calls s))) (Store.messages (db s)) = false ->
  uuid_source s (uuid_calls s) <> uuid_source s (S (uuid_calls s)) ->
  exists reqMsg respMsg,
    Store.messages (db (snd (handleProxy p x s)))
    = Store.messages (db s) ++ [reqMsg; respMsg]
    /\ Message.FromAgent respMsg
       = extractAgentFromURL (http.String_ (http.Url (request x)))
    /\ let result := AnalyzeMessage a respMsg s2 in
       let errors := List.filter (is_category "error") (snd (fst result)) in
       let counted := count_of (Analyzer.agentErrors (fst (fst result)))
                        (Message.FromAgent respMsg) in
       let before := count_of (Analyzer.agentErrors a) (Message.FromAgent respMsg) in
       (400 <= http.StatusCode resp ->
          (exists i, errors = [i]
             /\ Insight.Type_ i
                = (if http.StatusCode resp <? 500 then "warning" else "error")
             /\ Insight.MessageID i = Message.ID respMsg)
          /\ counted = wrap64 (before + 1))
       /\ (http.StatusCode resp < 400 -> jsonrpc_error_text respBody <> EmptyString ->
           (exists i, errors = [i]
              /\ Insight.Type_ i = "error"
              /\ Insight.Title i = "A2A Error Response"
              /\ Insight.MessageID i = Message.ID respMsg)
           /\ counted = wrap64 (before + 1))
       /\ (http.StatusCode resp < 400 -> jsonrpc_error_text respBody = EmptyString ->
           errors = [] /\ counted = before).
Proof.
  intros Hmethod Hbody Hcap Hnew Hup Hid0 Hid1 Hne.
  pose proof (handleProxy_success_state p x s body respBody resp Hmethod Hbody Hcap
                Hnew Hup Hid0 Hid1 Hne) as Hs.
  cbv zeta in Hs. rewrite Hs. clear Hs.
  rewrite (proj1 (discover_agent_frame _ _ _ _ _)).
  cbn [advance db Store.messages Store.set_messages].
  match goal with
  | |- context [[?r; Message.set_ID ?id (fst (ParseResponse ?a1 ?a2 ?a3 ?a4 ?st))]] =>
      set (reqMsg := r);
      pose proof (ParseResponse_run a1 a2 a3 a4 st) as Hrun;
      pose proof (ParseResponse_Error a1 a2 a3 a4 st) as Herr;
      set (parsed := fst (ParseResponse a1 a2 a3 a4 st)) in *;
      set (respMsg := Message.set_ID id parsed)
  end.
  cbv zeta in Hrun.
  destruct Hrun as (_ & _ & Hdir & _ & _ & Hfrom & _ & Hst & _).
  exists reqMsg, respMsg. split; [reflexivity |].
  assert (Hfrom' : Message.FromAgent respMsg
                   = extractAgentFromURL (http.String_ (http.Url (request x)))).
  { change (Message.FromAgent respMsg) with (Message.FromAgent parsed).
    rewrite Hfrom. subst reqMsg. cbn [Message.set_ID Message.ToAgent].
    apply (ParseRequest_fields (request x) body (Proxy.traceID p) s). }
  split; [exact Hfrom' |].
  assert (Hdir' : Message.Direction respMsg = "response") by exact Hdir.
  assert (Hst' : Message.StatusCode respMsg = http.StatusCode resp) by exact Hst.
  assert (Herr' : Message.Error respMsg
                  = if 400 <=? http.StatusCode resp
                    then http_StatusText (http.StatusCode resp)
                    else jsonrpc_error_text respBody) by exact Herr.
  clearbody respMsg. clear Hdir Hst Herr Hfrom parsed.
  cbv zeta.
  destruct (error_insights a respMsg s2 Hdir') as (s1 & H).
  rewrite checkError_value in H.
  pose proof (AnalyzeMessage_agentErrors a respMsg s2) as Hcount.
  unfold is_response in Hcount. rewrite Hdir' in Hcount.
  cbn [String.eqb Ascii.eqb Bool.eqb andb] in Hcount.
  assert (Hfailed : failed respMsg
                    = (400 <=? http.StatusCode resp)
                      || negb (String.eqb (jsonrpc_error_text respBody) EmptyString)).
  { unfold failed. rewrite Herr', Hst'.
    destruct (400 <=? http.StatusCode resp); cbn [orb]; [apply orb_true_r |].
    apply orb_false_r. }
  rewrite Hcount. rewrite Hfailed in H |- *. clear Hcount Hfailed.
  assert (Hsev : error_severity respMsg
                 = if (400 <=? http.StatusCode resp) && (http.StatusCode resp <? 500)
                   then "warning" else "error")
    by (unfold error_severity; rewrite Hst'; reflexivity).
  assert (Htitle : http.StatusCode resp < 400 ->
                   formatErrorTitle respMsg = "A2A Error Response").
  { intros Hlt. unfold formatErrorTitle. rewrite Hst'.
    destruct (Z.leb_spec 400 (http.StatusCode resp)); [lia | reflexivity]. }
  split; [| split].
  - intros Hge. apply Z.leb_le in Hge. rewrite Hge in H, Hsev |- *.
    cbn [orb andb fst snd option_list] in H, Hsev |- *.
    apply Forall2_one_l in H. destruct H as (i & Hi & Hsame).
    destruct Hsame as (_ & Hm & Ht & _). cbn in Hm, Ht.
    split.
    + exists i. split; [exact Hi |]. split; [| symmetry; exact Hm].
      rewrite <- Ht. exact Hsev.
    + rewrite count_of_increment, String.eqb_refl. reflexivity.
  - intros Hlt Htext.
    assert (Hge : (400 <=? http.StatusCode resp) = false) by (apply Z.leb_gt; lia).
    apply String.eqb_neq in Htext.
    rewrite Hge, Htext in H |- *. rewrite Hge in Hsev.
    cbn [orb andb negb fst snd option_list] in H, Hsev |- *.
    apply Forall2_one_l in H. destruct H as (i & Hi & Hsame).
    destruct Hsame as (_ & Hm & Ht & _ & Hti & _). cbn in Hm, Ht, Hti.
    split.
    + exists i. split; [exact Hi |]. split; [rewrite <- Ht; exact Hsev |].
      split; [rewrite <- Hti; apply Htitle; exact Hlt | symmetry; exact Hm].
    + rewrite count_of_increment, String.eqb_refl. reflexivity.
  - intros Hlt Htext.
    assert (Hge : (400 <=? http.StatusCode resp) = false) by (apply Z.leb_gt; lia).
    rewrite Hge, Htext in H |- *.
    cbn [orb andb negb fst snd option_list String.eqb] in H |- *.
    apply Forall2_nil_l in H. split; [exact H | reflexivity].
Qed.

End PipelineAnswers.

(** The sample call answered with a 500: one error insight, of severity
    error. *)
Lemma upstream_answer_reported_witness :
  exists reqMsg respMsg,
    Store.messages (db (snd (@handleProxy sample_lib sample_proxy call_answered_500
                               sample_sys))) = [reqMsg; respMsg]
    /\ exists i,
         List.filter (is_category "error")
           (snd (fst (@AnalyzeMessage sample_lib sample_analyzer respMsg sample_sys))) = [i]
         /\ Insight.Type_ i = "error".
Proof.
  destruct (@upstream_answer_reported sample_lib sample_proxy call_answered_500 sample_sys
              sample_call sample_failure upstream_500 sample_analyzer sample_sys)
    as (reqMsg & respMsg & Hm & _ & Hrule).
  - vm_compute. discriminate.
  - reflexivity.
  - vm_compute. reflexivity.
  - reflexivity.
  - reflexivity.
  - vm_compute. reflexivity.
  - vm_compute. reflexivity.
  - vm_compute. discriminate.
  - cbv zeta in Hrule. destruct Hrule as (Hge & _).
    destruct Hge as ((i & Hi & Ht & _) & _); [cbn; lia |].
    exists reqMsg, respMsg. split; [exact Hm |]. exists i. split; [exact Hi | exact Ht].
Defined.

(** ** The hub *)

Lemma connect_ok (h : Hub.t) : hub_ok h -> hub_ok (connect h).
Proof.
  intros (Hopen & Hcap). unfold connect.
  set (c := fresh (dom (Hub.chans h))).
  assert (Hfresh : Hub.chans h !! c = None).
  { apply not_elem_of_dom. apply is_fresh. }
  split; cbn [Hub.clients Hub.chans].
  - intros c' Hin. destruct (decide (c' = c)) as [-> | Hne].
    + eexists. rewrite lookup_insert_eq. split; reflexivity.
    + rewrite lookup_insert_ne by congruence. apply Hopen.
      apply elem_of_union in Hin. destruct Hin as [Hin | Hin]; [| exact Hin].
      apply elem_of_singleton in Hin. contradiction.
  - intros c' ch Hch. destruct (decide (c' = c)) as [-> | Hne].
    + rewrite lookup_insert_eq in Hch. injection Hch as <-. cbn. lia.
    + rewrite lookup_insert_ne in Hch by congruence. eapply Hcap. exact Hch.
Qed.

Lemma remove_closed_ok (h : Hub.t) (c : nat) (ch : Hub.Chan) :
  hub_ok h -> Hub.chans h !! c = Some ch ->
  hub_ok (Hub.mk (Hub.clients h ∖ {[c]})
            (<[c := Hub.mkChan (Hub.queue ch) true]> (Hub.chans h))).
Proof.
  intros (Hopen & Hcap) Hch. split; cbn [Hub.clients Hub.chans].
  - intros c' Hin. apply elem_of_difference in Hin. destruct Hin as (Hin & Hne).
    rewrite lookup_insert_ne
      by (intros E; apply Hne, elem_of_singleton; symmetry; exact E).
    apply Hopen. exact Hin.
  - intros c' ch' Hch'. destruct (decide (c' = c)) as [-> | Hne].
    + rewrite lookup_insert_eq in Hch'. injection Hch' as <-. cbn.
      eapply Hcap. exact Hch.
    + rewrite lookup_insert_ne in Hch' by congruence. eapply Hcap. exact Hch'.
Qed.

Lemma unregister_ok (h : Hub.t) (c : nat) :
  hub_ok h -> exists h', unregister h c = Some h' /\ hub_ok h'.
Proof.
  intros Hok. unfold unregister.
  destruct (bool_decide_reflect (c ∈ Hub.clients h)) as [Hin | Hout].
  - destruct (proj1 Hok c Hin) as (ch & Hch & Hopen).
    rewrite Hch. unfold close. rewrite Hopen.
    eexists. split; [reflexivity |]. apply remove_closed_ok; assumption.
  - exists h. split; [reflexivity | exact Hok].
Qed.

Lemma drain_ok (h : Hub.t) (c : nat) : hub_ok h -> hub_ok (drain h c).
Proof.
  intros (Hopen & Hcap). unfold drain.
  destruct (Hub.chans h !! c) as [ch |] eqn:Hch; [| split; assumption].
  split; cbn [Hub.clients Hub.chans].
  - intros c' Hin. destruct (decide (c' = c)) as [-> | Hne].
    + destruct (Hopen c Hin) as (ch0 & Hch0 & Hopen0).
      assert (ch0 = ch) by congruence. subst ch0.
      eexists. rewrite lookup_insert_eq. split; [reflexivity | exact Hopen0].
    + rewrite lookup_insert_ne by congruence. apply Hopen. exact Hin.
  - intros c' ch' Hch'. destruct (decide (c' = c)) as [-> | Hne].
    + rewrite lookup_insert_eq in Hch'. injection Hch' as <-. cbn.
      pose proof (Hcap c ch Hch). destruct (Hub.queue ch); cbn in *; lia.
    + rewrite lookup_insert_ne in Hch' by congruence. eapply Hcap. exact Hch'.
Qed.

(** The body of the broadcast loop at a registered client. *)
Lemma broadcast_to_ok (m : string) (h : Hub.t) (c : nat) :
  hub_ok h -> c ∈ Hub.clients h ->
  exists ch h',
    Hub.chans h !! c = Some ch
    /\ broadcast_to m h c = Some h'
    /\ hub_ok h'
    /\ (forall c', c' <> c ->
          Hub.chans h' !! c' = Hub.chans h !! c'
          /\ (c' ∈ Hub.clients h' <-> c' ∈ Hub.clients h))
    /\ (if (length (Hub.queue ch) <? Hub.capacity)%nat
        then Hub.chans h' !! c = Some (Hub.mkChan (Hub.queue ch ++ [m]) false)
             /\ c ∈ Hub.clients h'
        else Hub.chans h' !! c = Some (Hub.mkChan (Hub.queue ch) true)
             /\ c ∉ Hub.clients h').
Proof.
  intros Hok Hin. destruct (proj1 Hok c Hin) as (ch & Hch & Hopen).
  exists ch. unfold broadcast_to, try_send, close. rewrite Hch, Hopen.
  destruct (Nat.ltb_spec (length (Hub.queue ch)) Hub.capacity) as [Hlt | Hge].
  - eexists. split; [reflexivity |]. split; [reflexivity |].
    split; [| split]; cbn [Hub.clients Hub.chans].
    + destruct Hok as (Ho & Hc). split; cbn [Hub.clients Hub.chans].
      * intros c' Hin'. destruct (decide (c' = c)) as [-> | Hne].
        -- eexists. rewrite lookup_insert_eq. split; reflexivity.
        -- rewrite lookup_insert_ne by congruence. apply Ho. exact Hin'.
      * intros c' ch' Hch'. destruct (decide (c' = c)) as [-> | Hne].
        -- rewrite lookup_insert_eq in Hch'. injection Hch' as <-. cbn.
           rewrite length_app. cbn. lia.
        -- rewrite lookup_insert_ne in Hch' by congruence. eapply Hc. exact Hch'.
    + intros c' Hne. rewrite lookup_insert_ne by congruence. split; reflexivity.
    + rewrite lookup_insert_eq. split; [reflexivity | exact Hin].
  - eexists. split; [reflexivity |]. split; [reflexivity |].
    split; [| split]; cbn [Hub.clients Hub.chans].
    + apply remove_closed_ok; assumption.
    + intros c' Hne. rewrite lookup_insert_ne by congruence.
      split; [reflexivity |]. rewrite elem_of_difference, elem_of_singleton. tauto.
    + rewrite lookup_insert_eq. split; [reflexivity |].
      rewrite elem_of_difference, elem_of_singleton. tauto.
Qed.

(** The loop of a broadcast over clients met once each. *)
Lemma broadcast_loop_ok (m : string) (range : list nat) : forall h,
  hub_ok h -> NoDup range -> (forall c, c ∈ range -> c ∈ Hub.clients h) ->
  exists h',
    broadcast_loop m range h = Some h'
    /\ hub_ok h'
    /\ (forall c, c ∉ range ->
          Hub.chans h' !! c = Hub.chans h !! c
          /\ (c ∈ Hub.clients h' <-> c ∈ Hub.clients h))
    /\ (forall c ch, c ∈ range -> Hub.chans h !! c = Some ch ->
          if (length (Hub.queue ch) <? Hub.capacity)%nat
          then Hub.chans h' !! c = Some (Hub.mkChan (Hub.queue ch ++ [m]) false)
               /\ c ∈ Hub.clients h'
          else Hub.chans h' !! c = Some (Hub.mkChan (Hub.queue ch) true)
               /\ c ∉ Hub.clients h').
Proof.
  induction range as [| c rest IH]; intros h Hok Hnd Hall; cbn [broadcast_loop].
  - exists h. split; [reflexivity |]. split; [exact Hok |]. split.
    + intros c _. split; reflexivity.
    + intros c ch Hin. apply elem_of_nil in Hin. contradiction.
  - apply NoDup_cons in Hnd. destruct Hnd as (Hnotin & Hnd).
    destruct (broadcast_to_ok m h c Hok) as (ch & h1 & Hch & Hstep & Hok1 & Hother & Hc).
    { apply Hall. left. }
    rewrite Hstep.
    destruct (IH h1 Hok1 Hnd) as (h' & Hloop & Hok' & Hout & Hin).
    { intros c' Hc'. apply (Hother c').
      - intros ->. contradiction.
      - apply Hall. right. exact Hc'. }
    exists h'. split; [exact Hloop |]. split; [exact Hok' |]. split.
    + intros c' Hc'. apply not_elem_of_cons in Hc'. destruct Hc' as (Hne & Hrest).
      destruct (Hout c' Hrest) as (E1 & E2). destruct (Hother c' Hne) as (E3 & E4).
      split; [congruence | tauto].
    + intros c' ch' Hc' Hch'. apply elem_of_cons in Hc'.
      destruct Hc' as [-> | Hrest].
      * assert (ch' = ch) by congruence. subst ch'.
        destruct (Hout c Hnotin) as (E1 & E2).
        destruct (Nat.ltb (length (Hub.queue ch)) Hub.capacity);
          destruct Hc as (Hc1 & Hc2); split; try congruence; tauto.
      * apply Hin; [exact Hrest |].
        rewrite (proj1 (Hother c' ltac:(intros ->; contradiction))). exact Hch'.
Qed.

Lemma NewHub_ok : hub_ok NewHub.
Proof.
  split; cbn.
  - intros c Hc. apply elem_of_empty in Hc. contradiction.
  - intros c ch Hch. rewrite lookup_empty in Hch. discriminate.
Qed.

Lemma runs_one (h : Hub.t) (e : Event) (r : option Hub.t) : step h e r -> runs h [e] r.
Proof.
  intros Hstep. destruct r as [h' |].
  - eapply runs_step; [exact Hstep | apply runs_nil].
  - apply runs_panic. exact Hstep.
Qed.

Lemma step_ok (h : Hub.t) (e : Event) (r : option Hub.t) :
  hub_ok h -> step h e r -> exists h', r = Some h' /\ hub_ok h'.
Proof.
  intros Hok Hstep. destruct Hstep as [| c | m range Hperm | c].
  - eexists. split; [reflexivity | apply connect_ok; exact Hok].
  - apply unregister_ok. exact Hok.
  - destruct (broadcast_loop_ok m range h Hok) as (h' & Hloop & Hok' & _).
    + rewrite Hperm. apply NoDup_elements.
    + intros c Hc. rewrite Hperm in Hc. apply elem_of_elements in Hc. exact Hc.
    + exists h'. split; assumption.
  - eexists. split; [reflexivity | apply drain_ok; exact Hok].
Qed.

(** X28: the hub never panics: whatever clients connect, unregister
    (also twice, also after the hub dropped them) and take messages off
    their channels, whatever is broadcast, and in whatever order a
    broadcast meets the clients, the loop closes no channel twice and
    sends on no closed channel; every registered client has an open
    channel, and no channel ever holds more than 256 messages. *)
Theorem hub_never_panics (es : list Event) (r : option Hub.t) :
  runs NewHub es r ->
  exists h, r = Some h /\ hub_ok h.
Proof.
  assert (Hgen : forall h es r, runs h es r -> hub_ok h ->
                                exists h', r = Some h' /\ hub_ok h').
  { clear. intros h es r Hruns. induction Hruns as [h | h e h' es r Hstep _ IH | h e es Hstep];
      intros Hok.
    - exists h. split; [reflexivity | exact Hok].
    - destruct (step_ok h e _ Hok Hstep) as (h1 & E & Hok1).
      injection E as <-. apply IH. exact Hok1.
    - destruct (step_ok h e _ Hok Hstep) as (h1 & E & _). discriminate. }
  intros Hruns. apply (Hgen NewHub es r Hruns). exact NewHub_ok.
Qed.

(** One client connects and something is broadcast. *)
Lemma hub_never_panics_witness :
  exists h, broadcast_loop "hello" [0%nat] (connect NewHub) = Some h /\ hub_ok h.
Proof.
  apply (hub_never_panics [Connect; Broadcast "hello"]).
  eapply runs_step; [apply step_connect |].
  apply runs_one, step_broadcast. vm_compute. reflexivity.
Defined.

(** X29: a broadcast, from a state of the hub in order: every registered
    client whose channel has room gets the message, once, after what its
    channel held, and stays registered; a registered client whose
    channel is full is dropped and its channel closed, what it held left
    in place; the channels of the other clients are untouched. The order
    in which the clients are met makes no difference. *)
Theorem broadcast_delivery (h : Hub.t) (m : string) (r : option Hub.t) :
  hub_ok h ->
  step h (Broadcast m) r ->
  exists h',
    r = Some h'
    /\ (forall c, c ∉ Hub.clients h ->
          Hub.chans h' !! c = Hub.chans h !! c /\ c ∉ Hub.clients h')
    /\ (forall c ch, c ∈ Hub.clients h -> Hub.chans h !! c = Some ch ->
          if (length (Hub.queue ch) <? Hub.capacity)%nat
          then Hub.chans h' !! c = Some (Hub.mkChan (Hub.queue ch ++ [m]) false)
               /\ c ∈ Hub.clients h'
          else Hub.chans h' !! c = Some (Hub.mkChan (Hub.queue ch) true)
               /\ c ∉ Hub.clients h').
Proof.
  intros Hok Hstep. inversion Hstep as [| | m' range Hperm |]; subst.
  destruct (broadcast_loop_ok m range h Hok) as (h' & Hloop & Hok' & Hout & Hin).
  - rewrite Hperm. apply NoDup_elements.
  - intros c Hc. rewrite Hperm in Hc. apply elem_of_elements in Hc. exact Hc.
  - exists h'. split; [exact Hloop |]. split.
    + intros c Hc. destruct (Hout c) as (E1 & E2).
      * rewrite Hperm, elem_of_elements. exact Hc.
      * split; [exact E1 | tauto].
    + intros c ch Hc Hch. apply Hin; [| exact Hch].
      rewrite Hperm, elem_of_elements. exact Hc.
Qed.

(** One client, with an empty channel: the broadcast leaves the message
    in its channel. *)
Lemma broadcast_delivery_witness :
  exists h',
    broadcast_loop "hello" [0%nat] (connect NewHub) = Some h'
    /\ Hub.chans h' !! 0%nat = Some (Hub.mkChan ["hello"] false).
Proof.
  destruct (broadcast_delivery (connect NewHub) "hello"
              (broadcast_loop "hello" [0%nat] (connect NewHub)))
    as (h' & Hr & _ & Hin).
  - apply connect_ok, NewHub_ok.
  - apply step_broadcast. vm_compute. reflexivity.
  - exists h'. split; [exact Hr |].
    apply (Hin 0%nat (Hub.mkChan [] false)).
    + refine (bool_decide_unpack _ _). vm_compute. exact I.
    + vm_compute. reflexivity.
Defined.
